(* ===================================================================== *)
(* Consent reconciliation and gating of the ITR demo application.         *)
(*                                                                        *)
(* Shallow embedding of                                                   *)
(*   PrivacyService          (required as ./privacy-service)              *)
(*   ConsentController       (server/controllers/consent-controller.js)   *)
(*   ITRController           (required as ./itr-controller)               *)
(*   the login middleware of the itr and consent routers                  *)
(*   RegistrationController  (server/controllers/registration-controller  *)
(*                            .js)                                        *)
(*   the browser's form validators and consent toggles                    *)
(*                                                                        *)
(* Modelling conventions                                                  *)
(*  - A JavaScript string is a [string] whose characters are its UTF-16  *)
(*    code units; the embedding covers the strings whose code units are   *)
(*    below 256, the character of code n being U+00n (so U+00A0, the      *)
(*    no-break space, is the character of code 160 and U+00DF, the sharp  *)
(*    s, the character of code 223).  On these, white space, trim, the    *)
(*    case mappings and the regular expressions are JavaScript's.         *)
(*  - A string-valued property that may be missing is an [option string]; *)
(*    [None] is JavaScript's undefined.  Values of unknown type (request  *)
(*    bodies, consent states) are [jsval]s; numbers are integers, and     *)
(*    [JObject] is an object without properties of its own, {}.  Arrays   *)
(*    and objects with properties are not values of the embedding: where  *)
(*    a statement depends on how an object is converted to a string or    *)
(*    compared, it is stated for the other values.                        *)
(*  - A plain object used as a dictionary is a finite map on its own      *)
(*    keys; where the code reads or writes such an object under a key it  *)
(*    does not control, the members it inherits from Object.prototype are *)
(*    modelled as well.  Built-in objects are taken as the language       *)
(*    defines them when a handler starts.                                 *)
(*  - An async method is a function from the state of the outside world   *)
(*    to a new state and a completion (a value or a thrown error);        *)
(*    await is sequencing.  Every SDK call is appended to a call log.     *)
(* ===================================================================== *)

From stdpp Require Import base option list strings gmap pretty.
From Stdlib Require Import ZArith Ascii String List Permutation Lia.

Local Open Scope string_scope.
Local Open Scope list_scope.

(* --------------------------------------------------------------------- *)
(* JavaScript values                                                      *)
(* --------------------------------------------------------------------- *)

Module JS.

Inductive jsval :=
| JUndefined
| JNull
| JBool (b : bool)
| JNum (n : Z)
| JStr (s : string)
| JObject.

#[global] Instance jsval_eq_dec : EqDecision jsval.
Proof. solve_decision. Defined.

(* ToBoolean *)
Definition truthy (v : jsval) : bool :=
  match v with
  | JUndefined | JNull => false
  | JBool b => b
  | JNum n => negb (n =? 0)%Z
  | JStr s => negb (String.eqb s "")
  | JObject => true
  end.

(* v === w (no NaN in the model, objects compared by value are never equal) *)
Definition strict_eq (v w : jsval) : bool :=
  match v, w with
  | JObject, _ | _, JObject => false
  | _, _ => bool_decide (v = w)
  end.

(* a || b *)
Definition or_else (a b : jsval) : jsval := if truthy a then a else b.

(* a parameter declared as `x = d`: d replaces an undefined argument *)
Definition default_param (x d : jsval) : jsval :=
  match x with
  | JUndefined => d
  | _ => x
  end.

(* ToPropertyKey.  The numbers of the embedding are the integers that
   JavaScript prints in decimal, those of magnitude below 10^21. *)
Definition to_key (v : jsval) : string :=
  match v with
  | JUndefined => "undefined"
  | JNull => "null"
  | JBool true => "true"
  | JBool false => "false"
  | JNum n => pretty n
  | JStr s => s
  | JObject => "[object Object]"
  end.

(* a string property that may be undefined *)
Definition of_prop (o : option string) : jsval :=
  match o with Some s => JStr s | None => JUndefined end.

Definition truthy_str (o : option string) : bool := truthy (of_prop o).

(* a || b on string properties *)
Definition or_prop (a b : option string) : option string :=
  if truthy_str a then a else b.

(* ---- String.prototype ------------------------------------------------ *)

(* [A-Z], [a-z] and \d of the regular expressions *)
Definition is_upper (c : ascii) : bool :=
  let n := nat_of_ascii c in (65 <=? n)%nat && (n <=? 90)%nat.
Definition is_lower (c : ascii) : bool :=
  let n := nat_of_ascii c in (97 <=? n)%nat && (n <=? 122)%nat.
Definition is_digit (c : ascii) : bool :=
  let n := nat_of_ascii c in (48 <=? n)%nat && (n <=? 57)%nat.

(* U+00A0, NO-BREAK SPACE *)
Definition NBSP : ascii := ascii_of_nat 160.
(* U+00DF, LATIN SMALL LETTER SHARP S *)
Definition SHARP_S : ascii := ascii_of_nat 223.

(* \s, and what trim() strips: TAB, LF, VT, FF, CR, SPACE and U+00A0 *)
Definition is_ws (c : ascii) : bool :=
  let n := nat_of_ascii c in
  ((9 <=? n)%nat && (n <=? 13)%nat) || (n =? 32)%nat || (n =? 160)%nat.

(* the capital letters U+00C0..U+00DE (U+00D7 is the multiplication sign) and
   the small letters U+00E0..U+00FE (U+00F7 is the division sign) *)
Definition is_upper_latin1 (c : ascii) : bool :=
  let n := nat_of_ascii c in (192 <=? n)%nat && (n <=? 222)%nat && negb (n =? 215)%nat.
Definition is_lower_latin1 (c : ascii) : bool :=
  let n := nat_of_ascii c in (224 <=? n)%nat && (n <=? 254)%nat && negb (n =? 247)%nat.

Definition lower_char (c : ascii) : ascii :=
  if is_upper c || is_upper_latin1 c then ascii_of_nat (nat_of_ascii c + 32) else c.

(* The upper case of one character.  U+00DF becomes "SS".  The upper cases of
   U+00B5 and U+00FF are U+039C and U+0178, which are not characters of the
   embedding: these two are left in place (like their upper cases they are
   neither in A-Z nor in 0-9). *)
Definition upper_char (c : ascii) : string :=
  if is_lower c || is_lower_latin1 c
  then String (ascii_of_nat (nat_of_ascii c - 32)) EmptyString
  else if Ascii.eqb c SHARP_S then "SS"
  else String c EmptyString.

Fixpoint map_chars (f : ascii -> ascii) (s : string) : string :=
  match s with
  | EmptyString => EmptyString
  | String c r => String (f c) (map_chars f r)
  end.

Fixpoint filter_chars (f : ascii -> bool) (s : string) : string :=
  match s with
  | EmptyString => EmptyString
  | String c r => if f c then String c (filter_chars f r) else filter_chars f r
  end.

Fixpoint all_chars (f : ascii -> bool) (s : string) : bool :=
  match s with
  | EmptyString => true
  | String c r => f c && all_chars f r
  end.

Definition toLowerCase : string -> string := map_chars lower_char.

Fixpoint toUpperCase (s : string) : string :=
  match s with
  | EmptyString => EmptyString
  | String c r => upper_char c ++ toUpperCase r
  end.

Fixpoint trimStart (s : string) : string :=
  match s with
  | String c r => if is_ws c then trimStart r else s
  | EmptyString => EmptyString
  end.

Fixpoint trimEnd (s : string) : string :=
  match s with
  | EmptyString => EmptyString
  | String c r =>
      let t := trimEnd r in
      if is_ws c && String.eqb t "" then EmptyString else String c t
  end.

Definition trim (s : string) : string := trimEnd (trimStart s).

(* hay.includes(needle) *)
Fixpoint includes (hay needle : string) : bool :=
  String.prefix needle hay ||
  match hay with
  | EmptyString => false
  | String _ r => includes r needle
  end.

(* s.replace(/\s+/g, '_') : every maximal run of white space becomes one '_' *)
Fixpoint replace_ws_runs (in_run : bool) (s : string) : string :=
  match s with
  | EmptyString => EmptyString
  | String c r =>
      if is_ws c
      then (if in_run then replace_ws_runs true r
            else String "_" (replace_ws_runs true r))
      else String c (replace_ws_runs false r)
  end.

(* '*'.repeat(n) *)
Fixpoint repeat_str (s : string) (n : nat) : string :=
  match n with
  | O => EmptyString
  | S k => s ++ repeat_str s k
  end.

(* s.slice(0, n) for 0 <= n *)
Fixpoint slice_to (n : nat) (s : string) : string :=
  match n, s with
  | S k, String c r => String c (slice_to k r)
  | _, _ => EmptyString
  end.

Fixpoint drop_chars (n : nat) (s : string) : string :=
  match n, s with
  | S k, String _ r => drop_chars k r
  | _, _ => s
  end.

(* s.slice(-n) for 0 < n : the last n characters, all of s when it is shorter *)
Definition slice_last (n : nat) (s : string) : string :=
  drop_chars (String.length s - n) s.

(* ---- Object.prototype ------------------------------------------------ *)

(* The properties that a plain object inherits from Object.prototype.
   __proto__ is an accessor: it reads as Object.prototype and its setter
   ignores a value that is no object.  The others are functions. *)
Definition Object_prototype_members : list string :=
  ["constructor"; "__proto__"; "hasOwnProperty"; "isPrototypeOf";
   "propertyIsEnumerable"; "toLocaleString"; "toString"; "valueOf";
   "__defineGetter__"; "__defineSetter__"; "__lookupGetter__"; "__lookupSetter__"].

(* obj[key] of a plain object without an own property key is inherited *)
Definition inherited (key : string) : bool :=
  existsb (String.eqb key) Object_prototype_members.

(* The properties of a built-in function that strict-mode code can neither
   create nor change: name and length are read-only, caller and arguments
   are accessors of Function.prototype that throw. *)
Definition function_readonly : list string := ["name"; "length"; "caller"; "arguments"].

(* arr.indexOf(x) under the equality test [eqb], with -1 for absent *)
Fixpoint indexOf_from {A} (eqb : A -> A -> bool) (i : Z) (x : A) (l : list A) : Z :=
  match l with
  | [] => (-1)%Z
  | y :: r => if eqb y x then i else indexOf_from eqb (i + 1)%Z x r
  end.
Definition indexOf {A} (eqb : A -> A -> bool) (l : list A) (x : A) : Z :=
  indexOf_from eqb 0 x l.

End JS.
Import JS.

(* --------------------------------------------------------------------- *)
(* Data model                                                             *)
(* --------------------------------------------------------------------- *)

(* an element of a consent entry's nested `attributes` *)
Record Attribute := {
  a_attributeId : option string;
  a_id : option string;
  a_attributeName : option string;
  a_label : option string;
  a_name : option string;
  a_state : jsval }.

(* the `attributes` property of a consent entry *)
Inductive AttributesProp :=
| NoAttributes                         (* undefined *)
| ArrayOf (items : list Attribute)     (* Array.isArray holds *)
| ObjectOf (values : list Attribute).  (* a plain object; Object.values order *)

(* a consent entry as returned by the privacy SDK *)
Record Consent := {
  c_purposeId : option string;
  c_attributeId : option string;
  c_attributeName : option string;
  c_state : jsval;
  c_attributes : AttributesProp }.

(* an entry of a purpose's `attributes` in getConsentMetadata *)
Record MetaAttribute := {
  id : string;
  label : string;
  description : string }.

Record PurposeMeta := {
  name : string;
  purpose_description : string;
  notice : string;
  attributes : list MetaAttribute }.

(* the closed set of logical attributes of the data model *)
Definition logical_attributes : list string :=
  ["name"; "email"; "mobile_number"; "aadhar_id"; "pan_id"].

(* --------------------------------------------------------------------- *)
(* The world outside: the privacy SDK                                     *)
(* --------------------------------------------------------------------- *)

(* a JavaScript Error with an optional `code` *)
Record error := { err_code : option string; err_message : string }.

Inductive completion (A : Type) :=
| Normal (a : A)
| Throw (e : error).
Arguments Normal {A} a.
Arguments Throw {A} e.

Definition TypeError (msg : string) : error :=
  {| err_code := None; err_message := msg |}.

(* sequencing of code that may throw *)
Definition bindc {A B} (m : completion A) (k : A -> completion B) : completion B :=
  match m with
  | Normal a => k a
  | Throw e => Throw e
  end.

(* list.forEach(x => { s = f s x }) where the callback may throw *)
Fixpoint for_each {A S} (f : S -> A -> completion S) (l : list A) (s : S)
  : completion S :=
  match l with
  | [] => Normal s
  | a :: rest => bindc (f s a) (for_each f rest)
  end.

Record Auth := { accessToken : string; subjectId : option string }.

(* new Privacy(sdkConfig, auth, context) *)
Record Client := { client_auth : Auth; context_subjectId : option string }.

(* the value handed to storeConsents *)
Record ConsentValue := {
  v_purposeId : jsval;
  v_attributeId : jsval;
  v_accessTypeId : string;
  v_state : jsval }.

Record UserConsents := { consents : option (list Consent) }.
Record PurposeDef := { def_attributes : option (list jsval) }.  (* the ids of its attributes *)
Record MetaResp := { purposes : option (gmap string PurposeDef) }.
Record StoreResult := { status : string }.

Inductive SdkCall :=
| GetUserConsents (c : Client)
| GetConsentMetadata (c : Client) (purposeIds : list jsval)
| StoreConsents (c : Client) (values : list ConsentValue).

(* The SDK over an external system in state W. *)
Record Sdk (W : Type) := {
  sdk_getUserConsents : Client -> W -> W * completion UserConsents;
  sdk_getConsentMetadata : Client -> list jsval -> W -> W * completion (option MetaResp);
  sdk_storeConsents : Client -> list ConsentValue -> W -> W * completion (option StoreResult) }.
Arguments sdk_getUserConsents {W}.
Arguments sdk_getConsentMetadata {W}.
Arguments sdk_storeConsents {W}.

(* external state plus the log of SDK calls made so far (oldest first) *)
Record Env (W : Type) := { ext : W; calls : list SdkCall }.
Arguments ext {W}.
Arguments calls {W}.
Arguments Build_Env {W}.

Definition Async (W A : Type) : Type := Env W -> Env W * completion A.

Definition ret {W A} (a : A) : Async W A := fun e => (e, Normal a).
Definition throw {W A} (x : error) : Async W A := fun e => (e, Throw x).
Definition bind {W A B} (m : Async W A) (k : A -> Async W B) : Async W B :=
  fun e => match m e with
           | (e', Normal a) => k a e'
           | (e', Throw x) => (e', Throw x)
           end.
(* try { m } catch (x) { h x } *)
Definition try_catch {W A} (m : Async W A) (h : error -> Async W A) : Async W A :=
  fun e => match m e with
           | (e', Normal a) => (e', Normal a)
           | (e', Throw x) => h x e'
           end.

(* synchronous code that may throw, inside an async function *)
Definition lift {W A} (c : completion A) : Async W A := fun e => (e, c).

Notation "x <- m ;; k" := (bind m (fun x => k))
  (at level 100, m at next level, right associativity).

Definition sdk_call {W A} (c : SdkCall) (op : W -> W * completion A) : Async W A :=
  fun e => let (w, r) := op (ext e) in
           ({| ext := w; calls := calls e ++ [c] |}, r).

(* --------------------------------------------------------------------- *)
(* server/controllers/privacy-service.js                                  *)
(* --------------------------------------------------------------------- *)

Module PrivacyService.

(* getConsentMetadata(purposeId): the metadata table of the demo *)
Definition MARKETING_COMMUNICATIONS_meta : PurposeMeta := {|
  name := "Marketing Communications";
  purpose_description := "Send you marketing emails and promotional offers";
  notice := "We will use your personal data to send you relevant marketing communications. You can withdraw this consent at any time.";
  attributes := [
    {| id := "name"; label := "Full Name";
       description := "Used to personalize communications" |};
    {| id := "email"; label := "Email Address";
       description := "Used to send marketing emails" |};
    {| id := "mobile_number"; label := "Mobile Number";
       description := "Used to send SMS notifications" |} ] |}.

Definition ITR_FILING_meta : PurposeMeta := {|
  name := "ITR Filing Services";
  purpose_description := "File your Income Tax Return using our secure platform";
  notice := "We will use your personal and tax-related data to assist with your ITR filing in compliance with DPDP regulations. Your data is encrypted and protected.";
  attributes := [
    {| id := "name"; label := "Full Name";
       description := "Required for ITR filing" |};
    {| id := "email"; label := "Email Address";
       description := "For filing confirmations and updates" |};
    {| id := "mobile_number"; label := "Mobile Number";
       description := "For OTP and two-factor authentication" |};
    {| id := "aadhar_id"; label := "Aadhaar Number";
       description := "Required for ITR filing verification" |};
    {| id := "pan_id"; label := "PAN Number";
       description := "Required for ITR filing identification" |} ] |}.

Definition metadata : gmap string PurposeMeta :=
  <["MARKETING_COMMUNICATIONS" := MARKETING_COMMUNICATIONS_meta]>
  (<["ITR_FILING" := ITR_FILING_meta]> ∅).

(* return metadata[purposeId] || null.  For a member name of Object.prototype
   the code returns the inherited member, an object without `attributes`; its
   callers read nothing else of it and so treat it as they treat null: [None]
   stands for both. *)
Definition getConsentMetadata (purposeId : string) : option PurposeMeta :=
  metadata !! purposeId.

(* { attributeId, attributeName, state } pushed on consentedAttributes *)
Record ConsentedAttribute := {
  ca_attributeId : option string;
  ca_attributeName : option string;
  ca_state : jsval }.

(* the body of consent.forEach(entry => ...) *)
Definition flatten_entry (entry : Consent) : list ConsentedAttribute :=
  if truthy_str (c_attributeId entry) then
    [ {| ca_attributeId := c_attributeId entry;
         ca_attributeName := c_attributeName entry;
         ca_state := c_state entry |} ]
  else
    match c_attributes entry with
    | ArrayOf items =>
        if (0 <? Z.of_nat (List.length items))%Z then
          List.map (fun a =>
            {| ca_attributeId := or_prop (a_attributeId a) (a_id a);
               ca_attributeName :=
                 or_prop (or_prop (a_attributeName a) (a_label a)) (a_name a);
               ca_state := a_state a |}) items
        else []
    | _ => []
    end.

Definition consentedAttributes (consent : list Consent) : list ConsentedAttribute :=
  flat_map flatten_entry consent.

(* metaIds = (meta && meta.attributes) ? meta.attributes.map(a => a.id) : [] *)
Definition metaIds_of (meta : option PurposeMeta) : list string :=
  match meta with
  | Some m => List.map id (attributes m)
  | None => []
  end.

(* metaIds.find(p) || fallback *)
Definition find_or (p : string -> bool) (metaIds : list string) (fallback : string)
  : option string :=
  or_prop (List.find p metaIds) (Some fallback).

(* The closure findLogicalId of hasRequiredConsents; the one of
   getMissingRequiredConsents is the same text. *)
Definition findLogicalId (meta : option PurposeMeta)
    (attrId attrName : option string) : option string :=
  let metaIds := metaIds_of meta in
  if truthy_str attrId &&
     negb (indexOf String.eqb metaIds (default "" attrId) =? -1)%Z
  then attrId
  else
    match meta with
    | Some m =>
        if truthy_str attrName then
          let lowerName := trim (toLowerCase (default "" attrName)) in
          match List.find (fun a => truthy (JStr (label a)) &&
                             String.eqb (toLowerCase (label a)) lowerName)
                          (attributes m) with
          | Some exact => Some (id exact)
          | None =>
          match List.find (fun a => truthy (JStr (label a)) &&
                             (includes (toLowerCase (label a)) lowerName ||
                              includes lowerName (toLowerCase (label a))))
                          (attributes m) with
          | Some partial => Some (id partial)
          | None =>
              if includes lowerName "email" then
                find_or (fun i => includes i "email") metaIds "email"
              else if includes lowerName "mobile" then
                find_or (fun i => includes i "mobile") metaIds "mobile_number"
              else if includes lowerName "name" then
                or_prop (or_prop (List.find (fun i => String.eqb i "name") metaIds)
                                 (List.find (fun i => includes i "name") metaIds))
                        (Some "name")
              else if includes lowerName "pan" then
                find_or (fun i => includes i "pan") metaIds "pan_id"
              else if includes lowerName "aadhaar" || includes lowerName "aadhar" then
                find_or (fun i => includes i "aadhar" || includes i "aadhaar")
                        metaIds "aadhar_id"
              else attrId
          end
          end
        else attrId
    | None => attrId
    end.

(* { logicalId, state } *)
Record ConsentedLogical := { logicalId : option string; state : jsval }.

Definition consentedLogical (meta : option PurposeMeta) (consent : list Consent)
  : list ConsentedLogical :=
  List.map (fun ca =>
         {| logicalId := findLogicalId meta (ca_attributeId ca) (ca_attributeName ca);
            state := ca_state ca |})
      (consentedAttributes consent).

(* consentedLogical.some(ca => ca.logicalId === reqAttr && ca.state === 1) *)
Definition some_granted (cl : list ConsentedLogical) (reqAttr : string) : bool :=
  existsb (fun ca => strict_eq (of_prop (logicalId ca)) (JStr reqAttr) &&
                     strict_eq (state ca) (JNum 1)) cl.

Section Methods.
Context {W : Type}.
Variable sdk : Sdk W.

Definition _getPrivacyClient (auth : Auth) (subjectId : option string) : Client :=
  {| client_auth := auth;
     context_subjectId := if truthy_str subjectId then subjectId else None |}.

Definition getUserConsents (auth : Auth) (userId : option string)
  : Async W (list Consent) :=
  try_catch
    (let dpcmClient := _getPrivacyClient auth userId in
     result <- sdk_call (GetUserConsents dpcmClient)
                        (sdk_getUserConsents sdk dpcmClient) ;;
     ret (default [] (consents result)))
    (fun error => throw error).

Definition getConsentForPurpose (auth : Auth) (purposeId : string)
  : Async W (list Consent) :=
  try_catch
    (consents <- getUserConsents auth None ;;
     let purposeConsents :=
       List.filter (fun c => strict_eq (of_prop (c_purposeId c)) (JStr purposeId))
              consents in
     ret purposeConsents)
    (fun error => throw error).

Definition hasRequiredConsents (auth : Auth) (purposeId : string)
    (requiredAttributes_arg : option (list string)) : Async W bool :=
  let requiredAttributes := default [] requiredAttributes_arg in
  try_catch
    (consent <- getConsentForPurpose auth purposeId ;;
     if (Z.of_nat (List.length consent) =? 0)%Z then ret false
     else if (Z.of_nat (List.length requiredAttributes) =? 0)%Z then ret true
     else
       let meta := getConsentMetadata purposeId in
       let hasAll :=
         forallb (some_granted (consentedLogical meta consent)) requiredAttributes in
       ret hasAll)
    (fun error => ret false).

Definition getMissingRequiredConsents (auth : Auth) (purposeId : string)
    (requiredAttributes_arg : option (list string)) : Async W (list string) :=
  let requiredAttributes := default [] requiredAttributes_arg in
  try_catch
    (consent <- getConsentForPurpose auth purposeId ;;
     if (Z.of_nat (List.length consent) =? 0)%Z then ret requiredAttributes
     else if (Z.of_nat (List.length requiredAttributes) =? 0)%Z then ret []
     else
       let meta := getConsentMetadata purposeId in
       let missing :=
         List.filter (fun reqAttr =>
                   negb (some_granted (consentedLogical meta consent) reqAttr))
                requiredAttributes in
       ret missing)
    (fun error => ret requiredAttributes).

Definition canFileITR (auth : Auth) : Async W bool :=
  let requiredAttributes := ["name"; "email"; "mobile_number"; "aadhar_id"; "pan_id"] in
  hasRequiredConsents auth "ITR_FILING" (Some requiredAttributes).

Definition ATTRIBUTE_NOT_IN_PURPOSE : string := "ATTRIBUTE_NOT_IN_PURPOSE".

Definition updateConsent (auth : Auth) (purposeId attributeId state_arg : jsval)
  : Async W (option StoreResult) :=
  let state := default_param state_arg (JNum 1) in
  try_catch
    (let dpcmClient := _getPrivacyClient auth (subjectId auth) in
     let consentValue :=
       {| v_purposeId := purposeId; v_attributeId := attributeId;
          v_accessTypeId := "default"; v_state := state |} in
     _ <- try_catch
            (metaResp <- sdk_call (GetConsentMetadata dpcmClient [purposeId])
                           (sdk_getConsentMetadata sdk dpcmClient [purposeId]) ;;
             (* metaResp && metaResp.purposes && metaResp.purposes[purposeId]:
                the definition held under the key, else the member that the
                purposes object inherits under it, which has no `attributes` *)
             let attributes_of_purposeDef : option (list jsval) :=
               r ← metaResp; ps ← purposes r;
               match ps !! to_key purposeId with
               | Some def => Some (default [] (def_attributes def))
               | None => if inherited (to_key purposeId) then Some [] else None
               end in
             match attributes_of_purposeDef with
             | Some attrIds =>
                 if (indexOf strict_eq attrIds attributeId =? -1)%Z then
                   throw {| err_code := Some ATTRIBUTE_NOT_IN_PURPOSE;
                            err_message :=
                              "Attribute '" ++ to_key attributeId ++
                              "' is not defined for purpose '" ++ to_key purposeId ++
                              "'. Please configure this attribute in Verify." |}
                 else ret tt
             | None => ret tt
             end)
            (fun metaErr =>
               if bool_decide (err_code metaErr = Some ATTRIBUTE_NOT_IN_PURPOSE)
               then throw metaErr
               else ret tt) ;;
     result <- sdk_call (StoreConsents dpcmClient [consentValue])
                        (sdk_storeConsents sdk dpcmClient [consentValue]) ;;
     ret result)
    (fun error => throw error).

(* an element of the array given to createConsents *)
Record ConsentInput := {
  in_purposeId : jsval;
  in_attributeId : jsval;
  in_state : jsval }.

(* for (const consent of consents) { results.push(await this.updateConsent(...)) } *)
Fixpoint createConsents_loop (auth : Auth) (consents : list ConsentInput)
    (results : list (option StoreResult)) : Async W (list (option StoreResult)) :=
  match consents with
  | [] => ret results
  | consent :: rest =>
      result <- updateConsent auth (in_purposeId consent) (in_attributeId consent)
                  (in_state consent) ;;
      createConsents_loop auth rest (results ++ [result])
  end.

Definition createConsents (auth : Auth) (consents : list ConsentInput)
  : Async W (list (option StoreResult)) :=
  try_catch
    (createConsents_loop auth consents [])
    (fun error => throw error).

End Methods.

(* stateMap of formatConsentState *)
Definition stateMap : gmap string string :=
  <["1" := "Granted"]> (<["2" := "Denied"]> (<["3" := "Opt-in"]>
    (<["4" := "Opt-out"]> (<["5" := "Transparent"]> ∅)))).

(* return stateMap[state] || 'Unknown'.  Under a member name of
   Object.prototype stateMap holds the inherited member, an object. *)
Definition formatConsentState (state : jsval) : jsval :=
  match stateMap !! to_key state with
  | Some s => or_else (JStr s) (JStr "Unknown")
  | None => if inherited (to_key state) then JObject else JStr "Unknown"
  end.

End PrivacyService.

(* --------------------------------------------------------------------- *)
(* server/controllers/consent-controller.js                               *)
(* --------------------------------------------------------------------- *)

Module ConsentController.

(* { purposeId: { attributeId: boolean } } *)
Abbreviation ConsentState := (gmap string (gmap string bool)).

(* purposeMeta of _buildConsentState.  Under a member name of Object.prototype
   purposeMeta[purposeId] is the inherited member, which has no `attributes`:
   findLogicalId treats it as it treats a purpose without metadata. *)
Definition purposeMeta : gmap string (option PurposeMeta) :=
  <["MARKETING_COMMUNICATIONS" :=
      PrivacyService.getConsentMetadata "MARKETING_COMMUNICATIONS"]>
  (<["ITR_FILING" := PrivacyService.getConsentMetadata "ITR_FILING"]> ∅).

(* The closure findLogicalId of _buildConsentState. *)
Definition findLogicalId (purposeId : option string)
    (attrId attrName : option string) : jsval :=
  match mjoin (purposeMeta !! to_key (of_prop purposeId)) with
  | None =>
      or_else
        (or_else (of_prop attrId)
           (if truthy_str attrName
            then JStr (replace_ws_runs false (toLowerCase (default "" attrName)))
            else of_prop attrName))
        JNull
  | Some meta =>
      let metaIds := List.map id (attributes meta) in
      if truthy_str attrId &&
         negb (indexOf String.eqb metaIds (default "" attrId) =? -1)%Z
      then of_prop attrId
      else
        if truthy_str attrName then
          let lowerName := trim (toLowerCase (default "" attrName)) in
          match List.find (fun a => truthy (JStr (label a)) &&
                             String.eqb (toLowerCase (label a)) lowerName)
                          (attributes meta) with
          | Some exact => JStr (id exact)
          | None =>
          match List.find (fun a => truthy (JStr (label a)) &&
                             (includes (toLowerCase (label a)) lowerName ||
                              includes lowerName (toLowerCase (label a))))
                          (attributes meta) with
          | Some partial => JStr (id partial)
          | None =>
              if includes lowerName "email" then
                or_else (of_prop (List.find (fun i => includes i "email") metaIds))
                        (JStr "email")
              else if includes lowerName "mobile" then
                or_else (of_prop (List.find (fun i => includes i "mobile") metaIds))
                        (JStr "mobile_number")
              else if includes lowerName "name" then
                or_else
                  (or_else (of_prop (List.find (fun i => String.eqb i "name") metaIds))
                           (of_prop (List.find (fun i => includes i "name") metaIds)))
                  (JStr "name")
              else if includes lowerName "pan" then
                or_else (of_prop (List.find (fun i => includes i "pan") metaIds))
                        (JStr "pan_id")
              else if includes lowerName "aadhaar" || includes lowerName "aadhar" then
                or_else
                  (of_prop (List.find (fun i => includes i "aadhar" || includes i "aadhaar")
                                      metaIds))
                  (JStr "aadhar_id")
              else of_prop attrId
          end
          end
        else of_prop attrId
  end.

(* The name of the built-in function that a plain object inherits under key. *)
Definition builtin_name (key : string) : string :=
  if String.eqb key "constructor" then "Object" else key.

(* state[purposeKey][logical] = v, in the strict-mode code of the class.
   state[purposeKey] is an object that the function has created, or a member
   that state inherits from Object.prototype.  A write that succeeds on a
   built-in object changes that object, not state: the embedding takes the
   built-in objects as the language defines them, and so describes the call
   up to such a write. *)
Definition assign (st : ConsentState) (purposeKey : string) (logical : jsval) (v : bool)
  : completion ConsentState :=
  let k := to_key logical in
  match st !! purposeKey with
  | Some o =>
      (* an own object: the setter that it inherits for __proto__ ignores a
         boolean; any other key becomes an own property *)
      if String.eqb k "__proto__" then Normal st
      else Normal (<[purposeKey := <[k := v]> o]> st)
  | None =>
      if String.eqb purposeKey "__proto__" then
        Normal st                      (* written to Object.prototype itself *)
      else if inherited purposeKey then
        if existsb (String.eqb k) ["caller"; "arguments"] then
          Throw (TypeError "'caller', 'callee', and 'arguments' properties may not be accessed on strict mode functions or the arguments objects for calls to them")
        else if existsb (String.eqb k) ["name"; "length"] ||
                (String.eqb purposeKey "constructor" && String.eqb k "prototype") then
          Throw (TypeError ("Cannot assign to read only property '" ++ k ++
                            "' of function 'function " ++ builtin_name purposeKey ++
                            "() { [native code] }'"))
        else Normal st                 (* written to the built-in function *)
      else
        Throw (TypeError ("Cannot set properties of undefined (setting '" ++ k ++ "')"))
  end.

(* Array.isArray(x) ? x : Object.values(x || {}) *)
Definition attributes_list (p : AttributesProp) : list Attribute :=
  match p with
  | NoAttributes => []
  | ArrayOf items => items
  | ObjectOf values => values
  end.

(* the body of consents.forEach(consent => ...) *)
Definition process_consent (st : ConsentState) (consent : Consent)
  : completion ConsentState :=
  let purposeId := c_purposeId consent in
  let key := to_key (of_prop purposeId) in
  (* if (!state[purposeId]) state[purposeId] = {}: an inherited member is truthy *)
  let st := match st !! key with
            | None => if inherited key then st else <[key := ∅]> st
            | Some _ => st
            end in
  if truthy_str (c_attributeId consent) then
    let logical := findLogicalId purposeId (c_attributeId consent)
                                 (c_attributeName consent) in
    assign st key logical (strict_eq (c_state consent) (JNum 1))
  else
    for_each (fun st attr =>
                let attrId := or_prop (a_attributeId attr) (a_id attr) in
                let logical :=
                  findLogicalId purposeId attrId
                    (or_prop (or_prop (a_attributeName attr) (a_label attr))
                             (a_name attr)) in
                assign st key logical (strict_eq (a_state attr) (JNum 1)))
             (attributes_list (c_attributes consent)) st.

Definition empty_state : ConsentState :=
  <["MARKETING_COMMUNICATIONS" := ∅]> (<["ITR_FILING" := ∅]> ∅).

(* consents is null/undefined ([None]) or an array *)
Definition _buildConsentState (consents : option (list Consent))
  : completion ConsentState :=
  let state := empty_state in
  match consents with
  | None | Some [] =>
      bindc (for_each (fun st attr =>
                         assign st "MARKETING_COMMUNICATIONS" (JStr attr) false)
                      ["name"; "email"; "mobile_number"] state) (fun state =>
      for_each (fun st attr => assign st "ITR_FILING" (JStr attr) false)
               ["name"; "email"; "mobile_number"; "aadhar_id"; "pan_id"] state)
  | Some consents => for_each process_consent consents state
  end.

(* consentState[purposeId][attr], when both are own properties *)
Definition lookup2 (st : ConsentState) (purposeId attr : string) : option bool :=
  st !! purposeId ≫= (fun o => o !! attr).

(* const purposeConsents = consentState[purposeId] || {};
   return requiredAttributes.every(attr => purposeConsents[attr] === true) *)
Definition _hasAllRequired (consentState : ConsentState) (purposeId : string)
    (requiredAttributes : list string) : completion bool :=
  match consentState !! purposeId with
  | Some purposeConsents =>
      Normal (forallb (fun attr => bool_decide (purposeConsents !! attr = Some true))
                      requiredAttributes)
  | None =>
      (* {} or an inherited member: none of their properties is true; reading
         caller or arguments of a built-in function throws *)
      match requiredAttributes with
      | [] => Normal true
      | attr :: _ =>
          if inherited purposeId && negb (String.eqb purposeId "__proto__") &&
             existsb (String.eqb attr) ["caller"; "arguments"]
          then Throw (TypeError "'caller', 'callee', and 'arguments' properties may not be accessed on strict mode functions or the arguments objects for calls to them")
          else Normal false
      end
  end.

(* the session's token set; id_token_payload is jwt.decode(authToken.id_token) *)
Record IdTokenPayload := { sub : option string }.
Record AuthToken := {
  access_token : string;
  id_token_payload : option IdTokenPayload }.

(* POST /consent/update *)
Record UpdateRequest := {
  session_authToken : option AuthToken;   (* None: not logged in *)
  body_purposeId : jsval;
  body_attributeId : jsval;
  body_state : jsval }.

Inductive UpdateResponse :=
| Json401_NotAuthenticated
| Json400_MissingFields
| Json500_PrivacyApiFailed (detail : option StoreResult)
| Json200_Updated (message : string) (purposeId attributeId : jsval) (state : jsval)
| Json500_UpdateFailed (detail : string)
| Json500_ServerError.

(* state === true || state === 1 ? 1 : 2 *)
Definition consentState_of (state : jsval) : jsval :=
  if strict_eq state (JBool true) || strict_eq state (JNum 1) then JNum 1 else JNum 2.

Section Handlers.
Context {W : Type}.
Variable sdk : Sdk W.

Definition updateConsentToggle (req : UpdateRequest) : Async W UpdateResponse :=
  try_catch
    (match session_authToken req with
     | None => ret Json401_NotAuthenticated
     | Some authToken =>
         let purposeId := body_purposeId req in
         let attributeId := body_attributeId req in
         let state := body_state req in
         if negb (truthy purposeId) || negb (truthy attributeId) then
           ret Json400_MissingFields
         else
           let consentState := consentState_of state in
           let userPayload := id_token_payload authToken in
           let auth :=
             {| accessToken := access_token authToken;
                subjectId := match userPayload with
                             | Some p => if truthy_str (sub p) then sub p else None
                             | None => None
                             end |} in
           try_catch
             (result <- PrivacyService.updateConsent sdk auth purposeId attributeId
                          consentState ;;
              match result with
              | Some r =>
                  if String.eqb (status r) "success" then
                    ret (Json200_Updated ("Consent updated for " ++ to_key attributeId)
                           purposeId attributeId consentState)
                  else ret (Json500_PrivacyApiFailed result)
              | None => ret (Json500_PrivacyApiFailed result)
              end)
             (fun privacyError => ret (Json500_UpdateFailed (err_message privacyError)))
     end)
    (fun error => ret Json500_ServerError).

(* GET /consent/state and GET /consent/management *)
Record PageRequest := { page_authToken : option AuthToken }.

Inductive StateResponse :=
| State401_NotAuthenticated
| State200 (consentState : ConsentState) (warning : option string)
| State500_ServerError.

Definition getConsentState (req : PageRequest) : Async W StateResponse :=
  try_catch
    (match page_authToken req with
     | None => ret State401_NotAuthenticated
     | Some authToken =>
         let userPayload := id_token_payload authToken in
         let auth :=
           {| accessToken := access_token authToken;
              subjectId := match userPayload with
                           | Some p => if truthy_str (sub p) then sub p else None
                           | None => None
                           end |} in
         try_catch
           (consents <- PrivacyService.getUserConsents sdk auth (subjectId auth) ;;
            consentState <- lift (_buildConsentState (Some consents)) ;;
            ret (State200 consentState None))
           (fun privacyError =>
              ret (State200 ∅ (Some "Could not fetch latest consent state")))
     end)
    (fun error => ret State500_ServerError).

Inductive PageResponse :=
| PageRedirect (url : string)
| PageRender (user : option IdTokenPayload) (consentState : ConsentState)
             (marketingMeta itrMeta : option PurposeMeta) (apiError : option string)
| Page500.

Definition getConsentPage (req : PageRequest) : Async W PageResponse :=
  try_catch
    (match page_authToken req with
     | None => ret (PageRedirect "/login")
     | Some authToken =>
         let userPayload := id_token_payload authToken in
         let auth := {| accessToken := access_token authToken; subjectId := None |} in
         try_catch
           (* userPayload.sub is read inside the try block *)
           (userId <- match userPayload with
                      | Some p => ret (sub p)
                      | None => throw (TypeError "Cannot read properties of null (reading 'sub')")
                      end ;;
            consents <- PrivacyService.getUserConsents sdk auth userId ;;
            let marketingMeta := PrivacyService.getConsentMetadata "MARKETING_COMMUNICATIONS" in
            let itrMeta := PrivacyService.getConsentMetadata "ITR_FILING" in
            consentState <- lift (_buildConsentState (Some consents)) ;;
            ret (PageRender userPayload consentState marketingMeta itrMeta None))
           (fun privacyError =>
              let marketingMeta := PrivacyService.getConsentMetadata "MARKETING_COMMUNICATIONS" in
              let itrMeta := PrivacyService.getConsentMetadata "ITR_FILING" in
              ret (PageRender userPayload ∅ marketingMeta itrMeta
                     (Some "Unable to load current consent state. Please try again later.")))
     end)
    (fun error => ret Page500).

End Handlers.

End ConsentController.

(* --------------------------------------------------------------------- *)
(* ITRController (required as ./itr-controller)                           *)
(* --------------------------------------------------------------------- *)

Module ITRController.

Import ConsentController.

Record ItrRequest := { itr_authToken : option AuthToken }.

Inductive ItrResponse :=
| ItrRedirect (url : string)
(* res.status(403).render('itr-blocked', ...) *)
| ItrBlocked403 (user : option IdTokenPayload) (missingConsents : list string)
                (missingConsentsLabels : list string)
(* res.status(500).render('itr-blocked', { title: 'Error', ... }) *)
| ItrError500.

(* attrLabel of assessAndFile: the label of the attribute, else the id *)
Definition attrLabel (attrs : list MetaAttribute) (i : string) : string :=
  match List.find (fun a => String.eqb (id a) i) attrs with
  | Some found => label found
  | None => i
  end.

Section Assess.
Context {W : Type}.
Variable sdk : Sdk W.

Definition assessAndFile (req : ItrRequest) : Async W ItrResponse :=
  try_catch
    (match itr_authToken req with
     | None => ret (ItrRedirect "/login")
     | Some authToken =>
         let auth := {| accessToken := access_token authToken; subjectId := None |} in
         let requiredAttributes :=
           ["name"; "email"; "mobile_number"; "aadhar_id"; "pan_id"] in
         canFile <- PrivacyService.hasRequiredConsents sdk auth "ITR_FILING"
                      (Some requiredAttributes) ;;
         if canFile then ret (ItrRedirect "/itr/success")
         else
           missing <- PrivacyService.getMissingRequiredConsents sdk auth "ITR_FILING"
                        (Some requiredAttributes) ;;
           let attrs := match PrivacyService.getConsentMetadata "ITR_FILING" with
                        | Some meta => attributes meta
                        | None => []
                        end in
           let missingLabels := List.map (attrLabel attrs) missing in
           let userPayload := id_token_payload authToken in
           ret (ItrBlocked403 userPayload missing missingLabels)
     end)
    (fun error => ret ItrError500).

End Assess.

End ITRController.

(* --------------------------------------------------------------------- *)
(* server/routes/itr-route.js, server/routes/consent-route.js             *)
(* --------------------------------------------------------------------- *)

Module Routes.

Import ConsentController.

(* OAuthController.isLoggedIn(req): the session holds a token set *)
Definition isLoggedIn (authToken : option AuthToken) : bool :=
  match authToken with
  | Some _ => true
  | None => false
  end.

(* what the router answers: the middleware's redirect, or the handler's answer *)
Inductive Routed (R : Type) :=
| RedirectToLogin
| Handled (r : R).
Arguments RedirectToLogin {R}.
Arguments Handled {R} r.

(* router.use((req, res, next) => { if (!isLoggedIn(req)) { res.redirect('/login'); return; } next(); }) *)
Definition guarded {W R} (authToken : option AuthToken) (handler : Async W R)
  : Async W (Routed R) :=
  if negb (isLoggedIn authToken) then ret RedirectToLogin
  else (r <- handler ;; ret (Handled r)).

Section Router.
Context {W : Type}.
Variable sdk : Sdk W.

(* router.post('/assess', itrController.assessAndFile) *)
Definition post_itr_assess (req : ITRController.ItrRequest) :=
  guarded (ITRController.itr_authToken req) (ITRController.assessAndFile sdk req).

(* router.get('/state', consentController.getConsentState) *)
Definition get_consent_state (req : PageRequest) :=
  guarded (page_authToken req) (getConsentState sdk req).

(* router.get('/management', consentController.getConsentPage) *)
Definition get_consent_management (req : PageRequest) :=
  guarded (page_authToken req) (getConsentPage sdk req).

(* router.post('/update', jsonParser, consentController.updateConsentToggle) *)
Definition post_consent_update (req : UpdateRequest) :=
  guarded (session_authToken req) (updateConsentToggle sdk req).

End Router.

End Routes.

(* --------------------------------------------------------------------- *)
(* server/controllers/registration-controller.js, step 2                  *)
(* --------------------------------------------------------------------- *)

Module RegistrationController.

(* Anchored regular expressions ^ c1{n1} c2{n2} ... $ *)
Inductive char_class :=
| Digit    (* \d, [0-9] *)
| Upper.   (* [A-Z] *)

Definition in_class (k : char_class) (c : ascii) : bool :=
  match k with
  | Digit => is_digit c
  | Upper => is_upper c
  end.

Definition RegExp := list (char_class * nat).

Fixpoint eat (k : char_class) (n : nat) (s : string) : option string :=
  match n with
  | O => Some s
  | S m =>
      match s with
      | String c r => if in_class k c then eat k m r else None
      | EmptyString => None
      end
  end.

(* re.test(s) *)
Fixpoint test (re : RegExp) (s : string) : bool :=
  match re with
  | [] => String.eqb s ""
  | (k, n) :: rest =>
      match eat k n s with
      | Some r => test rest r
      | None => false
      end
  end.

Definition aadhaarRegex : RegExp := [(Digit, 12)].                      (* /^\d{12}$/ *)
Definition panRegex : RegExp := [(Upper, 5); (Digit, 4); (Upper, 1)].   (* /^[A-Z]{5}[0-9]{4}[A-Z]{1}$/ *)

(* return aadhaar && aadhaarRegex.test(aadhaar.replace(/\s/g, '')) *)
Definition _validateAadhaar (aadhaar : jsval) : completion jsval :=
  if truthy aadhaar then
    match aadhaar with
    | JStr s => Normal (JBool (test aadhaarRegex (filter_chars (fun c => negb (is_ws c)) s)))
    | _ => Throw (TypeError "aadhaar.replace is not a function")
    end
  else Normal aadhaar.

(* return pan && panRegex.test(pan.toUpperCase()) *)
Definition _validatePAN (pan : jsval) : completion jsval :=
  if truthy pan then
    match pan with
    | JStr s => Normal (JBool (test panRegex (toUpperCase s)))
    | _ => Throw (TypeError "pan.toUpperCase is not a function")
    end
  else Normal pan.

Definition _maskAadhaar (aadhaar : jsval) : completion string :=
  if negb (truthy aadhaar) then Normal ""
  else
    match aadhaar with
    | JStr s =>
        let clean := filter_chars is_digit s in      (* replace(/\D/g, '') *)
        Normal (repeat_str "*" 8 ++ slice_last 4 clean)%string
    | _ => Throw (TypeError "aadhaar.replace is not a function")
    end.

Definition _maskPAN (pan : jsval) : completion string :=
  if negb (truthy pan) then Normal ""
  else
    match pan with
    | JStr s =>
        let clean := toUpperCase s in
        Normal (slice_to 5 clean ++ repeat_str "*" 4 ++ slice_last 1 clean)%string
    | _ => Throw (TypeError "pan.toUpperCase is not a function")
    end.

(* req.session.tempUser *)
Record MarketingConsents := { mc_name : bool; mc_email : bool; mc_mobile : bool }.
Record TempUser := {
  tu_fullName : jsval;
  tu_email : jsval;
  tu_mobile : jsval;
  tu_password : jsval;
  tu_marketingConsents : MarketingConsents;
  tu_aadhaar : option string;
  tu_aadhaarFull : jsval;
  tu_pan : option string;
  tu_panFull : jsval }.

(* tempUser.aadhaar = a; tempUser.aadhaarFull = full *)
Definition set_aadhaar (u : TempUser) (a : string) (full : jsval) : TempUser :=
  {| tu_fullName := tu_fullName u; tu_email := tu_email u; tu_mobile := tu_mobile u;
     tu_password := tu_password u; tu_marketingConsents := tu_marketingConsents u;
     tu_aadhaar := Some a; tu_aadhaarFull := full;
     tu_pan := tu_pan u; tu_panFull := tu_panFull u |}.

(* tempUser.pan = p; tempUser.panFull = full *)
Definition set_pan (u : TempUser) (p : string) (full : jsval) : TempUser :=
  {| tu_fullName := tu_fullName u; tu_email := tu_email u; tu_mobile := tu_mobile u;
     tu_password := tu_password u; tu_marketingConsents := tu_marketingConsents u;
     tu_aadhaar := tu_aadhaar u; tu_aadhaarFull := tu_aadhaarFull u;
     tu_pan := Some p; tu_panFull := full |}.

Record Session := { tempUser : option TempUser }.

Record Step2Request := {
  session : Session;
  body_aadhaar : jsval;
  body_pan : jsval }.

Inductive Response :=
| Redirect (url : string)
| Render (http_status : Z) (view : string) (error_message : option string).

(* POST /register/step2: the session after the request and the response *)
Definition postStep2 (req : Step2Request) : Session * Response :=
  let attempt : completion (Session * Response) :=
    match tempUser (session req) with
    | None => Normal (session req, Redirect "/register/step1")
    | Some u =>
        let aadhaar := body_aadhaar req in
        let pan := body_pan req in
        bindc (_validateAadhaar aadhaar) (fun okA =>
        if negb (truthy okA) then
          Normal (session req,
                  Render 400 "register-step2"
                         (Some "Please enter a valid 12-digit Aadhaar number"))
        else
        bindc (_validatePAN pan) (fun okP =>
        if negb (truthy okP) then
          Normal (session req,
                  Render 400 "register-step2"
                         (Some "Please enter a valid 10-character PAN number"))
        else
        bindc (_maskAadhaar aadhaar) (fun maskedA =>
        let u := set_aadhaar u maskedA aadhaar in
        bindc (_maskPAN pan) (fun maskedP =>
        let u := set_pan u maskedP pan in
        Normal ({| tempUser := Some u |}, Redirect "/register/step3")))))
    end in
  match attempt with
  | Normal r => r
  | Throw _ =>
      (session req,
       Render 500 "register-step2" (Some "An error occurred. Please try again."))
  end.

(* ---- step 1, step 3 and the GET handlers ------------------------------ *)

(* Anchored patterns ^ p1 p2 ... $ whose pieces are one character of a set,
   or one or more of them *)
Inductive char_set :=
| NotSpaceNorAt            (* [^\s@] *)
| Literal (c : ascii).

Definition in_set (k : char_set) (c : ascii) : bool :=
  match k with
  | NotSpaceNorAt => negb (is_ws c) && negb (Ascii.eqb c "@")
  | Literal l => Ascii.eqb c l
  end.

Inductive piece :=
| One (k : char_set)
| OneOrMore (k : char_set).      (* k+ *)

(* re.test(s), trying every length of each k+ *)
Fixpoint test_pattern (re : list piece) : string -> bool :=
  match re with
  | [] => fun s => String.eqb s ""
  | One k :: rest =>
      fun s => match s with
               | String c r => in_set k c && test_pattern rest r
               | EmptyString => false
               end
  | OneOrMore k :: rest =>
      let continue := test_pattern rest in
      fix more (s : string) : bool :=
        match s with
        | String c r => in_set k c && (more r || continue r)
        | EmptyString => false
        end
  end.

(* /^[^\s@]+@[^\s@]+\.[^\s@]+$/ *)
Definition emailRegex : list piece :=
  [OneOrMore NotSpaceNorAt; One (Literal "@"); OneOrMore NotSpaceNorAt;
   One (Literal "."); OneOrMore NotSpaceNorAt].

Definition mobileRegex : RegExp := [(Digit, 10)].     (* /^\d{10}$/ *)

(* The fields of req.body for step 1, as the urlencoded and JSON body parsers
   of server.js leave them; a missing field is undefined. *)
Record Step1Body := {
  s1_fullName : jsval;
  s1_email : jsval;
  s1_mobile : jsval;
  s1_password : jsval;
  s1_confirmPassword : jsval;
  s1_marketing_name : jsval;       (* req.body['marketing-name'] *)
  s1_marketing_email : jsval;
  s1_marketing_mobile : jsval }.

(* v.length: the length of a string; undefined for a number, a boolean or an
   object without that property *)
Definition js_length (v : jsval) : option nat :=
  match v with
  | JStr s => Some (String.length s)
  | _ => None
  end.

(* v.length < n, false when v.length is undefined *)
Definition length_lt (v : jsval) (n : nat) : bool :=
  match js_length v with
  | Some l => (l <? n)%nat
  | None => false
  end.

(* return email && emailRegex.test(email); test() converts its argument to a
   string *)
Definition _validateEmail (email : jsval) : jsval :=
  if truthy email then JBool (test_pattern emailRegex (to_key email))
  else email.

(* return password && password.length >= 8 *)
Definition _validatePassword (password : jsval) : jsval :=
  if truthy password
  then JBool (match js_length password with
              | Some l => (8 <=? l)%nat
              | None => false
              end)
  else password.

(* return mobile && mobileRegex.test(mobile.replace(/\D/g, '')) *)
Definition _validateMobile (mobile : jsval) : completion jsval :=
  if truthy mobile then
    match mobile with
    | JStr s => Normal (JBool (test mobileRegex (filter_chars is_digit s)))
    | _ => Throw (TypeError "mobile.replace is not a function")
    end
  else Normal mobile.

Definition step1_error (msg : string) : Response :=
  Render 400 "register-step1" (Some msg).

(* POST /register/step1: the session after the request and the response *)
Definition postStep1 (sess : Session) (body : Step1Body) : Session * Response :=
  let fullName := s1_fullName body in
  let password := s1_password body in
  let attempt : completion (Session * Response) :=
    (* !fullName || fullName.trim().length < 2 *)
    bindc (if negb (truthy fullName) then Normal true
           else match fullName with
                | JStr s => Normal (String.length (trim s) <? 2)%nat
                | _ => Throw (TypeError "fullName.trim is not a function")
                end) (fun nameTooShort =>
    if nameTooShort then
      Normal (sess, step1_error "Full name must be at least 2 characters")
    else if negb (truthy (_validateEmail (s1_email body))) then
      Normal (sess, step1_error "Please enter a valid email address")
    else
    bindc (_validateMobile (s1_mobile body)) (fun okMobile =>
    if negb (truthy okMobile) then
      Normal (sess, step1_error "Please enter a valid 10-digit mobile number")
    else if negb (truthy password) || length_lt password 8 then
      Normal (sess, step1_error "Password must be at least 8 characters")
    else if negb (strict_eq password (s1_confirmPassword body)) then
      Normal (sess, step1_error "Passwords do not match")
    else
      Normal
        ({| tempUser := Some
              {| tu_fullName := fullName;
                 tu_email := s1_email body;
                 tu_mobile := s1_mobile body;
                 tu_password := password;
                 tu_marketingConsents :=
                   {| mc_name := strict_eq (s1_marketing_name body) (JStr "on");
                      mc_email := strict_eq (s1_marketing_email body) (JStr "on");
                      mc_mobile := strict_eq (s1_marketing_mobile body) (JStr "on") |};
                 tu_aadhaar := None; tu_aadhaarFull := JUndefined;
                 tu_pan := None; tu_panFull := JUndefined |} |},
         Redirect "/register/step2"))) in
  match attempt with
  | Normal r => r
  | Throw _ =>
      (sess,
       Render 500 "register-step1" (Some "An error occurred. Please try again."))
  end.

(* GET /register/step1, step2, step3; res.render answers 200 *)
Definition getStep1 (loggedIn : bool) : Response :=
  if loggedIn then Redirect "/dashboard" else Render 200 "register-step1" None.

Definition getStep2 (loggedIn : bool) (sess : Session) : Response :=
  if loggedIn then Redirect "/dashboard"
  else match tempUser sess with
       | None => Redirect "/register/step1"
       | Some _ => Render 200 "register-step2" None
       end.

Definition getStep3 (loggedIn : bool) (sess : Session) : Response :=
  if loggedIn then Redirect "/dashboard"
  else match tempUser sess with
       | None => Redirect "/register/step2"
       | Some u =>
           if negb (truthy_str (tu_aadhaar u)) then Redirect "/register/step2"
           else Render 200 "register-step3" None
       end.

Record Step3Body := {
  s3_aadhaarConsent : jsval;
  s3_panConsent : jsval }.

(* POST /register/step3 *)
Definition postStep3 (sess : Session) (body : Step3Body) : Session * Response :=
  match tempUser sess with
  | None => (sess, Redirect "/register/step1")
  | Some _ =>
      if negb (strict_eq (s3_aadhaarConsent body) (JStr "on")) ||
         negb (strict_eq (s3_panConsent body) (JStr "on")) then
        (sess, Render 400 "register-step3"
                 (Some "You must consent to Aadhaar and PAN use for ITR filing"))
      else ({| tempUser := None |}, Redirect "/login?registered=true")
  end.

End RegistrationController.

(* --------------------------------------------------------------------- *)
(* public/js/registration-validation.js, public/js/consent-toggles.js     *)
(* (the values the functions compute; showError, clearError and           *)
(*  showToast only touch the page)                                        *)
(* --------------------------------------------------------------------- *)

Module Client.

Import RegistrationController.

(* the validators on input.value *)
Definition validateName (value : string) : bool :=
  negb (String.length (trim value) <? 2)%nat.

Definition validateEmail (value : string) : bool :=
  test_pattern emailRegex (trim value).

Definition validateMobile (value : string) : bool :=
  (String.length (filter_chars is_digit value) =? 10)%nat.

Definition validatePassword (value : string) : bool :=
  negb (String.length value <? 8)%nat.

Definition validatePasswordMatch (pwd confirmPwd : string) : bool :=
  String.eqb pwd confirmPwd.

Definition isStep1Valid (fullName email mobile password confirmPassword : string) : bool :=
  let valid := true in
  let valid := if negb (validateName fullName) then false else valid in
  let valid := if negb (validateEmail email) then false else valid in
  let valid := if negb (validateMobile mobile) then false else valid in
  let valid := if negb (validatePassword password) then false else valid in
  let valid := if negb (validatePasswordMatch password confirmPassword)
               then false else valid in
  valid.

Definition validateAadhaar (value : string) : bool :=
  test aadhaarRegex (filter_chars (fun c => negb (is_ws c)) value).

Definition validatePAN (value : string) : bool :=
  test panRegex (toUpperCase value).

Definition isStep2Valid (aadhaar pan : string) : bool :=
  let valid := true in
  let valid := if negb (validateAadhaar aadhaar) then false else valid in
  let valid := if negb (validatePAN pan) then false else valid in
  valid.

(* s.replace(/(\d{4})/g, '$1 ') *)
Fixpoint space_after_4_digits (s : string) : string :=
  match s with
  | String a (String b (String c (String d r)) as t) =>
      if is_digit a && is_digit b && is_digit c && is_digit d
      then String a (String b (String c (String d (String " " (space_after_4_digits r)))))
      else String a (space_after_4_digits t)
  | String a t => String a (space_after_4_digits t)
  | EmptyString => EmptyString
  end.

Definition formatAadhaar (value : string) : string :=
  let clean := slice_to 12 (filter_chars is_digit value) in
  trim (space_after_4_digits clean).

(* a .consent-toggle checkbox *)
Record Toggle := {
  data_purpose : option string;
  data_attribute : option string;
  checked : bool }.

(* toggle.checked = (state[purpose] && state[purpose][attribute]) === true;
   no member that the parsed state inherits holds the value true *)
Definition applyStateToToggles (state : option ConsentController.ConsentState)
    (toggles : list Toggle) : list Toggle :=
  match state with
  | None => toggles
  | Some st =>
      List.map (fun toggle =>
             {| data_purpose := data_purpose toggle;
                data_attribute := data_attribute toggle;
                checked :=
                  bool_decide
                    (ConsentController.lookup2 st
                       (to_key (of_prop (data_purpose toggle)))
                       (to_key (of_prop (data_attribute toggle))) = Some true) |})
          toggles
  end.

(* the JSON body of handleToggleChange: { purposeId, attributeId, state: isChecked ? 1 : 2 } *)
Definition update_request (authToken : option ConsentController.AuthToken)
    (toggle : Toggle) : ConsentController.UpdateRequest :=
  {| ConsentController.session_authToken := authToken;
     ConsentController.body_purposeId := of_prop (data_purpose toggle);
     ConsentController.body_attributeId := of_prop (data_attribute toggle);
     ConsentController.body_state := JNum (if checked toggle then 1 else 2) |}.

End Client.

(* --------------------------------------------------------------------- *)
(* A privacy backend to run the methods against                           *)
(* --------------------------------------------------------------------- *)

Module Backend.

(* Modelled from the spec: the external privacy system is not part of the
   repository.  "Consent record: (purposeId, attributeId, state) ... Consent
   records live in the external privacy system; the application only reads
   and writes them."  The system holds one state per (purposeId,
   attributeId), storing overwrites it, fetching returns what is held; when
   it is unreachable every call throws. *)
Record World := {
  records : gmap (string * string) jsval;
  reachable : bool }.

Definition written (p a : string) (s : jsval) : Consent :=
  {| c_purposeId := Some p; c_attributeId := Some a; c_attributeName := None;
     c_state := s; c_attributes := NoAttributes |}.

Definition unreachable_error : error :=
  {| err_code := Some "ECONNREFUSED"; err_message := "connect ECONNREFUSED" |}.

Definition fetch (w : World) : list Consent :=
  List.map (fun r => written (fst (fst r)) (snd (fst r)) (snd r))
           (map_to_list (records w)).

Definition put (w : World) (v : ConsentValue) : World :=
  {| records := <[(to_key (v_purposeId v), to_key (v_attributeId v)) := v_state v]>
                  (records w);
     reachable := reachable w |}.

Definition purpose_defs : gmap string PurposeDef :=
  (fun m => {| def_attributes := Some (List.map (fun a => JStr (id a)) (attributes m)) |})
    <$> PrivacyService.metadata.

Definition sdk : Sdk World := {|
  sdk_getUserConsents := fun _ w =>
    if reachable w then (w, Normal {| consents := Some (fetch w) |})
    else (w, Throw unreachable_error);
  sdk_getConsentMetadata := fun _ _ w =>
    if reachable w then (w, Normal (Some {| purposes := Some purpose_defs |}))
    else (w, Throw unreachable_error);
  sdk_storeConsents := fun _ vs w =>
    if reachable w then
      (fold_left put vs w, Normal (Some {| status := "success" |}))
    else (w, Throw unreachable_error) |}.

Definition start (w : World) : Env World := {| ext := w; calls := [] |}.
Definition empty_world : World := {| records := ∅; reachable := true |}.
Definition offline_world : World := {| records := ∅; reachable := false |}.

(* a backend whose state is the consent list that getUserConsents returns *)
Definition canned : Sdk (list Consent) := {|
  sdk_getUserConsents := fun _ w => (w, Normal {| consents := Some w |});
  sdk_getConsentMetadata := fun _ _ w => (w, Normal None);
  sdk_storeConsents := fun _ _ w => (w, Normal None) |}.

Definition holding (cs : list Consent) : Env (list Consent) :=
  {| ext := cs; calls := [] |}.

End Backend.

(* --------------------------------------------------------------------- *)
(* What the specification says, in the terms of the embedding             *)
(* --------------------------------------------------------------------- *)

Module Spec.

Import PrivacyService.

(* The required logical attribute r "resolves to a granted (state 1) consent
   for the purpose": some entry of the purpose carries an attribute that the
   gate resolves to r and whose state is 1. *)
Definition Granted (purposeId : string) (consents : list Consent) (r : string) : Prop :=
  Exists (fun entry =>
            c_purposeId entry = Some purposeId /\
            Exists (fun ca =>
                      findLogicalId (getConsentMetadata purposeId)
                        (ca_attributeId ca) (ca_attributeName ca) = Some r /\
                      ca_state ca = JNum 1)
                   (flatten_entry entry))
         consents.

#[global] Instance Granted_dec p cs r : Decision (Granted p cs r).
Proof. unfold Granted. apply _. Defined.

(* the required attributes that do not so resolve, in their order *)
Definition missing_subset (purposeId : string) (consents : list Consent)
    (required : list string) : list string :=
  List.filter (fun r => negb (bool_decide (Granted purposeId consents r))) required.

(* the consent list that the gate's fetch step obtains in environment e *)
Definition fetched {W} (sdk : Sdk W) (auth : Auth) (e : Env W)
    (consents : list Consent) (e' : Env W) : Prop :=
  getUserConsents sdk auth None e = (e', Normal consents).

(* ---- the ordered rule list of section 4.1 ---------------------------- *)

(* a rule maps (attributeId, normalised label) to a logical id, or fails *)
Definition rule : Type := option string -> option string -> option string.

Definition normalise (label : string) : string := trim (toLowerCase label).

(* the label of a record, if it has a non-empty one, normalised *)
Definition label_of (attrName : option string) : option string :=
  match attrName with
  | Some l => if String.eqb l "" then None else Some (normalise l)
  | None => None
  end.

Section Rules.
(* the metadata attributes of the purpose; none for a purpose without metadata *)
Variable known : list MetaAttribute.

(* (a) exact match of attributeId against the known logical IDs *)
Definition exact_id : rule := fun attrId _ =>
  match attrId with
  | Some a => if bool_decide (a ∈ List.map id known) then Some a else None
  | None => None
  end.

(* (b) exact case-insensitive match of the label against a metadata label *)
Definition exact_label : rule := fun _ l =>
  match l with
  | Some l => id <$> List.find (fun a => String.eqb (toLowerCase (label a)) l) known
  | None => None
  end.

(* (c) substring match between label and metadata label, either direction *)
Definition substring_label : rule := fun _ l =>
  match l with
  | Some l =>
      id <$> List.find (fun a => includes (toLowerCase (label a)) l ||
                                 includes l (toLowerCase (label a))) known
  | None => None
  end.

(* (d) keyword heuristics *)
Definition keyword (word target : string) : rule := fun _ l =>
  match l with
  | Some l => if includes l word then Some target else None
  | None => None
  end.

Definition rules : list rule :=
  [ exact_id; exact_label; substring_label;
    keyword "email" "email";
    keyword "mobile" "mobile_number";
    keyword "name" "name";
    keyword "pan" "pan_id";
    keyword "aadhaar" "aadhar_id";
    keyword "aadhar" "aadhar_id" ].

(* the first rule that applies decides *)
Fixpoint first_match (rs : list rule) (attrId l : option string) : option string :=
  match rs with
  | [] => None
  | r :: rest =>
      match r attrId l with
      | Some x => Some x
      | None => first_match rest attrId l
      end
  end.

(* [None]: the record resolves to no logical attribute *)
Definition resolve (attrId attrName : option string) : option string :=
  first_match rules attrId (label_of attrName).

End Rules.

Definition known_attributes (purposeId : string) : list MetaAttribute :=
  match getConsentMetadata purposeId with
  | Some m => attributes m
  | None => []
  end.

(* what findLogicalId returns under the rule list: the resolved logical id,
   the attributeId unchanged for an unresolved record *)
Definition resolved_or_id (purposeId : string) (attrId attrName : option string)
  : option string :=
  match resolve (known_attributes purposeId) attrId attrName with
  | Some l => Some l
  | None => attrId
  end.

(* ---- the writes of _buildConsentState -------------------------------- *)

(* the (purpose key, attribute key, granted) assignments one entry causes *)
Definition assignments (c : Consent) : list (string * string * bool) :=
  let key := to_key (of_prop (c_purposeId c)) in
  if truthy_str (c_attributeId c) then
    [ (key,
       to_key (ConsentController.findLogicalId (c_purposeId c) (c_attributeId c)
                                               (c_attributeName c)),
       strict_eq (c_state c) (JNum 1)) ]
  else
    List.map (fun attr =>
           (key,
            to_key (ConsentController.findLogicalId (c_purposeId c)
                      (or_prop (a_attributeId attr) (a_id attr))
                      (or_prop (or_prop (a_attributeName attr) (a_label attr))
                               (a_name attr))),
            strict_eq (a_state attr) (JNum 1)))
        (ConsentController.attributes_list (c_attributes c)).

(* The entry is filed under a key of the state object's own: its purposeId
   is no member name of Object.prototype. *)
Definition ordinary (c : Consent) : Prop :=
  inherited (to_key (of_prop (c_purposeId c))) = false.

#[global] Instance ordinary_dec c : Decision (ordinary c).
Proof. unfold ordinary. apply _. Defined.

(* _buildConsentState returns for the list a mapping that holds v under
   purposeId p and attribute k ([None]: no own property) *)
Definition builds (cs : list Consent) (p k : string) (v : option bool) : Prop :=
  exists st, ConsentController._buildConsentState (Some cs) = Normal st /\
             ConsentController.lookup2 st p k = v.

(* entry c resolves to attribute key k of purpose key p *)
Definition touches (p k : string) (c : Consent) : Prop :=
  In (p, k) (List.map fst (assignments c)).

(* the granted flag of the last assignment to (p, k), if any *)
Definition last_assigned (p k : string) (ws : list (string * string * bool))
  : option bool :=
  snd <$> List.find (fun w => bool_decide (fst w = (p, k))) (rev ws).

(* entry c, as the gate reads it, carries an attribute of purpose p that
   resolves to r and has state s *)
Definition gate_reads (p r : string) (s : jsval) (c : Consent) : Prop :=
  c_purposeId c = Some p /\
  Exists (fun ca =>
            findLogicalId (getConsentMetadata p)
              (ca_attributeId ca) (ca_attributeName ca) = Some r /\
            ca_state ca = s)
         (flatten_entry c).

(* entry c, as the builder reads it, assigns to (p, r) and leaves it at v:
   for a record with an attributeId that resolves to r, v says whether its
   state is 1 *)
Definition builder_sets (p r : string) (v : bool) (c : Consent) : Prop :=
  last_assigned p r (assignments c) = Some v.

(* ---- the external store ---------------------------------------------- *)

(* a record returned as it was written: (purposeId, attributeId, state) *)
Definition as_written (c : Consent) : Prop :=
  c_attributeName c = None /\ c_attributes c = NoAttributes.

Definition key_of (c : Consent) : string * string :=
  (to_key (of_prop (c_purposeId c)), to_key (of_prop (c_attributeId c))).

(* "the external store faithfully records what was written": after a
   successful storeConsents([v]) the next fetch returns the records held,
   one per (purposeId, attributeId), as written, v among them. *)
Definition faithful {W} (sdk : Sdk W) : Prop :=
  forall cl v w w' r p a,
    v_purposeId v = JStr p -> v_attributeId v = JStr a ->
    sdk_storeConsents sdk cl [v] w = (w', Normal (Some r)) ->
    status r = "success" ->
    forall cl', exists w'' cs,
      sdk_getUserConsents sdk cl' w' = (w'', Normal {| consents := Some cs |}) /\
      Forall as_written cs /\
      NoDup (List.map key_of cs) /\
      In (Backend.written p a (v_state v)) cs.

(* ---- step 2 of the registration -------------------------------------- *)

Import RegistrationController.

(* s matches ^\d{12}$ *)
Definition twelve_digits (s : string) : Prop :=
  String.length s = 12 /\ all_chars is_digit s = true.

(* s matches ^[A-Z]{5}[0-9]{4}[A-Z]{1}$ *)
Definition pan_shape (s : string) : Prop :=
  exists a b c, s = (a ++ b ++ c)%string /\
    String.length a = 5 /\ all_chars is_upper a = true /\
    String.length b = 4 /\ all_chars is_digit b = true /\
    String.length c = 1 /\ all_chars is_upper c = true.

Definition remove_ws (s : string) : string := filter_chars (fun c => negb (is_ws c)) s.

(* the Aadhaar value with white space removed matches ^\d{12}$ *)
Definition aadhaar_ok (v : jsval) : Prop :=
  exists s, v = JStr s /\ twelve_digits (remove_ws s).

(* the PAN value uppercased matches ^[A-Z]{5}[0-9]{4}[A-Z]{1}$ *)
Definition pan_ok (v : jsval) : Prop :=
  exists s, v = JStr s /\ pan_shape (toUpperCase s).

Definition validation_error (r : Response) : Prop :=
  exists msg, r = Render 400 "register-step2" (Some msg).

(* step 2 succeeded: masked values in the session, redirect to step 3 *)
Definition step2_done (req : Step2Request) (out : Session * Response) : Prop :=
  snd out = Redirect "/register/step3" /\
  exists u a p,
    tempUser (fst out) = Some u /\
    body_aadhaar req = JStr a /\ body_pan req = JStr p /\
    tu_aadhaar u = Some ("********" ++ slice_last 4 (remove_ws a))%string /\
    all_chars is_digit (slice_last 4 (remove_ws a)) = true /\
    String.length (slice_last 4 (remove_ws a)) = 4 /\
    tu_pan u = Some (slice_to 5 (toUpperCase p) ++ "****" ++
                     slice_last 1 (toUpperCase p))%string.

(* a form field: a string, or a falsy value such as a missing field *)
Definition form_field (v : jsval) : Prop :=
  (exists s, v = JStr s) \/ truthy v = false.

(* ---- notions used by the proofs ------------------------------------- *)

(* the entries of the purpose, as getConsentForPurpose filters them *)
Definition purposeConsents (p : string) (cs : list Consent) : list Consent :=
  List.filter (fun c => strict_eq (of_prop (c_purposeId c)) (JStr p)) cs.

(* what the rule list needs of a metadata table *)
Record table_ok (m : PurposeMeta) : Prop := {
  ids_nonempty : "" ∉ List.map id (attributes m);
  labels_nonempty : Forall (fun a => truthy (JStr (label a)) = true) (attributes m);
  kw_email : find_or (fun i => includes i "email") (List.map id (attributes m)) "email"
             = Some "email";
  kw_mobile : find_or (fun i => includes i "mobile") (List.map id (attributes m))
                "mobile_number" = Some "mobile_number";
  kw_name : or_prop (or_prop (List.find (fun i => String.eqb i "name")
                                        (List.map id (attributes m)))
                             (List.find (fun i => includes i "name")
                                        (List.map id (attributes m))))
                    (Some "name") = Some "name";
  kw_pan : find_or (fun i => includes i "pan") (List.map id (attributes m)) "pan_id"
           = Some "pan_id";
  kw_aadhaar : find_or (fun i => includes i "aadhar" || includes i "aadhaar")
                 (List.map id (attributes m)) "aadhar_id" = Some "aadhar_id" }.

(* one assignment of the list built by [assignments], on an object that the
   builder has created under the purpose key *)
Definition write (st : ConsentController.ConsentState) (w : string * string * bool)
  : ConsentController.ConsentState :=
  if String.eqb (snd (fst w)) "__proto__" then st
  else <[fst (fst w) := <[snd (fst w) := snd w]> (default ∅ (st !! fst (fst w)))]> st.

(* what the builder does on entries filed under keys that are its own *)
Definition process_own (st : ConsentController.ConsentState) (c : Consent)
  : ConsentController.ConsentState :=
  fold_left write (assignments c)
    (match st !! to_key (of_prop (c_purposeId c)) with
     | None => <[to_key (of_prop (c_purposeId c)) := ∅]> st
     | Some _ => st
     end).

(* the state for a null or empty consent list *)
Definition default_state : ConsentController.ConsentState :=
  <["MARKETING_COMMUNICATIONS" :=
      <["name" := false]> (<["email" := false]> (<["mobile_number" := false]> ∅))]>
  (<["ITR_FILING" :=
      <["name" := false]> (<["email" := false]> (<["mobile_number" := false]>
        (<["aadhar_id" := false]> (<["pan_id" := false]> ∅))))]> ∅).

(* ---- the claims read literally --------------------------------------- *)

(* C1 read literally: for every required set and consent list the gate is
   true iff every required attribute is granted, the missing list is the
   non-granted subset, and the gate is true exactly when it is empty. *)
Definition gate_iff_all_granted {W} (sdk : Sdk W) (auth : Auth) (purposeId : string)
    (required : list string) (e : Env W) : Prop :=
  forall cs e', fetched sdk auth e cs e' ->
    exists b missing,
      hasRequiredConsents sdk auth purposeId (Some required) e = (e', Normal b) /\
      getMissingRequiredConsents sdk auth purposeId (Some required) e
        = (e', Normal missing) /\
      (b = true <-> Forall (Granted purposeId cs) required) /\
      missing = missing_subset purposeId cs required /\
      (b = true <-> missing = []).

(* C3 read literally: any record whose attributeId is a known logical ID of
   its purpose decides the mapping of that ID by its own state. *)
Definition exact_record_decides (cs : list Consent) : Prop :=
  forall c p a,
    In c cs -> c_purposeId c = Some p -> c_attributeId c = Some a ->
    In a (metaIds_of (getConsentMetadata p)) ->
    builds cs p a (Some (strict_eq (c_state c) (JNum 1))).




(* C4 read literally: for every purpose both copies of findLogicalId are the
   rule list over the purpose's metadata (no known ID, no label for a
   purpose without metadata). *)
Definition follows_rule_list (purposeId : string) (attrId attrName : option string)
  : Prop :=
  PrivacyService.findLogicalId (getConsentMetadata purposeId) attrId attrName
    = resolved_or_id purposeId attrId attrName /\
  ConsentController.findLogicalId (Some purposeId) attrId attrName
    = of_prop (resolved_or_id purposeId attrId attrName).

(* C7 read literally: for every submission, 400 iff a value does not match,
   and success when both match. *)
Definition step2_validates (req : Step2Request) : Prop :=
  (validation_error (snd (postStep2 req)) <->
     ~ aadhaar_ok (body_aadhaar req) \/ ~ pan_ok (body_pan req)) /\
  (aadhaar_ok (body_aadhaar req) /\ pan_ok (body_pan req) ->
     step2_done req (postStep2 req)).

End Spec.

(* --------------------------------------------------------------------- *)
(* Sample data                                                            *)
(* --------------------------------------------------------------------- *)

Module Sample.

Import ConsentController RegistrationController.

Definition demo_auth : Auth := {| accessToken := "token"; subjectId := None |}.

Definition top (p a : string) (n : option string) (s : jsval) : Consent :=
  {| c_purposeId := Some p; c_attributeId := Some a; c_attributeName := n;
     c_state := s; c_attributes := NoAttributes |}.

Definition unresolved_and_email : list Consent :=
  [top "ITR_FILING" "17" (Some "zzz") (JNum 1); top "ITR_FILING" "email" None (JNum 1)].

Definition grant_name : Consent := top "ITR_FILING" "name" None (JNum 1).

Definition demo_token : AuthToken :=
  {| access_token := "token"; id_token_payload := Some {| sub := Some "user-1" |} |}.

Definition step1_record : TempUser :=
  {| tu_fullName := JStr "Asha Rao"; tu_email := JStr "asha@example.org";
     tu_mobile := JStr "9876543210"; tu_password := JStr "correct horse";
     tu_marketingConsents := {| mc_name := true; mc_email := false; mc_mobile := false |};
     tu_aadhaar := None; tu_aadhaarFull := JUndefined;
     tu_pan := None; tu_panFull := JUndefined |}.

End Sample.

(* --------------------------------------------------------------------- *)
(* Notions for the properties of the remaining handlers                   *)
(* --------------------------------------------------------------------- *)

Module Notions.

Import PrivacyService ConsentController RegistrationController.

(* the attributes that assessAndFile requires *)
Definition itr_required : list string :=
  ["name"; "email"; "mobile_number"; "aadhar_id"; "pan_id"].

(* const auth = { accessToken: ... } of assessAndFile *)
Definition itr_auth (tok : AuthToken) : Auth :=
  {| accessToken := access_token tok; subjectId := None |}.

(* const auth = { accessToken, subjectId } of the consent handlers *)
Definition session_auth (tok : AuthToken) : Auth :=
  {| accessToken := access_token tok;
     subjectId := match id_token_payload tok with
                  | Some p => if truthy_str (sub p) then sub p else None
                  | None => None
                  end |}.

(* the label shown for a required attribute of ITR_FILING *)
Definition itr_label (r : string) : string :=
  ITRController.attrLabel (attributes ITR_FILING_meta) r.

(* the client and the value that updateConsent builds from its arguments *)
Definition update_client (auth : Auth) : Client :=
  _getPrivacyClient auth (subjectId auth).

Definition update_value (purposeId attributeId st : jsval) : ConsentValue :=
  {| v_purposeId := purposeId; v_attributeId := attributeId;
     v_accessTypeId := "default"; v_state := default_param st (JNum 1) |}.

(* the two SDK calls of an updateConsent that reaches the store *)
Definition update_calls (auth : Auth) (purposeId attributeId st : jsval) : list SdkCall :=
  [ GetConsentMetadata (update_client auth) [purposeId];
    StoreConsents (update_client auth) [update_value purposeId attributeId st] ].

(* the purpose definition that updateConsent reads off the metadata answer *)
Definition purpose_def (metaResp : option MetaResp) (purposeId : jsval)
  : option PurposeDef :=
  match metaResp with
  | Some r => match purposes r with
              | Some ps => ps !! to_key purposeId
              | None => None
              end
  | None => None
  end.

(* the metadata answer holds nothing under the key of the purpose: it is
   empty or has no `purposes`, or its purposes object neither defines the
   purpose nor inherits a member under that key *)
Definition purpose_unknown (metaResp : option MetaResp) (purposeId : jsval) : Prop :=
  match metaResp with
  | Some r => match purposes r with
              | Some ps => ps !! to_key purposeId = None /\
                           inherited (to_key purposeId) = false
              | None => True
              end
  | None => True
  end.

(* the metadata query gives updateConsent no reason to stop: it threw an
   error of another code, or its answer holds nothing under the purpose *)
Definition metadata_silent {W} (sdk : Sdk W) (auth : Auth) (purposeId : jsval)
    (w w1 : W) : Prop :=
  (exists err,
     sdk_getConsentMetadata sdk (update_client auth) [purposeId] w = (w1, Throw err) /\
     err_code err <> Some ATTRIBUTE_NOT_IN_PURPOSE) \/
  (exists metaResp,
     sdk_getConsentMetadata sdk (update_client auth) [purposeId] w = (w1, Normal metaResp) /\
     purpose_unknown metaResp purposeId).

(* the metadata query lets updateConsent go on to the store: it is silent, or
   its answer defines the purpose with the attribute among its attributes *)
Definition metadata_allows {W} (sdk : Sdk W) (auth : Auth)
    (purposeId attributeId : jsval) (w w1 : W) : Prop :=
  metadata_silent sdk auth purposeId w w1 \/
  (exists metaResp def,
     sdk_getConsentMetadata sdk (update_client auth) [purposeId] w = (w1, Normal metaResp) /\
     purpose_def metaResp purposeId = Some def /\
     Exists (fun i => strict_eq i attributeId = true) (default [] (def_attributes def))).

(* the attributes property of an entry is absent or an array, as the gate
   expects it; the consent page also reads the values of an object *)
Definition array_shaped (c : Consent) : Prop :=
  match c_attributes c with
  | ObjectOf _ => False
  | _ => True
  end.

(* the SDK client of the gate's fetches: no subject in the context *)
Definition gate_client (tok : AuthToken) : Client :=
  {| client_auth := itr_auth tok; context_subjectId := None |}.

(* the SDK client of the consent endpoints: the subject of the id token *)
Definition user_client (tok : AuthToken) : Client :=
  {| client_auth := session_auth tok; context_subjectId := subjectId (session_auth tok) |}.

Definition client_of (c : SdkCall) : Client :=
  match c with
  | GetUserConsents cl => cl
  | GetConsentMetadata cl _ => cl
  | StoreConsents cl _ => cl
  end.

(* ---- registration ---- *)

(* one or more characters, none of them white space or '@' *)
Definition email_part (s : string) : Prop :=
  s <> "" /\ all_chars (in_set NotSpaceNorAt) s = true.

(* local@domain.tld with three such parts *)
Definition email_shape (s : string) : Prop :=
  exists a b c, s = (a ++ "@" ++ b ++ "." ++ c)%string /\
                email_part a /\ email_part b /\ email_part c.

(* what step 1 asks of the four fields *)
Definition step1_fields (fullName email mobile password : string) : Prop :=
  2 <= String.length (trim fullName) /\
  email_shape email /\
  String.length (filter_chars is_digit mobile) = 10 /\
  8 <= String.length password.

Definition step1_valid (body : Step1Body) : Prop :=
  exists fullName email mobile password,
    s1_fullName body = JStr fullName /\ s1_email body = JStr email /\
    s1_mobile body = JStr mobile /\ s1_password body = JStr password /\
    s1_confirmPassword body = JStr password /\
    step1_fields fullName email mobile password.

(* the five fields are form fields: strings, or falsy values such as a
   missing field *)
Definition form_body (body : Step1Body) : Prop :=
  Spec.form_field (s1_fullName body) /\ Spec.form_field (s1_email body) /\
  Spec.form_field (s1_mobile body) /\ Spec.form_field (s1_password body) /\
  Spec.form_field (s1_confirmPassword body).

(* the requests that write req.session.tempUser *)
Inductive RegRequest :=
| PostStep1 (body : Step1Body)
| PostStep2 (aadhaar pan : jsval)
| PostStep3 (body : Step3Body).

Definition reg_step (sess : Session) (r : RegRequest) : Session :=
  match r with
  | PostStep1 body => fst (postStep1 sess body)
  | PostStep2 aadhaar pan =>
      fst (postStep2 {| session := sess; body_aadhaar := aadhaar; body_pan := pan |})
  | PostStep3 body => fst (postStep3 sess body)
  end.

(* a request whose step-1 fields are form fields; the values of steps 2 and
   3 are arbitrary *)
Definition form_request (r : RegRequest) : Prop :=
  match r with
  | PostStep1 body => form_body body
  | PostStep2 _ _ => True
  | PostStep3 _ => True
  end.

(* the session after a sequence of requests, starting without tempUser *)
Definition reg_run (rs : list RegRequest) : Session :=
  fold_left reg_step rs {| tempUser := None |}.

(* the record holds the fields of a valid step 1 *)
Definition step1_kept (u : TempUser) : Prop :=
  exists fullName email mobile password,
    tu_fullName u = JStr fullName /\ tu_email u = JStr email /\
    tu_mobile u = JStr mobile /\ tu_password u = JStr password /\
    step1_fields fullName email mobile password.

(* no identity numbers yet *)
Definition identity_absent (u : TempUser) : Prop :=
  tu_aadhaar u = None /\ tu_pan u = None /\
  tu_aadhaarFull u = JUndefined /\ tu_panFull u = JUndefined.

(* a valid Aadhaar and PAN with their masks *)
Definition identity_held (u : TempUser) : Prop :=
  exists a p,
    tu_aadhaarFull u = JStr a /\ Spec.twelve_digits (Spec.remove_ws a) /\
    tu_aadhaar u = Some ("********" ++ slice_last 4 (Spec.remove_ws a))%string /\
    tu_panFull u = JStr p /\ Spec.pan_shape (toUpperCase p) /\
    tu_pan u = Some (slice_to 5 (toUpperCase p) ++ "****" ++
                     slice_last 1 (toUpperCase p))%string.

Definition session_ok (sess : Session) : Prop :=
  match tempUser sess with
  | None => True
  | Some u => step1_kept u /\ (identity_absent u \/ identity_held u)
  end.

End Notions.

(* more sample data *)
Module Sample2.

Import Sample.

(* all five attributes of ITR_FILING granted *)
Definition all_granted : list Consent :=
  [top "ITR_FILING" "name" None (JNum 1);
   top "ITR_FILING" "email" None (JNum 1);
   top "ITR_FILING" "mobile_number" None (JNum 1);
   top "ITR_FILING" "aadhar_id" None (JNum 1);
   top "ITR_FILING" "pan_id" None (JNum 1)].

(* pan_id denied, the rest granted *)
Definition pan_denied : list Consent :=
  [top "ITR_FILING" "name" None (JNum 1);
   top "ITR_FILING" "email" None (JNum 1);
   top "ITR_FILING" "mobile_number" None (JNum 1);
   top "ITR_FILING" "aadhar_id" None (JNum 1);
   top "ITR_FILING" "pan_id" None (JNum 2)].

(* the environment after one fetch through the canned backend *)
Definition after_fetch (auth : Auth) (cs : list Consent) : Env (list Consent) :=
  fst (PrivacyService.getUserConsents Backend.canned auth None (Backend.holding cs)).

(* the environment after n failed fetches against the unreachable backend *)
Definition offline_after (auth : Auth) (n : nat) : Env Backend.World :=
  {| ext := Backend.offline_world;
     calls := List.repeat (GetUserConsents (PrivacyService._getPrivacyClient auth None)) n |}.

Definition marketing_email : PrivacyService.ConsentInput :=
  {| PrivacyService.in_purposeId := JStr "MARKETING_COMMUNICATIONS";
     PrivacyService.in_attributeId := JStr "email";
     PrivacyService.in_state := JNum 2 |}.

Definition itr_pan : PrivacyService.ConsentInput :=
  {| PrivacyService.in_purposeId := JStr "ITR_FILING";
     PrivacyService.in_attributeId := JStr "pan_id";
     PrivacyService.in_state := JUndefined |}.

(* pan_id is not an attribute of MARKETING_COMMUNICATIONS *)
Definition marketing_pan : PrivacyService.ConsentInput :=
  {| PrivacyService.in_purposeId := JStr "MARKETING_COMMUNICATIONS";
     PrivacyService.in_attributeId := JStr "pan_id";
     PrivacyService.in_state := JNum 1 |}.

Definition pan_toggle : Client.Toggle :=
  {| Client.data_purpose := Some "ITR_FILING";
     Client.data_attribute := Some "pan_id";
     Client.checked := true |}.

Definition valid_step1 : RegistrationController.Step1Body :=
  {| RegistrationController.s1_fullName := JStr "Asha Rao";
     RegistrationController.s1_email := JStr "asha@example.org";
     RegistrationController.s1_mobile := JStr "98765-43210";
     RegistrationController.s1_password := JStr "correct horse";
     RegistrationController.s1_confirmPassword := JStr "correct horse";
     RegistrationController.s1_marketing_name := JStr "on";
     RegistrationController.s1_marketing_email := JUndefined;
     RegistrationController.s1_marketing_mobile := JUndefined |}.

Definition both_consents : RegistrationController.Step3Body :=
  {| RegistrationController.s3_aadhaarConsent := JStr "on";
     RegistrationController.s3_panConsent := JStr "on" |}.

End Sample2.

(* ===================================================================== *)
(* Lemmas and theorems                                                    *)
(* ===================================================================== *)

Import PrivacyService Spec Sample.

(* unfold the plumbing of async methods *)
Ltac run_async := unfold try_catch, bind, sdk_call, throw, ret.

Lemma strict_eq_granted v : strict_eq v (JNum 1) = true <-> v = JNum 1.
Proof.
  unfold strict_eq. destruct v; rewrite ?bool_decide_eq_true;
    split; intros H; (exact H || discriminate H).
Qed.

Lemma strict_eq_prop o r : strict_eq (of_prop o) (JStr r) = true <-> o = Some r.
Proof.
  destruct o as [s|]; unfold strict_eq, of_prop; rewrite bool_decide_eq_true.
  - split; congruence.
  - split; discriminate.
Qed.

Lemma purpose_filter p c :
  strict_eq (of_prop (c_purposeId c)) (JStr p) = true <-> c_purposeId c = Some p.
Proof. apply strict_eq_prop. Qed.


Lemma some_granted_spec p cs r :
  some_granted (consentedLogical (getConsentMetadata p) (purposeConsents p cs)) r = true
  <-> Granted p cs r.
Proof.
  unfold some_granted, consentedLogical, consentedAttributes, Granted, purposeConsents.
  rewrite existsb_exists, List.Exists_exists. split.
  - intros (cl & Hin & Hok). apply in_map_iff in Hin as (ca & <- & Hca).
    apply in_flat_map in Hca as (entry & Hentry & Hca).
    apply filter_In in Hentry as (Hentry & Hp).
    apply andb_true_iff in Hok as (Hid & Hst). simpl in Hid, Hst.
    exists entry. split; [exact Hentry|]. split; [by apply purpose_filter|].
    apply List.Exists_exists. exists ca. split; [exact Hca|].
    split; [by apply strict_eq_prop | by apply strict_eq_granted].
  - intros (entry & Hentry & Hp & Hex).
    apply List.Exists_exists in Hex as (ca & Hca & Hid & Hst).
    eexists. split.
    + apply in_map_iff. exists ca. split; [reflexivity|].
      apply in_flat_map. exists entry. split; [|exact Hca].
      apply filter_In. split; [exact Hentry | by apply purpose_filter].
    + simpl. apply andb_true_iff. split;
        [by apply strict_eq_prop | by apply strict_eq_granted].
Qed.

Section Runs.
Context {W : Type} (sdk : Sdk W) (auth : Auth).

Lemma getConsentForPurpose_run p e cs e' :
  fetched sdk auth e cs e' ->
  getConsentForPurpose sdk auth p e = (e', Normal (purposeConsents p cs)).
Proof.
  unfold fetched, getConsentForPurpose, try_catch, bind. intros ->. reflexivity.
Qed.

Lemma hasRequiredConsents_run p req e cs e' :
  fetched sdk auth e cs e' ->
  hasRequiredConsents sdk auth p (Some req) e =
    (e', Normal
       (match purposeConsents p cs, req with
        | [], _ => false
        | _, [] => true
        | pcs, _ => forallb (some_granted (consentedLogical (getConsentMetadata p) pcs)) req
        end)).
Proof.
  intros Hf. unfold hasRequiredConsents, try_catch, bind.
  rewrite (getConsentForPurpose_run p _ _ _ Hf).
  destruct (purposeConsents p cs) as [|c pcs]; [reflexivity|].
  destruct req as [|r req]; reflexivity.
Qed.

Lemma getMissingRequiredConsents_run p req e cs e' :
  fetched sdk auth e cs e' ->
  getMissingRequiredConsents sdk auth p (Some req) e =
    (e', Normal
       (match purposeConsents p cs, req with
        | [], _ => req
        | _, [] => []
        | pcs, _ =>
            List.filter (fun r => negb (some_granted
                                     (consentedLogical (getConsentMetadata p) pcs) r)) req
        end)).
Proof.
  intros Hf. unfold getMissingRequiredConsents, try_catch, bind.
  rewrite (getConsentForPurpose_run p _ _ _ Hf).
  destruct (purposeConsents p cs) as [|c pcs]; [reflexivity|].
  destruct req as [|r req]; reflexivity.
Qed.
End Runs.

Lemma purposeConsents_nil p cs :
  purposeConsents p cs = [] <-> ~ Exists (fun c => c_purposeId c = Some p) cs.
Proof.
  unfold purposeConsents. rewrite List.Exists_exists. split.
  - intros Hnil (c & Hin & Hp).
    assert (In c (List.filter (fun c => strict_eq (of_prop (c_purposeId c)) (JStr p)) cs))
      as Hc by (apply filter_In; split; [done | by apply purpose_filter]).
    rewrite Hnil in Hc. destruct Hc.
  - intros Hno. destruct (List.filter _ cs) as [|c l] eqn:E; [done|].
    exfalso. apply Hno. exists c.
    assert (In c (c :: l)) as Hc by (left; done). rewrite <- E in Hc.
    apply filter_In in Hc as [? ?]. split; [done | by apply purpose_filter].
Qed.

Lemma Granted_has_entry p cs r :
  Granted p cs r -> Exists (fun c => c_purposeId c = Some p) cs.
Proof.
  unfold Granted. rewrite !List.Exists_exists. intros (c & ? & ? & _). by exists c.
Qed.

Lemma missing_filter p cs req :
  List.filter (fun r => negb (some_granted
      (consentedLogical (getConsentMetadata p) (purposeConsents p cs)) r)) req
  = missing_subset p cs req.
Proof.
  unfold missing_subset. induction req as [|r req IH]; [done|]. simpl.
  rewrite IH. f_equal.
  destruct (some_granted _ r) eqn:E.
  - apply some_granted_spec in E. by rewrite bool_decide_eq_true_2.
  - rewrite bool_decide_eq_false_2; [done|]. intros HG.
    apply some_granted_spec in HG. congruence.
Qed.

(* ---------------- resolution ---------------- *)

Lemma indexOf_from_absent (x : string) l i :
  (0 <= i)%Z -> (indexOf_from String.eqb i x l = -1)%Z <-> ~ In x l.
Proof.
  revert i. induction l as [|y l IH]; intros i Hi; simpl.
  - tauto.
  - destruct (String.eqb_spec y x) as [->|Hne].
    + split; [lia | intros H; exfalso; apply H; by left].
    + rewrite IH by lia. split; [intros H [?|?]; [done | by apply H] | tauto].
Qed.

Lemma indexOf_present (x : string) l :
  negb (indexOf String.eqb l x =? -1)%Z = bool_decide (x ∈ l).
Proof.
  unfold indexOf. destruct (decide (x ∈ l)) as [Hin|Hnin].
  - rewrite bool_decide_eq_true_2 by done.
    apply negb_true_iff, Z.eqb_neq. intros H.
    apply indexOf_from_absent in H; [|lia]. apply H. by apply list_elem_of_In.
  - rewrite bool_decide_eq_false_2 by done.
    apply negb_false_iff, Z.eqb_eq. apply indexOf_from_absent; [lia|].
    intros H. apply Hnin. by apply list_elem_of_In.
Qed.

Lemma of_prop_or_prop a b : of_prop (or_prop a b) = or_else (of_prop a) (of_prop b).
Proof. unfold or_prop, or_else, truthy_str. by destruct (truthy (of_prop a)). Qed.

Lemma find_agree {A} (f g : A -> bool) l :
  Forall (fun a => f a = g a) l -> List.find f l = List.find g l.
Proof.
  induction 1 as [|a l Ha _ IH]; [done|]. simpl. by rewrite Ha, IH.
Qed.

Lemma MARKETING_table_ok : table_ok MARKETING_COMMUNICATIONS_meta.
Proof.
  split; try reflexivity.
  - intros H. apply list_elem_of_In in H. simpl in H. intuition discriminate.
  - repeat constructor.
Qed.

Lemma ITR_table_ok : table_ok ITR_FILING_meta.
Proof.
  split; try reflexivity.
  - intros H. apply list_elem_of_In in H. simpl in H. intuition discriminate.
  - repeat constructor.
Qed.

Lemma metadata_cases p m :
  getConsentMetadata p = Some m ->
  (p = "MARKETING_COMMUNICATIONS" /\ m = MARKETING_COMMUNICATIONS_meta) \/
  (p = "ITR_FILING" /\ m = ITR_FILING_meta).
Proof.
  unfold getConsentMetadata, metadata. intros H.
  destruct (decide (p = "MARKETING_COMMUNICATIONS")) as [->|H1].
  - rewrite lookup_insert_eq in H. left. split; congruence.
  - rewrite lookup_insert_ne in H by done.
    destruct (decide (p = "ITR_FILING")) as [->|H2].
    + rewrite lookup_insert_eq in H. right. split; congruence.
    + rewrite lookup_insert_ne, lookup_empty in H by done. discriminate.
Qed.

Lemma metadata_ok p m : getConsentMetadata p = Some m -> table_ok m.
Proof.
  intros H. destruct (metadata_cases _ _ H) as [[_ ->]|[_ ->]];
    [apply MARKETING_table_ok | apply ITR_table_ok].
Qed.

Lemma service_findLogicalId_rules m attrId attrName :
  table_ok m ->
  findLogicalId (Some m) attrId attrName =
    match resolve (attributes m) attrId attrName with
    | Some l => Some l
    | None => attrId
    end.
Proof.
  intros Hok. unfold findLogicalId, metaIds_of. cbv zeta.
  set (lowerName := trim (toLowerCase (default "" attrName))).
  rewrite (find_agree
             (fun a => truthy (JStr (label a)) &&
                       String.eqb (toLowerCase (label a)) lowerName)
             (fun a => String.eqb (toLowerCase (label a)) lowerName))
    by (eapply List.Forall_impl; [|apply (labels_nonempty _ Hok)]; by intros ? ->).
  rewrite (find_agree
             (fun a => truthy (JStr (label a)) &&
                       (includes (toLowerCase (label a)) lowerName ||
                        includes lowerName (toLowerCase (label a))))
             (fun a => includes (toLowerCase (label a)) lowerName ||
                       includes lowerName (toLowerCase (label a))))
    by (eapply List.Forall_impl; [|apply (labels_nonempty _ Hok)]; by intros ? ->).
  rewrite (kw_email _ Hok), (kw_mobile _ Hok), (kw_name _ Hok), (kw_pan _ Hok),
    (kw_aadhaar _ Hok).
  assert (truthy_str attrId &&
          negb (indexOf String.eqb (List.map id (attributes m)) (default "" attrId) =? -1)%Z
          = match attrId with
            | Some a => bool_decide (a ∈ List.map id (attributes m))
            | None => false
            end) as ->.
  { destruct attrId as [a|]; [|done]. simpl. rewrite indexOf_present.
    unfold truthy_str. simpl. destruct (String.eqb_spec a "") as [->|]; [|done].
    simpl. symmetry. apply bool_decide_eq_false_2. apply (ids_nonempty _ Hok). }
  unfold resolve, rules, first_match, exact_id, exact_label, substring_label, keyword,
    label_of, truthy_str.
  destruct attrId as [a|]; [destruct (bool_decide (a ∈ _)); [done|] |];
    (destruct attrName as [l|]; simpl; [|done]);
    (destruct (String.eqb l ""); simpl; [done|]);
    fold (normalise l); subst lowerName; simpl; fold (normalise l);
    (destruct (List.find _ _); simpl; [done|]);
    (destruct (List.find _ _); simpl; [done|]);
    repeat (destruct (includes (normalise l) _); simpl; try done).
Qed.

Lemma purposeMeta_lookup p :
  mjoin (ConsentController.purposeMeta !! p) = getConsentMetadata p.
Proof.
  unfold ConsentController.purposeMeta, getConsentMetadata, metadata.
  destruct (decide (p = "MARKETING_COMMUNICATIONS")) as [->|H1].
  - by rewrite !lookup_insert_eq.
  - rewrite !(lookup_insert_ne _ "MARKETING_COMMUNICATIONS") by done.
    destruct (decide (p = "ITR_FILING")) as [->|H2].
    + by rewrite !lookup_insert_eq.
    + by rewrite !lookup_insert_ne, !lookup_empty by done.
Qed.

Lemma controller_findLogicalId_meta p m attrId attrName :
  getConsentMetadata p = Some m ->
  ConsentController.findLogicalId (Some p) attrId attrName
  = of_prop (findLogicalId (Some m) attrId attrName).
Proof.
  intros Hm. unfold ConsentController.findLogicalId, findLogicalId, find_or, metaIds_of.
  cbv zeta. change (to_key (of_prop (Some p))) with p.
  rewrite purposeMeta_lookup, Hm.
  destruct (truthy_str attrId && _); [done|].
  destruct (truthy_str attrName); [|done].
  destruct (List.find _ (attributes m)); [done|].
  destruct (List.find _ (attributes m)); [done|].
  repeat (match goal with |- context [if ?c then _ else _] => destruct c end;
          rewrite ?of_prop_or_prop; try done).
Qed.

Lemma controller_findLogicalId_no_meta p attrId attrName :
  getConsentMetadata p = None ->
  ConsentController.findLogicalId (Some p) attrId attrName
  = or_else
      (or_else (of_prop attrId)
         (if truthy_str attrName
          then JStr (replace_ws_runs false (toLowerCase (default "" attrName)))
          else of_prop attrName))
      JNull.
Proof.
  intros Hm. unfold ConsentController.findLogicalId.
  change (to_key (of_prop (Some p))) with p. by rewrite purposeMeta_lookup, Hm.
Qed.

Lemma service_findLogicalId_no_meta attrId attrName :
  findLogicalId None attrId attrName = attrId.
Proof.
  unfold findLogicalId. simpl. by rewrite andb_false_r.
Qed.

(* on an attribute that has an id the two copies agree, whatever the purpose *)
Lemma controller_findLogicalId_top p a attrName :
  truthy_str (Some a) = true ->
  ConsentController.findLogicalId (Some p) (Some a) attrName
  = of_prop (findLogicalId (getConsentMetadata p) (Some a) attrName).
Proof.
  intros Ha. destruct (getConsentMetadata p) as [m|] eqn:Hm.
  - by apply controller_findLogicalId_meta.
  - rewrite controller_findLogicalId_no_meta, service_findLogicalId_no_meta by done.
    unfold or_else. unfold truthy_str in Ha. by rewrite Ha, Ha.
Qed.

(** C4 (amended). For a purpose that has metadata, both copies of
    findLogicalId apply the rules in the fixed order (a) exact ID, (b) exact
    label, (c) substring, (d) keywords, the first rule that applies deciding;
    a record that no rule resolves keeps its attributeId. *)
Theorem findLogicalId_rule_order p m attrId attrName :
  getConsentMetadata p = Some m ->
  Spec.follows_rule_list p attrId attrName.
Proof.
  intros Hm. unfold follows_rule_list, resolved_or_id, known_attributes.
  rewrite (controller_findLogicalId_meta _ _ _ _ Hm), Hm.
  rewrite (service_findLogicalId_rules _ _ _ (metadata_ok _ _ Hm)). done.
Qed.

Lemma findLogicalId_rule_order_witness :
  Spec.follows_rule_list "ITR_FILING" (Some "17") (Some "Work Email").
Proof.
  apply (findLogicalId_rule_order "ITR_FILING" ITR_FILING_meta). reflexivity.
Defined.

(** C4 (counterexample). For a purpose without metadata neither copy applies
    the keyword rule: the label "Work Email" is not mapped to email. *)
Lemma findLogicalId_no_metadata_skips_rules :
  ~ Spec.follows_rule_list "OTHER" None (Some "Work Email").
Proof.
  unfold follows_rule_list. intros [H _]. vm_compute in H. discriminate H.
Qed.

Example resolve_examples :
  resolve (attributes ITR_FILING_meta) (Some "email") (Some "Mobile Number") = Some "email" /\
  resolve (attributes ITR_FILING_meta) (Some "17") (Some " FULL name ") = Some "name" /\
  resolve (attributes ITR_FILING_meta) (Some "17") (Some "Mobile") = Some "mobile_number" /\
  resolve (attributes ITR_FILING_meta) (Some "17") (Some "Work Email") = Some "email" /\
  resolve (attributes ITR_FILING_meta) (Some "17") (Some "my aadhar card") = Some "aadhar_id" /\
  resolve (attributes ITR_FILING_meta) (Some "17") (Some "zzz") = None.
Proof. repeat split; reflexivity. Qed.

(* a label that is a no-break space is white space: it trims to the empty
   string, which every metadata label contains, so the substring rule
   resolves it to the first attribute *)
Example resolve_no_break_space :
  PrivacyService.findLogicalId (Some ITR_FILING_meta) (Some "17") (Some (String NBSP ""))
    = Some "name" /\
  ConsentController.findLogicalId (Some "ITR_FILING") (Some "17") (Some (String NBSP ""))
    = JStr "name" /\
  trim (String "A" (String NBSP "")) = "A".
Proof. repeat split; vm_compute; reflexivity. Qed.

(* ---------------- the gate ---------------- *)

Lemma missing_subset_nil p cs req :
  missing_subset p cs req = [] <-> Forall (Granted p cs) req.
Proof.
  unfold missing_subset. induction req as [|r req IH]; simpl.
  - split; [constructor | done].
  - destruct (decide (Granted p cs r)) as [HG|HG].
    + rewrite bool_decide_eq_true_2 by done. simpl. rewrite IH.
      split; [by constructor | by inversion 1].
    + rewrite bool_decide_eq_false_2 by done. simpl.
      split; [discriminate | inversion 1; contradiction].
Qed.

Lemma forallb_some_granted p cs req :
  forallb (some_granted (consentedLogical (getConsentMetadata p) (purposeConsents p cs)))
          req = true
  <-> Forall (Granted p cs) req.
Proof.
  rewrite forallb_forall, List.Forall_forall.
  split; intros H r Hr; apply some_granted_spec, H, Hr.
Qed.

Section Gate.
Context {W : Type} (sdk : Sdk W) (auth : Auth).

(* both gate functions on a fetched consent list *)
Lemma gate_on_fetched p req e cs e' :
  fetched sdk auth e cs e' ->
  exists b missing,
    hasRequiredConsents sdk auth p (Some req) e = (e', Normal b) /\
    getMissingRequiredConsents sdk auth p (Some req) e = (e', Normal missing) /\
    (b = true <->
       Exists (fun c => c_purposeId c = Some p) cs /\ Forall (Granted p cs) req) /\
    missing = missing_subset p cs req.
Proof.
  intros Hf. do 2 eexists.
  split; [apply (hasRequiredConsents_run sdk auth p req _ _ _ Hf)|].
  split; [apply (getMissingRequiredConsents_run sdk auth p req _ _ _ Hf)|].
  destruct (purposeConsents p cs) as [|c pcs] eqn:E.
  - apply purposeConsents_nil in E. split.
    + split; [discriminate | tauto].
    + unfold missing_subset. symmetry. apply forallb_filter_id.
      apply forallb_forall. intros r _. apply negb_true_iff, bool_decide_eq_false_2.
      intros HG. apply E. eapply Granted_has_entry, HG.
  - assert (Exists (fun c => c_purposeId c = Some p) cs) as Hex.
    { destruct (decide (Exists (fun c => c_purposeId c = Some p) cs)) as [?|Hno];
        [done|]. apply purposeConsents_nil in Hno. congruence. }
    destruct req as [|r req].
    + split; [split; [by split; [|constructor] | done] | done].
    + rewrite <- E. split.
      * rewrite forallb_some_granted. tauto.
      * apply missing_filter.
Qed.
End Gate.

(* an omitted requiredAttributes argument is the empty list *)
Lemma required_default {W} (sdk : Sdk W) auth p e :
  hasRequiredConsents sdk auth p None e = hasRequiredConsents sdk auth p (Some []) e /\
  getMissingRequiredConsents sdk auth p None e
  = getMissingRequiredConsents sdk auth p (Some []) e.
Proof. split; reflexivity. Qed.

(** C1 (amended). getMissingRequiredConsents returns exactly the required
    attributes that do not resolve to a granted consent of the purpose;
    hasRequiredConsents returns true iff the purpose has at least one consent
    entry and every required attribute so resolves.  Hence, when the required
    set is not empty or the purpose has a consent entry, the gate is true iff
    every required attribute is granted, iff the missing list is empty. *)
Theorem gate_characterisation {W} (sdk : Sdk W) auth p req e cs e' :
  fetched sdk auth e cs e' ->
  exists b missing,
    hasRequiredConsents sdk auth p (Some req) e = (e', Normal b) /\
    getMissingRequiredConsents sdk auth p (Some req) e = (e', Normal missing) /\
    missing = missing_subset p cs req /\
    (b = true <->
       Exists (fun c => c_purposeId c = Some p) cs /\ Forall (Granted p cs) req) /\
    (req <> [] \/ Exists (fun c => c_purposeId c = Some p) cs ->
       (b = true <-> Forall (Granted p cs) req) /\ (b = true <-> missing = [])).
Proof.
  intros Hf. destruct (gate_on_fetched sdk auth p req e cs e' Hf)
    as (b & missing & Hb & Hm & Hiff & ->).
  exists b, (missing_subset p cs req).
  split; [done|]. split; [done|]. split; [done|]. split; [done|].
  intros Hcond.
  assert (Forall (Granted p cs) req -> Exists (fun c => c_purposeId c = Some p) cs)
    as Hentry.
  { intros HF. destruct Hcond as [Hne|Hex]; [|done].
    destruct req as [|r req]; [done|]. inversion HF; subst.
    eapply Granted_has_entry; eauto. }
  rewrite missing_subset_nil, Hiff. tauto.
Qed.

Lemma gate_characterisation_witness :
  exists b missing,
    hasRequiredConsents Backend.canned demo_auth "ITR_FILING" (Some ["name"; "email"])
      (Backend.holding [top "ITR_FILING" "name" None (JNum 1)])
      = (fst (getUserConsents Backend.canned demo_auth None
                (Backend.holding [top "ITR_FILING" "name" None (JNum 1)])), Normal b) /\
    getMissingRequiredConsents Backend.canned demo_auth "ITR_FILING"
      (Some ["name"; "email"]) (Backend.holding [top "ITR_FILING" "name" None (JNum 1)])
      = (fst (getUserConsents Backend.canned demo_auth None
                (Backend.holding [top "ITR_FILING" "name" None (JNum 1)])),
         Normal missing) /\
    missing = missing_subset "ITR_FILING" [top "ITR_FILING" "name" None (JNum 1)]
                ["name"; "email"] /\
    (b = true <->
       Exists (fun c => c_purposeId c = Some "ITR_FILING")
              [top "ITR_FILING" "name" None (JNum 1)] /\
       Forall (Granted "ITR_FILING" [top "ITR_FILING" "name" None (JNum 1)])
              ["name"; "email"]) /\
    (["name"; "email"] <> [] \/
     Exists (fun c => c_purposeId c = Some "ITR_FILING")
            [top "ITR_FILING" "name" None (JNum 1)] ->
       (b = true <->
          Forall (Granted "ITR_FILING" [top "ITR_FILING" "name" None (JNum 1)])
                 ["name"; "email"]) /\
       (b = true <-> missing = [])).
Proof.
  apply (gate_characterisation Backend.canned demo_auth "ITR_FILING" ["name"; "email"]
           (Backend.holding [top "ITR_FILING" "name" None (JNum 1)])
           [top "ITR_FILING" "name" None (JNum 1)]).
  reflexivity.
Defined.

(** C1 (counterexample). With an empty required set and an empty consent list
    every required attribute is (vacuously) granted and the missing list is
    empty, yet the gate returns false. *)
Lemma gate_false_on_empty_inputs :
  ~ Spec.gate_iff_all_granted Backend.canned demo_auth "ITR_FILING" []
      (Backend.holding []).
Proof.
  intros H.
  destruct (H [] _ eq_refl) as (b & missing & Hb & _ & Hiff & _).
  assert (b = true) as -> by (apply Hiff; constructor).
  vm_compute in Hb. discriminate Hb.
Qed.

Example gate_examples :
  snd (hasRequiredConsents Backend.canned demo_auth "ITR_FILING" (Some [])
         (Backend.holding [])) = Normal false /\
  snd (getMissingRequiredConsents Backend.canned demo_auth "ITR_FILING" (Some [])
         (Backend.holding [])) = Normal [] /\
  snd (hasRequiredConsents Backend.canned demo_auth "ITR_FILING" (Some [])
         (Backend.holding [top "ITR_FILING" "17" None (JNum 2)])) = Normal true /\
  snd (getMissingRequiredConsents Backend.canned demo_auth "ITR_FILING"
         (Some ["name"; "email"; "pan_id"])
         (Backend.holding [top "ITR_FILING" "name" None (JNum 1);
                           top "ITR_FILING" "7" (Some "E-mail") (JNum 2)]))
    = Normal ["email"; "pan_id"].
Proof. repeat split; reflexivity. Qed.

(* ---------------- unresolved records ---------------- *)

Lemma resolve_known_id known a attrName :
  a ∈ List.map id known -> resolve known (Some a) attrName = Some a.
Proof.
  intros Ha. unfold resolve, rules, first_match, exact_id.
  by rewrite bool_decide_eq_true_2.
Qed.

(* the gate resolves a record to a known logical ID only through a rule *)
Lemma findLogicalId_known_by_rule p m attrId attrName r :
  getConsentMetadata p = Some m ->
  In r (List.map id (attributes m)) ->
  findLogicalId (Some m) attrId attrName = Some r ->
  resolve (attributes m) attrId attrName = Some r.
Proof.
  intros Hm Hr. rewrite (service_findLogicalId_rules _ _ _ (metadata_ok _ _ Hm)).
  destruct (resolve (attributes m) attrId attrName) as [l|] eqn:E; [done|].
  intros ->. rewrite resolve_known_id in E; [done|]. by apply list_elem_of_In.
Qed.

Lemma not_granted_without_rule p m cs r :
  getConsentMetadata p = Some m ->
  In r (List.map id (attributes m)) ->
  (forall entry ca,
     In entry cs -> c_purposeId entry = Some p -> In ca (flatten_entry entry) ->
     ca_state ca = JNum 1 ->
     resolve (attributes m) (ca_attributeId ca) (ca_attributeName ca) <> Some r) ->
  ~ Granted p cs r.
Proof.
  intros Hm Hr Hno HG. unfold Granted in HG.
  apply List.Exists_exists in HG as (entry & Hentry & Hp & Hex).
  apply List.Exists_exists in Hex as (ca & Hca & Hid & Hst).
  apply (Hno entry ca); try done.
  rewrite Hm in Hid. by eapply findLogicalId_known_by_rule.
Qed.

(** C2. In the ITR gate a record that no rule resolves never counts for a
    required logical attribute: if no granting record of the purpose is
    resolved by a rule to the logical attribute r, then hasRequiredConsents
    is false and getMissingRequiredConsents lists r, whatever unresolved
    records the consent list holds. *)
Theorem unresolved_never_grants {W} (sdk : Sdk W) auth req e cs e' r :
  fetched sdk auth e cs e' ->
  In r req ->
  In r logical_attributes ->
  (forall entry ca,
     In entry cs -> c_purposeId entry = Some "ITR_FILING" ->
     In ca (flatten_entry entry) -> ca_state ca = JNum 1 ->
     resolve (known_attributes "ITR_FILING") (ca_attributeId ca) (ca_attributeName ca)
       <> Some r) ->
  hasRequiredConsents sdk auth "ITR_FILING" (Some req) e = (e', Normal false) /\
  exists missing,
    getMissingRequiredConsents sdk auth "ITR_FILING" (Some req) e
      = (e', Normal missing) /\
    In r missing.
Proof.
  intros Hf Hreq Hr Hno.
  assert (~ Granted "ITR_FILING" cs r) as HnG
    by (eapply (not_granted_without_rule "ITR_FILING" ITR_FILING_meta); eauto).
  destruct (gate_on_fetched sdk auth "ITR_FILING" req e cs e' Hf)
    as (b & missing & Hb & Hm & Hiff & ->).
  split.
  - rewrite Hb. destruct b; [|done]. exfalso. apply HnG.
    destruct Hiff as [Hiff _]. destruct (Hiff eq_refl) as [_ HF].
    rewrite List.Forall_forall in HF. by apply HF.
  - eexists. split; [exact Hm|]. unfold missing_subset. apply filter_In.
    split; [done|]. by rewrite bool_decide_eq_false_2.
Qed.

Lemma unresolved_never_grants_witness :
  hasRequiredConsents Backend.canned demo_auth "ITR_FILING" (Some ["email"; "name"])
    (Backend.holding unresolved_and_email)
    = (fst (getUserConsents Backend.canned demo_auth None
              (Backend.holding unresolved_and_email)), Normal false) /\
  exists missing,
    getMissingRequiredConsents Backend.canned demo_auth "ITR_FILING"
      (Some ["email"; "name"]) (Backend.holding unresolved_and_email)
      = (fst (getUserConsents Backend.canned demo_auth None
                (Backend.holding unresolved_and_email)), Normal missing) /\
    In "name" missing.
Proof.
  apply (unresolved_never_grants Backend.canned demo_auth ["email"; "name"]
           (Backend.holding unresolved_and_email) unresolved_and_email).
  - reflexivity.
  - simpl; tauto.
  - simpl; tauto.
  - intros entry ca [<-|[<-|[]]] _ [<-|[]] _; vm_compute; discriminate.
Defined.

(* ---------------- failure of the privacy API ---------------- *)

(** C5. When fetching the consents fails (getUserConsents throws),
    hasRequiredConsents returns false and getMissingRequiredConsents returns
    the whole required list; both return normally, in the environment the
    failed fetch left, whose only new SDK call is that one fetch. *)
Theorem gate_fails_closed {W} (sdk : Sdk W) auth p req (e e1 : Env W) err :
  getUserConsents sdk auth None e = (e1, Throw err) ->
  hasRequiredConsents sdk auth p req e = (e1, Normal false) /\
  getMissingRequiredConsents sdk auth p req e = (e1, Normal (default [] req)) /\
  calls e1 = calls e ++ [GetUserConsents (_getPrivacyClient auth None)].
Proof.
  intros Hthrow.
  unfold hasRequiredConsents, getMissingRequiredConsents, getConsentForPurpose.
  unfold try_catch at 1 3, bind at 1 3. unfold try_catch at 1 2, bind at 1 2.
  rewrite Hthrow. split; [reflexivity|]. split; [reflexivity|].
  revert Hthrow. unfold getUserConsents. run_async.
  destruct (sdk_getUserConsents sdk _ (ext e)) as [w [r|x]]; intros [= <- _]; reflexivity.
Qed.

Lemma gate_fails_closed_witness :
  hasRequiredConsents Backend.sdk demo_auth "ITR_FILING" (Some ["name"; "pan_id"])
    (Backend.start Backend.offline_world)
    = ({| ext := Backend.offline_world;
          calls := [GetUserConsents (_getPrivacyClient demo_auth None)] |},
       Normal false) /\
  getMissingRequiredConsents Backend.sdk demo_auth "ITR_FILING" (Some ["name"; "pan_id"])
    (Backend.start Backend.offline_world)
    = ({| ext := Backend.offline_world;
          calls := [GetUserConsents (_getPrivacyClient demo_auth None)] |},
       Normal (default [] (Some ["name"; "pan_id"]))) /\
  calls {| ext := Backend.offline_world;
           calls := [GetUserConsents (_getPrivacyClient demo_auth None)] |}
    = calls (Backend.start Backend.offline_world)
      ++ [GetUserConsents (_getPrivacyClient demo_auth None)].
Proof.
  apply (gate_fails_closed Backend.sdk demo_auth "ITR_FILING" (Some ["name"; "pan_id"])
           (Backend.start Backend.offline_world) _ Backend.unreachable_error).
  reflexivity.
Defined.

(* ---------------- _buildConsentState ---------------- *)

Import ConsentController.

Lemma lookup2_write (st : ConsentState) w p k :
  k <> "__proto__" ->
  lookup2 (write st w) p k =
    if bool_decide (fst w = (p, k)) then Some (snd w) else lookup2 st p k.
Proof.
  intros Hk. destruct w as [[pk ak] v]. unfold write. cbn [fst snd].
  destruct (String.eqb_spec ak "__proto__") as [->|Hak].
  - rewrite bool_decide_eq_false_2; [done | congruence].
  - unfold lookup2. destruct (decide (pk = p)) as [->|Hp].
    + rewrite lookup_insert_eq. simpl. destruct (decide (ak = k)) as [->|Hne].
      * rewrite bool_decide_eq_true_2 by done. by rewrite lookup_insert_eq.
      * rewrite bool_decide_eq_false_2 by congruence. rewrite lookup_insert_ne by done.
        destruct (st !! p); simpl; [done | by rewrite lookup_empty].
    + rewrite bool_decide_eq_false_2 by congruence. by rewrite lookup_insert_ne.
Qed.

Lemma lookup2_ensure (st : ConsentState) key p k :
  lookup2 (match st !! key with None => <[key := ∅]> st | Some _ => st end) p k
  = lookup2 st p k.
Proof.
  destruct (st !! key) eqn:E; [done|]. unfold lookup2.
  destruct (decide (key = p)) as [->|Hp].
  - rewrite lookup_insert_eq, E. simpl. by rewrite lookup_empty.
  - by rewrite lookup_insert_ne.
Qed.

Lemma last_assigned_snoc p k ws w :
  last_assigned p k (ws ++ [w]) =
    if bool_decide (fst w = (p, k)) then Some (snd w) else last_assigned p k ws.
Proof.
  unfold last_assigned. rewrite rev_unit. simpl. by destruct (bool_decide _).
Qed.

Lemma last_assigned_app p k ws1 ws2 :
  last_assigned p k (ws1 ++ ws2) =
    match last_assigned p k ws2 with
    | Some b => Some b
    | None => last_assigned p k ws1
    end.
Proof.
  induction ws2 as [|w ws2 IH] using rev_ind.
  - by rewrite app_nil_r.
  - rewrite app_assoc, !last_assigned_snoc, IH. by destruct (bool_decide _).
Qed.

Lemma lookup2_writes ws (st : ConsentState) p k :
  k <> "__proto__" ->
  lookup2 (fold_left write ws st) p k =
    match last_assigned p k ws with
    | Some b => Some b
    | None => lookup2 st p k
    end.
Proof.
  intros Hk. revert st. induction ws as [|w ws IH] using rev_ind; intros st; [done|].
  rewrite fold_left_app, last_assigned_snoc. simpl. rewrite lookup2_write by done.
  destruct (bool_decide _); [done | apply IH].
Qed.

Lemma write_keeps (st : ConsentState) w q :
  is_Some (st !! q) -> is_Some (write st w !! q).
Proof.
  intros Hq. unfold write. destruct (String.eqb _ _); [done|].
  destruct (decide (fst (fst w) = q)) as [->|Hne].
  - rewrite lookup_insert_eq. by eexists.
  - by rewrite lookup_insert_ne.
Qed.


(* on an object that the builder has created, the assignment is a write *)
Lemma assign_own (st : ConsentState) pk logical v :
  is_Some (st !! pk) ->
  assign st pk logical v = Normal (write st (pk, to_key logical, v)).
Proof.
  intros [o Ho]. unfold assign, write. cbn [fst snd]. rewrite Ho. simpl.
  by destruct (String.eqb _ _).
Qed.

Lemma ensure_own (st : ConsentState) key :
  inherited key = false ->
  match st !! key with
  | None => if inherited key then st else <[key := ∅]> st
  | Some _ => st
  end
  = match st !! key with None => <[key := ∅]> st | Some _ => st end.
Proof. intros ->. reflexivity. Qed.

Lemma ensure_has (st : ConsentState) key :
  is_Some (match st !! key with None => <[key := ∅]> st | Some _ => st end !! key).
Proof.
  destruct (st !! key) eqn:E; [by rewrite E|]. rewrite lookup_insert_eq. by eexists.
Qed.

(* an entry filed under a key of the state's own is processed without a throw *)
Lemma process_consent_own (st : ConsentState) c :
  ordinary c -> process_consent st c = Normal (process_own st c).
Proof.
  unfold ordinary, process_consent, process_own, assignments. cbv zeta. intros Hord.
  rewrite (ensure_own st _ Hord).
  generalize (ensure_has st (to_key (of_prop (c_purposeId c)))).
  generalize (match st !! to_key (of_prop (c_purposeId c)) with
              | None => <[to_key (of_prop (c_purposeId c)) := ∅]> st
              | Some _ => st
              end).
  intros st' Hkey.
  destruct (truthy_str (c_attributeId c)).
  - rewrite assign_own by done. reflexivity.
  - revert st' Hkey.
    induction (attributes_list (c_attributes c)) as [|attr l IH]; intros st' Hkey;
      [done|].
    cbn [for_each List.map fold_left]. rewrite assign_own by done. cbn [bindc].
    apply IH. by apply write_keeps.
Qed.

Lemma process_all_own cs (st : ConsentState) :
  Forall ordinary cs ->
  for_each process_consent cs st = Normal (fold_left process_own cs st).
Proof.
  revert st. induction cs as [|c cs IH]; intros st Hord; [done|].
  inversion Hord; subst. cbn [for_each fold_left].
  rewrite process_consent_own by done. cbn [bindc]. by apply IH.
Qed.

(* the last assignment to a key decides its value *)
Lemma lookup2_process_all cs (st : ConsentState) p k :
  k <> "__proto__" ->
  lookup2 (fold_left process_own cs st) p k =
    match last_assigned p k (flat_map assignments cs) with
    | Some b => Some b
    | None => lookup2 st p k
    end.
Proof.
  intros Hk. revert st. induction cs as [|c cs IH]; intros st; [done|].
  simpl. rewrite IH, last_assigned_app. unfold process_own.
  rewrite lookup2_writes by done. rewrite lookup2_ensure.
  by destruct (last_assigned p k (flat_map assignments cs)).
Qed.

Lemma build_nonempty c cs :
  Forall ordinary (c :: cs) ->
  _buildConsentState (Some (c :: cs)) = Normal (fold_left process_own (c :: cs) empty_state).
Proof. intros Hord. unfold _buildConsentState. by apply process_all_own. Qed.

Lemma lookup2_empty_state p k : lookup2 empty_state p k = None.
Proof.
  unfold lookup2, empty_state.
  destruct (decide (p = "MARKETING_COMMUNICATIONS")) as [->|H1];
    [by rewrite lookup_insert_eq|].
  rewrite lookup_insert_ne by done.
  destruct (decide (p = "ITR_FILING")) as [->|H2]; [by rewrite lookup_insert_eq|].
  by rewrite lookup_insert_ne by done.
Qed.

(* for a list of entries filed under keys of the state's own, the builder
   returns the mapping of the last assignments *)
Lemma builds_last cs p k :
  cs <> [] -> Forall ordinary cs -> k <> "__proto__" ->
  builds cs p k (last_assigned p k (flat_map assignments cs)).
Proof.
  intros Hne Hord Hk. destruct cs as [|c cs]; [done|].
  exists (fold_left process_own (c :: cs) empty_state).
  split; [by apply build_nonempty|].
  rewrite lookup2_process_all by done.
  destruct (last_assigned _ _ _); [done|]. apply lookup2_empty_state.
Qed.

Lemma builds_functional cs p k v v' : builds cs p k v -> builds cs p k v' -> v = v'.
Proof. intros (st & H1 & <-) (st' & H2 & <-). congruence. Qed.

Lemma last_assigned_none p k ws :
  (forall b, ~ In (p, k, b) ws) -> last_assigned p k ws = None.
Proof.
  intros Hno. unfold last_assigned.
  destruct (List.find _ (rev ws)) as [[[p' k'] b]|] eqn:E; [|done].
  apply find_some in E as [Hin Heq]. apply bool_decide_eq_true in Heq. simpl in Heq.
  inversion Heq; subst. exfalso. apply (Hno b). by apply in_rev.
Qed.

Lemma untouched_no_assignment p k cs :
  Forall (fun c => ~ touches p k c) cs ->
  last_assigned p k (flat_map assignments cs) = None.
Proof.
  intros Hno. apply last_assigned_none. intros b Hin.
  apply in_flat_map in Hin as (c & Hc & Hin).
  rewrite List.Forall_forall in Hno. apply (Hno c Hc). unfold touches.
  apply in_map_iff. by exists (p, k, b).
Qed.

(* the entry that assigns to (p, r) last decides the mapping *)
Lemma builds_last_entry l1 c l2 p r v :
  builder_sets p r v c ->
  Forall (fun c' => ~ touches p r c') l2 ->
  Forall ordinary (l1 ++ c :: l2) ->
  r <> "__proto__" ->
  builds (l1 ++ c :: l2) p r (Some v).
Proof.
  intros Hc Hl2 Hord Hr.
  assert (last_assigned p r (flat_map assignments (l1 ++ c :: l2)) = Some v) as <-.
  { rewrite flat_map_app. simpl. rewrite !last_assigned_app.
    rewrite (untouched_no_assignment _ _ _ Hl2). by rewrite Hc. }
  apply builds_last; [by destruct l1 | done | done].
Qed.

(* a record whose attributeId is truthy is assigned under its resolved id *)
Lemma assignments_top p a n s attrs :
  truthy_str (Some a) = true ->
  assignments {| c_purposeId := Some p; c_attributeId := Some a; c_attributeName := n;
                 c_state := s; c_attributes := attrs |}
  = [ (p, to_key (of_prop (PrivacyService.findLogicalId (getConsentMetadata p) (Some a) n)),
       strict_eq s (JNum 1)) ].
Proof.
  intros Ha. unfold assignments. simpl. rewrite Ha.
  by rewrite controller_findLogicalId_top.
Qed.

Lemma findLogicalId_exact_id p a n :
  In a (metaIds_of (getConsentMetadata p)) ->
  truthy_str (Some a) = true /\
  PrivacyService.findLogicalId (getConsentMetadata p) (Some a) n = Some a.
Proof.
  intros Ha. destruct (getConsentMetadata p) as [m|] eqn:Hm; [|destruct Ha].
  assert (truthy_str (Some a) = true) as Ht.
  { unfold truthy_str. simpl. destruct (String.eqb_spec a "") as [->|]; [|done].
    exfalso. apply (ids_nonempty _ (metadata_ok _ _ Hm)). by apply list_elem_of_In. }
  split; [done|].
  rewrite (service_findLogicalId_rules _ _ _ (metadata_ok _ _ Hm)).
  rewrite resolve_known_id; [done | by apply list_elem_of_In].
Qed.

(* the purposes that have metadata and their logical IDs are no member names
   of Object.prototype *)
Lemma known_id_own p a :
  In a (metaIds_of (getConsentMetadata p)) ->
  inherited p = false /\ a <> "__proto__".
Proof.
  intros Ha. destruct (getConsentMetadata p) as [m|] eqn:Hm; [|destruct Ha].
  destruct (metadata_cases _ _ Hm) as [[-> ->]|[-> ->]]; (split; [reflexivity|]);
    intros ->; vm_compute in Ha; intuition discriminate.
Qed.

Lemma assignments_entry c p :
  c_purposeId c = Some p ->
  truthy_str (c_attributeId c) = true ->
  assignments c =
    [ (p,
       to_key (of_prop (PrivacyService.findLogicalId (getConsentMetadata p)
                          (c_attributeId c) (c_attributeName c))),
       strict_eq (c_state c) (JNum 1)) ].
Proof.
  intros Hp Ha. destruct c as [cp [a|] cn cs cattrs]; simpl in *; [|discriminate Ha].
  subst cp. by apply assignments_top.
Qed.

(* a record with an attributeId: what the builder sets is its own state *)
Lemma record_sets c p r :
  c_purposeId c = Some p ->
  truthy_str (c_attributeId c) = true ->
  PrivacyService.findLogicalId (getConsentMetadata p) (c_attributeId c)
    (c_attributeName c) = Some r ->
  builder_sets p r (strict_eq (c_state c) (JNum 1)) c.
Proof.
  intros Hp Ha Hid. unfold builder_sets.
  rewrite (assignments_entry c p Hp Ha), Hid.
  unfold last_assigned. simpl. by rewrite bool_decide_eq_true_2.
Qed.

(** C3 (amended). In the mapping built by _buildConsentState, a record whose
    attributeId is a known logical ID of its purpose marks that ID as granted
    iff its state is 1, provided no later entry of the list resolves to the
    same purpose and logical ID and no other entry of the list is filed under
    a member name of Object.prototype (such as constructor), on which the
    builder can throw. *)
Theorem exact_record_decides_when_last pre c post p a :
  c_purposeId c = Some p ->
  c_attributeId c = Some a ->
  In a (metaIds_of (getConsentMetadata p)) ->
  Forall (fun c' => ~ touches p a c') post ->
  Forall ordinary pre ->
  Forall ordinary post ->
  builds (pre ++ c :: post) p a (Some (strict_eq (c_state c) (JNum 1))).
Proof.
  intros Hp Ha Hknown Hpost Hpre Hord.
  destruct (findLogicalId_exact_id p a (c_attributeName c) Hknown) as [Ht Hid].
  destruct (known_id_own p a Hknown) as [Hown Hproto].
  apply builds_last_entry; try done.
  - apply record_sets; [done | by rewrite Ha | by rewrite Ha].
  - apply Forall_app. split; [done|]. constructor; [|done].
    unfold ordinary. by rewrite Hp.
Qed.

Lemma exact_record_decides_when_last_witness :
  builds ([top "ITR_FILING" "name" None (JNum 2)] ++
          top "ITR_FILING" "name" None (JNum 1) ::
          [top "ITR_FILING" "email" None (JNum 2)])
         "ITR_FILING" "name"
         (Some (strict_eq (c_state (top "ITR_FILING" "name" None (JNum 1))) (JNum 1))).
Proof.
  apply (exact_record_decides_when_last
           [top "ITR_FILING" "name" None (JNum 2)]
           (top "ITR_FILING" "name" None (JNum 1))
           [top "ITR_FILING" "email" None (JNum 2)] "ITR_FILING" "name").
  - reflexivity.
  - reflexivity.
  - vm_compute. left. reflexivity.
  - repeat constructor. vm_compute. intros [H|[]]. discriminate H.
  - repeat constructor.
  - repeat constructor.
Defined.

(** C3 (counterexample). With two records for ITR_FILING/name, granted then
    denied, the first record has state 1 but the mapping says not granted. *)
Lemma exact_record_overridden_by_later_entry :
  ~ Spec.exact_record_decides [top "ITR_FILING" "name" None (JNum 1);
                               top "ITR_FILING" "name" None (JNum 2)].
Proof.
  intros H.
  specialize (H (top "ITR_FILING" "name" None (JNum 1)) "ITR_FILING" "name"
                (or_introl eq_refl) eq_refl eq_refl).
  assert (In "name" (metaIds_of (getConsentMetadata "ITR_FILING"))) as Hin
    by (vm_compute; left; reflexivity).
  specialize (H Hin).
  assert (builds [top "ITR_FILING" "name" None (JNum 1);
                  top "ITR_FILING" "name" None (JNum 2)] "ITR_FILING" "name"
                 (Some false)) as H'.
  { apply (builds_last_entry [top "ITR_FILING" "name" None (JNum 1)]
             (top "ITR_FILING" "name" None (JNum 2)) [] "ITR_FILING" "name" false).
    - vm_compute. reflexivity.
    - constructor.
    - repeat constructor.
    - discriminate. }
  pose proof (builds_functional _ _ _ _ _ H H') as Heq. vm_compute in Heq.
  discriminate Heq.
Qed.

Lemma flatten_entry_top c :
  truthy_str (c_attributeId c) = true ->
  flatten_entry c = [ {| ca_attributeId := c_attributeId c;
                         ca_attributeName := c_attributeName c;
                         ca_state := c_state c |} ].
Proof. intros Ha. unfold flatten_entry. by rewrite Ha. Qed.

(* a record with an attributeId: what the gate reads is its own state *)
Lemma record_read c p r :
  c_purposeId c = Some p ->
  truthy_str (c_attributeId c) = true ->
  PrivacyService.findLogicalId (getConsentMetadata p) (c_attributeId c)
    (c_attributeName c) = Some r ->
  gate_reads p r (c_state c) c.
Proof.
  intros Hp Ha Hid. split; [done|]. rewrite (flatten_entry_top c Ha).
  apply List.Exists_cons_hd. by split.
Qed.





(* the same for entries that carry their attributes in an array *)
Example grant_and_denial_nested :
  let nested s :=
    {| c_purposeId := Some "ITR_FILING"; c_attributeId := None; c_attributeName := None;
       c_state := JUndefined;
       c_attributes :=
         ArrayOf [ {| a_attributeId := Some "email"; a_id := None; a_attributeName := None;
                      a_label := None; a_name := None; a_state := s |} ] |} in
  gate_reads "ITR_FILING" "email" (JNum 1) (nested (JNum 1)) /\
  builder_sets "ITR_FILING" "email" true (nested (JNum 1)) /\
  builder_sets "ITR_FILING" "email" false (nested (JNum 2)) /\
  ordinary (nested (JNum 1)) /\ ordinary (nested (JNum 2)).
Proof.
  cbv zeta. split; [|split; [|split; [|split]]]; try (vm_compute; reflexivity).
  split; [reflexivity|]. apply List.Exists_cons_hd. split; vm_compute; reflexivity.
Qed.



(* ---------------- keys of the built state ---------------- *)





Lemma build_default : _buildConsentState None = Normal default_state.
Proof. vm_compute. exact eq_refl. Qed.



Example default_state_lookups :
  lookup2 default_state "MARKETING_COMMUNICATIONS" "email" = Some false /\
  lookup2 default_state "MARKETING_COMMUNICATIONS" "pan_id" = None /\
  lookup2 default_state "ITR_FILING" "pan_id" = Some false /\
  lookup2 default_state "ITR_FILING" "aadhar_id" = Some false.
Proof. repeat split; vm_compute; exact eq_refl. Qed.


(* ---------------- the consent toggle ---------------- *)

Import Notions.

Lemma consentState_of_cases v :
  (consentState_of v = JNum 1 /\ (v = JBool true \/ v = JNum 1)) \/
  (consentState_of v = JNum 2 /\ v <> JBool true /\ v <> JNum 1).
Proof.
  unfold consentState_of.
  destruct v as [| |[|]|n|s|]; try (right; split; [reflexivity | split; discriminate]).
  - left. split; [reflexivity | by left].
  - destruct (decide (n = 1%Z)) as [->|Hn].
    + left. split; [reflexivity | by right].
    + right. unfold strict_eq. rewrite (bool_decide_eq_false_2 (JNum n = JBool true)) by done.
      rewrite (bool_decide_eq_false_2 (JNum n = JNum 1)) by congruence.
      split; [reflexivity | split; congruence].
Qed.

Lemma default_param_consentState v :
  default_param (consentState_of v) (JNum 1) = consentState_of v.
Proof. by destruct (consentState_of_cases v) as [[-> _]|[-> _]]. Qed.

Lemma indexOf_from_absent_by {A} (eqb : A -> A -> bool) (x : A) l i :
  (0 <= i)%Z ->
  (indexOf_from eqb i x l = -1)%Z <-> Forall (fun y => eqb y x = false) l.
Proof.
  revert i. induction l as [|y l IH]; intros i Hi; simpl.
  - split; [constructor | done].
  - destruct (eqb y x) eqn:E.
    + split; [lia | inversion 1; congruence].
    + rewrite IH by lia. split; [by constructor | by inversion 1].
Qed.

Lemma indexOf_present_by {A} (eqb : A -> A -> bool) (x : A) l :
  Exists (fun y => eqb y x = true) l -> (indexOf eqb l x =? -1)%Z = false.
Proof.
  intros Hex. apply Z.eqb_neq. intros Hno.
  apply (indexOf_from_absent_by eqb x l 0) in Hno; [|lia].
  apply List.Exists_exists in Hex as (y & Hy & Heq).
  rewrite List.Forall_forall in Hno. specialize (Hno y Hy). congruence.
Qed.

Section Toggle.
Context {W : Type} (sdk : Sdk W).

(* updateConsent either stops after the metadata query with a throw, or goes
   on to the store and ends as that call does *)
Lemma updateConsent_cases auth purposeId attributeId st (e : Env W) :
  (exists w1 err,
     PrivacyService.updateConsent sdk auth purposeId attributeId st e
     = ({| ext := w1;
           calls := calls e ++ [GetConsentMetadata (update_client auth) [purposeId]] |},
        Throw err)) \/
  (exists w1,
     PrivacyService.updateConsent sdk auth purposeId attributeId st e
     = (let (w2, r) := sdk_storeConsents sdk (update_client auth)
                         [update_value purposeId attributeId st] w1 in
        ({| ext := w2; calls := calls e ++ update_calls auth purposeId attributeId st |},
         r))).
Proof.
  unfold PrivacyService.updateConsent, update_calls. run_async. cbv zeta.
  fold (update_client auth). fold (update_value purposeId attributeId st). simpl.
  destruct (sdk_getConsentMetadata sdk _ _ (ext e)) as [w1 [metaResp|err]]; simpl.
  - match goal with
    | |- context [match ?x with Some _ => _ | None => _ end] => destruct x as [attrIds|]
    end; simpl.
    + destruct (indexOf strict_eq _ attributeId =? -1)%Z; simpl.
      * left. by eexists _, _.
      * right. exists w1.
        destruct (sdk_storeConsents sdk _ _ w1) as [w2 [r|x]]; simpl;
          by rewrite <- app_assoc.
    + right. exists w1.
      destruct (sdk_storeConsents sdk _ _ w1) as [w2 [r|x]]; simpl;
        by rewrite <- app_assoc.
  - destruct (bool_decide _); simpl.
    + left. by eexists _, _.
    + right. exists w1.
      destruct (sdk_storeConsents sdk _ _ w1) as [w2 [r|x]]; simpl;
        by rewrite <- app_assoc.
Qed.

(* updateConsent when the metadata query lets it go on to the store *)
Lemma updateConsent_run_allowed auth purposeId attributeId st (e : Env W) w1 :
  metadata_allows sdk auth purposeId attributeId (ext e) w1 ->
  PrivacyService.updateConsent sdk auth purposeId attributeId st e =
    (let (w2, r) := sdk_storeConsents sdk (update_client auth)
                      [update_value purposeId attributeId st] w1 in
     ({| ext := w2; calls := calls e ++ update_calls auth purposeId attributeId st |}, r)).
Proof.
  unfold PrivacyService.updateConsent, update_calls. run_async. cbv zeta.
  fold (update_client auth). fold (update_value purposeId attributeId st).
  intros [[(err & -> & Hcode)|(metaResp & -> & Hun)]|(metaResp & def & -> & Hdef & Hex)];
    simpl.
  - rewrite bool_decide_eq_false_2 by done. simpl.
    destruct (sdk_storeConsents sdk _ _ w1) as [w2 [r|x]]; simpl;
      by rewrite <- app_assoc.
  - unfold purpose_unknown in Hun. destruct metaResp as [r|]; simpl.
    + destruct (purposes r) as [ps|]; simpl;
        [destruct Hun as [Hno Hinh]; rewrite Hno, Hinh|]; simpl;
        destruct (sdk_storeConsents sdk _ _ w1) as [w2 [r'|x]]; simpl;
        by rewrite <- app_assoc.
    + destruct (sdk_storeConsents sdk _ _ w1) as [w2 [r'|x]]; simpl;
        by rewrite <- app_assoc.
  - unfold purpose_def in Hdef. destruct metaResp as [r|]; [|discriminate]. simpl.
    destruct (purposes r) as [ps|]; [|discriminate]. simpl. rewrite Hdef.
    rewrite (indexOf_present_by strict_eq attributeId _ Hex). simpl.
    destruct (sdk_storeConsents sdk _ _ w1) as [w2 [r'|x]]; simpl;
      by rewrite <- app_assoc.
Qed.

(* the SDK calls of updateConsent: at most a metadata query, then at most
   one store of the value built from its arguments; a normal return has
   stored it *)
Lemma updateConsent_calls auth purposeId attributeId st e :
  let value := {| v_purposeId := purposeId; v_attributeId := attributeId;
                  v_accessTypeId := "default";
                  v_state := default_param st (JNum 1) |} in
  let out := PrivacyService.updateConsent sdk auth purposeId attributeId st e in
  exists new,
    calls (fst out) = calls e ++ new /\
    (forall cl vs, In (StoreConsents cl vs) new -> vs = [value]) /\
    (forall res, snd out = Normal res -> exists cl, In (StoreConsents cl [value]) new).
Proof.
  cbv zeta.
  destruct (updateConsent_cases auth purposeId attributeId st e)
    as [(w1 & err & ->)|(w1 & ->)].
  - eexists. split; [reflexivity|].
    split; [intros cl vs [H|[]]; discriminate H | discriminate].
  - exists (update_calls auth purposeId attributeId st).
    destruct (sdk_storeConsents sdk _ _ w1) as [w2 r]. simpl.
    split; [done|].
    split; [intros cl vs [H|[H|[]]]; try discriminate H; by inversion H|].
    intros _ _. eexists. right. by left.
Qed.

(** C10. POST /consent/update coerces the request's state to 1 or 2 before
    writing: whatever the handler stores through the SDK carries the state 1
    when the request's state is the boolean true or the number 1 and the
    state 2 for every other value (the strings "1" and "true", a missing
    field and null among them); a 200 answer reports that state and has
    stored it.  And it does write: for a logged-in user, a purposeId and an
    attributeId that are truthy primitive values and a metadata query that
    does not stop updateConsent, the handler makes exactly the metadata
    query and one storeConsents call, of that value, and leaves the store as
    that call left it. *)
Theorem toggle_state_coercion (req : UpdateRequest) (e : Env W) :
  let out := updateConsentToggle sdk req e in
  let stored := {| v_purposeId := body_purposeId req;
                   v_attributeId := body_attributeId req;
                   v_accessTypeId := "default";
                   v_state := consentState_of (body_state req) |} in
  (consentState_of (body_state req) = JNum 1 <->
     body_state req = JBool true \/ body_state req = JNum 1) /\
  (consentState_of (body_state req) = JNum 2 <->
     ~ (body_state req = JBool true \/ body_state req = JNum 1)) /\
  (exists new,
     calls (fst out) = calls e ++ new /\
     (forall cl vs, In (StoreConsents cl vs) new -> vs = [stored]) /\
     (forall msg p a s, snd out = Normal (Json200_Updated msg p a s) ->
        s = v_state stored /\ exists cl, In (StoreConsents cl [stored]) new)) /\
  (forall tok w1,
     session_authToken req = Some tok ->
     truthy (body_purposeId req) && truthy (body_attributeId req) = true ->
     body_purposeId req <> JObject -> body_attributeId req <> JObject ->
     metadata_allows sdk (session_auth tok) (body_purposeId req) (body_attributeId req)
       (ext e) w1 ->
     calls (fst out) =
       calls e ++ [ GetConsentMetadata (update_client (session_auth tok))
                      [body_purposeId req];
                    StoreConsents (update_client (session_auth tok)) [stored] ] /\
     ext (fst out) =
       fst (sdk_storeConsents sdk (update_client (session_auth tok)) [stored] w1)) /\
  consentState_of (JStr "1") = JNum 2 /\
  consentState_of (JStr "true") = JNum 2 /\
  consentState_of JUndefined = JNum 2 /\
  consentState_of JNull = JNum 2.
Proof.
  cbv zeta. split; [|split; [|split; [|split; [|repeat split; reflexivity]]]].
  - destruct (consentState_of_cases (body_state req)) as [[-> ?]|[-> [? ?]]].
    + tauto.
    + split; [discriminate | intros [?|?]; contradiction].
  - destruct (consentState_of_cases (body_state req)) as [[-> ?]|[-> [? ?]]].
    + split; [discriminate | tauto].
    + split; [intros _ [?|?]; contradiction | done].
  - unfold updateConsentToggle, try_catch at 1.
    destruct (session_authToken req) as [authToken|]; simpl;
      [|exists []; split; [by rewrite app_nil_r |
                          split; [intros ? ? [] | discriminate]]].
    destruct (negb (truthy (body_purposeId req)) || negb (truthy (body_attributeId req)));
      simpl; [exists []; split; [by rewrite app_nil_r |
                                 split; [intros ? ? [] | discriminate]]|].
    set (auth := {| accessToken := _; subjectId := _ |}).
    destruct (updateConsent_calls auth (body_purposeId req) (body_attributeId req)
                (consentState_of (body_state req)) e) as (new & Hcalls & Hstore & Hdone).
    cbv zeta in Hcalls, Hstore, Hdone.
    rewrite default_param_consentState in Hstore, Hdone.
    exists new. unfold try_catch, bind, ret.
    destruct (PrivacyService.updateConsent sdk auth _ _ _ e) as [e1 [res|err]];
      simpl in *.
    + destruct (Hdone res eq_refl) as (cl & Hin).
      destruct res as [r|]; [destruct (String.eqb (status r) "success")|]; simpl;
        (split; [done|]); (split; [done|]); intros msg p a s [=]; subst.
      split; [done | by exists cl].
    + split; [done|]. split; [done | discriminate].
  - intros tok w1 Htok Hids _ _ Hallow.
    unfold updateConsentToggle, try_catch at 1. rewrite Htok.
    rewrite <- negb_andb, Hids. cbn [negb].
    fold (session_auth tok). unfold try_catch, bind, ret.
    rewrite (updateConsent_run_allowed _ _ _ _ _ _ Hallow).
    unfold update_calls, update_value. rewrite default_param_consentState.
    destruct (sdk_storeConsents sdk _ _ w1) as [w2 [[r|]|x]]; simpl;
      [destruct (String.eqb (status r) "success")| |]; simpl; by split.
Qed.

End Toggle.

Lemma toggle_state_coercion_witness :
  let req := {| session_authToken := Some demo_token;
                body_purposeId := JStr "ITR_FILING";
                body_attributeId := JStr "pan_id";
                body_state := JStr "1" |} in
  let out := updateConsentToggle Backend.sdk req (Backend.start Backend.empty_world) in
  calls (fst out) =
    [ GetConsentMetadata (update_client (session_auth demo_token)) [JStr "ITR_FILING"];
      StoreConsents (update_client (session_auth demo_token))
        [ {| v_purposeId := JStr "ITR_FILING"; v_attributeId := JStr "pan_id";
             v_accessTypeId := "default"; v_state := JNum 2 |} ] ] /\
  Backend.records (ext (fst out)) !! ("ITR_FILING", "pan_id") = Some (JNum 2).
Proof.
  cbv zeta.
  destruct (toggle_state_coercion Backend.sdk
              {| session_authToken := Some demo_token;
                 body_purposeId := JStr "ITR_FILING";
                 body_attributeId := JStr "pan_id";
                 body_state := JStr "1" |}
              (Backend.start Backend.empty_world)) as (_ & _ & _ & H & _).
  destruct (H demo_token Backend.empty_world eq_refl eq_refl) as [Hcalls Hext].
  - discriminate.
  - discriminate.
  - right. exists (Some {| purposes := Some Backend.purpose_defs |}),
      {| def_attributes :=
           Some [JStr "name"; JStr "email"; JStr "mobile_number"; JStr "aadhar_id";
                 JStr "pan_id"] |}.
    split; [reflexivity|]. split; [vm_compute; exact eq_refl|].
    do 4 apply List.Exists_cons_tl. apply List.Exists_cons_hd. reflexivity.
  - split; [exact Hcalls|]. rewrite Hext. vm_compute. exact eq_refl.
Defined.

Example toggle_string_one_is_stored_as_denied :
  let out := updateConsentToggle Backend.sdk
               {| session_authToken := Some demo_token;
                  body_purposeId := JStr "ITR_FILING";
                  body_attributeId := JStr "pan_id";
                  body_state := JStr "1" |}
               (Backend.start Backend.empty_world) in
  snd out = Normal (Json200_Updated "Consent updated for pan_id" (JStr "ITR_FILING")
                      (JStr "pan_id") (JNum 2)) /\
  Backend.records (ext (fst out)) !! ("ITR_FILING", "pan_id") = Some (JNum 2).
Proof. split; vm_compute; reflexivity. Qed.

(* ---------------- store, then fetch ---------------- *)

Section StoreThenFetch.
Context {W : Type} (sdk : Sdk W).

(* a normal return of updateConsent is the answer of storeConsents to the
   value built from its arguments, and leaves the store as that call left it *)
Lemma updateConsent_returns auth purposeId attributeId st e e1 res :
  PrivacyService.updateConsent sdk auth purposeId attributeId st e = (e1, Normal res) ->
  exists w,
    sdk_storeConsents sdk (_getPrivacyClient auth (subjectId auth))
      [ {| v_purposeId := purposeId; v_attributeId := attributeId;
           v_accessTypeId := "default";
           v_state := default_param st (JNum 1) |} ] w
    = (ext e1, Normal res).
Proof.
  destruct (updateConsent_cases sdk auth purposeId attributeId st e)
    as [(w1 & err & ->)|(w1 & ->)]; [discriminate|].
  unfold update_client, update_value.
  destruct (sdk_storeConsents sdk _ _ w1) as [w2 r] eqn:E.
  intros [= <- ->]. by exists w1.
Qed.

Lemma getUserConsents_returns auth userId (e : Env W) w cs :
  sdk_getUserConsents sdk (_getPrivacyClient auth userId) (ext e)
    = (w, Normal {| consents := Some cs |}) ->
  getUserConsents sdk auth userId e
    = ({| ext := w; calls := calls e ++ [GetUserConsents (_getPrivacyClient auth userId)] |},
       Normal cs).
Proof.
  intros H. unfold getUserConsents, try_catch, bind, sdk_call, ret. by rewrite H.
Qed.

End StoreThenFetch.

Lemma controller_findLogicalId_bare purposeId a :
  truthy_str (Some a) = true ->
  ConsentController.findLogicalId purposeId (Some a) None = JStr a.
Proof.
  intros Ha. destruct purposeId as [p|].
  - rewrite controller_findLogicalId_top by done.
    unfold PrivacyService.findLogicalId.
    destruct (_ && _); [done|]. by destruct (getConsentMetadata p).
  - unfold ConsentController.findLogicalId. simpl.
    unfold ConsentController.purposeMeta.
    rewrite !lookup_insert_ne by done. rewrite lookup_empty. simpl.
    unfold or_else. unfold truthy_str in Ha. simpl in Ha. simpl.
    rewrite Ha. simpl. by rewrite Ha.
Qed.

Lemma assignments_as_written c :
  as_written c ->
  assignments c =
    if truthy_str (c_attributeId c)
    then [ (fst (key_of c), snd (key_of c), strict_eq (c_state c) (JNum 1)) ]
    else [].
Proof.
  intros [Hn Hattrs]. unfold assignments, key_of. rewrite Hn, Hattrs. simpl.
  destruct (c_attributeId c) as [a|] eqn:Ea; [|done].
  destruct (truthy_str (Some a)) eqn:Ht; [|done].
  by rewrite controller_findLogicalId_bare.
Qed.

Lemma NoDup_map_injective {A B} (f : A -> B) l x y :
  NoDup (List.map f l) -> In x l -> In y l -> f x = f y -> x = y.
Proof.
  induction l as [|z l IH]; simpl; [done|].
  intros Hnd [->|Hx] [->|Hy] Hf; inversion Hnd as [|? ? Hnotin Hnd']; subst.
  - done.
  - exfalso. apply Hnotin. rewrite Hf. by apply in_map.
  - exfalso. apply Hnotin. rewrite <- Hf. by apply in_map.
  - by apply IH.
Qed.

Lemma last_assigned_unique p k ws b :
  In (p, k, b) ws ->
  (forall b', In (p, k, b') ws -> b' = b) ->
  last_assigned p k ws = Some b.
Proof.
  intros Hin Huniq. unfold last_assigned.
  destruct (List.find _ (rev ws)) as [[[p' k'] b']|] eqn:E.
  - apply find_some in E as [Hin' Heq]. apply bool_decide_eq_true in Heq.
    simpl in Heq. inversion Heq; subst. simpl. f_equal. apply Huniq. by apply in_rev.
  - exfalso. eapply find_none in E; [|apply in_rev in Hin; exact Hin].
    simpl in E. by rewrite bool_decide_eq_true_2 in E.
Qed.

(* the state built from records as written, one per key *)
Lemma build_as_written cs p a s :
  Forall as_written cs ->
  NoDup (List.map key_of cs) ->
  In (Backend.written p a s) cs ->
  a <> "" ->
  a <> "__proto__" ->
  Forall ordinary cs ->
  builds cs p a (Some (strict_eq s (JNum 1))).
Proof.
  intros Hw Hnd Hin Ha Hproto Hord.
  assert (truthy_str (Some a) = true) as Ht.
  { unfold truthy_str. simpl. by destruct (String.eqb_spec a ""). }
  assert (last_assigned p a (flat_map assignments cs) = Some (strict_eq s (JNum 1)))
    as <-; [|apply builds_last; [by destruct cs | done | done]].
  apply last_assigned_unique.
  - apply in_flat_map. exists (Backend.written p a s). split; [done|].
    rewrite assignments_as_written by done. simpl. rewrite Ht. by left.
  - intros b' Hb'. apply in_flat_map in Hb' as (c & Hc & Hb').
    rewrite List.Forall_forall in Hw.
    rewrite (assignments_as_written c (Hw c Hc)) in Hb'.
    destruct (truthy_str (c_attributeId c)); [|destruct Hb'].
    destruct Hb' as [Hb'|[]]. inversion Hb' as [[Hk1 Hk2 Hv]].
    assert (c = Backend.written p a s) as ->.
    { apply (NoDup_map_injective key_of cs); try done.
      unfold key_of in *. simpl in *. congruence. }
    reflexivity.
Qed.


Lemma backend_faithful : faithful Backend.sdk.
Proof.
  intros cl v w w' r p a Hp Ha Hstore Hok cl'. simpl in *.
  destruct (Backend.reachable w) eqn:Hr; [|discriminate Hstore].
  inversion Hstore; subst w'. clear Hstore. simpl. rewrite Hr.
  do 2 eexists. split; [reflexivity|]. unfold Backend.fetch. simpl.
  split; [|split].
  - apply List.Forall_forall. intros c Hc. apply in_map_iff in Hc as (x & <- & _).
    by split.
  - rewrite map_map. simpl.
    replace (List.map _ _) with
      (List.map fst (map_to_list
         (<[(to_key (v_purposeId v), to_key (v_attributeId v)):=v_state v]>
            (Backend.records w)))).
    + apply NoDup_ListNoDup. apply (NoDup_fst_map_to_list
        (<[(to_key (v_purposeId v), to_key (v_attributeId v)):=v_state v]>
           (Backend.records w))).
    + apply map_ext. by intros [[? ?] ?].
  - apply in_map_iff. exists ((p, a), v_state v). split; [done|].
    apply list_elem_of_In, elem_of_map_to_list. rewrite Hp, Ha. simpl.
    apply lookup_insert_eq.
Qed.



(* ---------------- registration, step 2 ---------------- *)

Import RegistrationController.


Lemma append_cons c (s t : string) : (String c s ++ t)%string = String c (s ++ t)%string.
Proof. reflexivity. Qed.

Lemma append_empty_r (s : string) : (s ++ "")%string = s.
Proof. induction s as [|c s IH]; [done | rewrite append_cons; by f_equal]. Qed.

Lemma length_append (s t : string) :
  String.length (s ++ t) = String.length s + String.length t.
Proof.
  induction s as [|c s IH]; [done|]. rewrite append_cons. simpl. by rewrite IH.
Qed.

Lemma eat_spec k n s r :
  eat k n s = Some r <->
  exists pre, s = (pre ++ r)%string /\ String.length pre = n /\
              all_chars (in_class k) pre = true.
Proof.
  revert s. induction n as [|n IH]; intros s; simpl.
  - split.
    + intros [= ->]. by exists "".
    + intros ([|c pre] & -> & Hlen & _); [done | discriminate Hlen].
  - destruct s as [|c s].
    + split; [discriminate|].
      intros ([|c pre] & Hs & Hlen & _); [discriminate Hlen|].
      rewrite append_cons in Hs. discriminate Hs.
    + destruct (in_class k c) eqn:Hc.
      * rewrite IH. split.
        -- intros (pre & -> & Hlen & Hall). exists (String c pre).
           rewrite append_cons. simpl. rewrite Hc. by rewrite Hlen.
        -- intros ([|c' pre] & Hs & Hlen & Hall); [discriminate Hlen|].
           rewrite append_cons in Hs. simpl in *. inversion Hs; subst.
           apply andb_true_iff in Hall as [_ Hall].
           exists pre. split; [done|]. split; [lia | done].
      * split; [discriminate|].
        intros ([|c' pre] & Hs & Hlen & Hall); [discriminate Hlen|].
        rewrite append_cons in Hs. simpl in *. inversion Hs; subst.
        rewrite Hc in Hall. discriminate Hall.
Qed.

Lemma aadhaarRegex_spec s : test aadhaarRegex s = true <-> twelve_digits s.
Proof.
  unfold aadhaarRegex, twelve_digits. cbn [test].
  destruct (eat Digit 12 s) as [r|] eqn:E.
  - apply eat_spec in E as (pre & -> & Hlen & Hall). split.
    + intros Hr. apply String.eqb_eq in Hr as ->. by rewrite append_empty_r.
    + intros [Hlen' _]. apply String.eqb_eq.
      rewrite length_append in Hlen'. destruct r; [done | simpl in Hlen'; lia].
  - split; [discriminate|]. intros [Hlen Hall].
    assert (eat Digit 12 s = Some "") as E'
      by (apply eat_spec; exists s; by rewrite append_empty_r).
    congruence.
Qed.

Lemma panRegex_spec s : test panRegex s = true <-> pan_shape s.
Proof.
  unfold panRegex, pan_shape. cbn [test]. split.
  - destruct (eat Upper 5 s) as [r1|] eqn:E1; [|discriminate].
    destruct (eat Digit 4 r1) as [r2|] eqn:E2; [|discriminate].
    destruct (eat Upper 1 r2) as [r3|] eqn:E3; [|discriminate].
    intros Hr. apply String.eqb_eq in Hr as ->.
    apply eat_spec in E1 as (a & -> & ? & ?).
    apply eat_spec in E2 as (b & -> & ? & ?).
    apply eat_spec in E3 as (c & -> & ? & ?).
    exists a, b, c. by rewrite append_empty_r.
  - intros (a & b & c & -> & Ha & Ha' & Hb & Hb' & Hc & Hc').
    assert (eat Upper 5 (a ++ b ++ c) = Some (b ++ c)%string) as ->
      by (apply eat_spec; by exists a).
    assert (eat Digit 4 (b ++ c) = Some c) as -> by (apply eat_spec; by exists b).
    assert (eat Upper 1 c = Some "") as ->
      by (apply eat_spec; exists c; by rewrite append_empty_r).
    reflexivity.
Qed.

Lemma ws_not_digit c : is_ws c = true -> is_digit c = false.
Proof.
  unfold is_ws, is_digit. cbv zeta.
  generalize (nat_of_ascii c). intros n H.
  apply andb_false_iff.
  apply orb_true_iff in H as [H|H]; [apply orb_true_iff in H as [H|H]|].
  - left. apply Nat.leb_gt.
    apply andb_true_iff in H as [_ H]. apply Nat.leb_le in H. lia.
  - left. apply Nat.leb_gt. apply Nat.eqb_eq in H. lia.
  - right. apply Nat.leb_gt. apply Nat.eqb_eq in H. lia.
Qed.

Lemma digits_after_remove_ws s :
  all_chars is_digit (remove_ws s) = true ->
  filter_chars is_digit s = remove_ws s.
Proof.
  unfold remove_ws. induction s as [|c s IH]; simpl; [done|].
  destruct (is_ws c) eqn:Hw; simpl.
  - rewrite (ws_not_digit c Hw). exact IH.
  - intros H. apply andb_true_iff in H as [Hd H]. rewrite Hd. by rewrite IH.
Qed.

Lemma all_chars_drop f n s :
  all_chars f s = true -> all_chars f (drop_chars n s) = true.
Proof.
  revert s. induction n as [|n IH]; intros [|c s]; simpl; try done.
  intros H. apply andb_true_iff in H as [_ H]. by apply IH.
Qed.

Lemma length_drop n s : String.length (drop_chars n s) = String.length s - n.
Proof.
  revert s. induction n as [|n IH]; intros [|c s]; simpl; try done; try lia.
Qed.

Lemma twelve_digits_nonempty s : twelve_digits (remove_ws s) -> truthy (JStr s) = true.
Proof.
  intros [Hlen _]. destruct s; [discriminate Hlen | done].
Qed.

Lemma length_map_chars f s : String.length (map_chars f s) = String.length s.
Proof. induction s as [|c s IH]; simpl; [done | by rewrite IH]. Qed.

Lemma pan_shape_nonempty s : pan_shape (toUpperCase s) -> truthy (JStr s) = true.
Proof.
  intros (a & b & c & Hs & Ha & _). destruct s; [|done].
  destruct a; [discriminate Ha|]. rewrite append_cons in Hs. discriminate Hs.
Qed.

Lemma validateAadhaar_spec v :
  form_field v ->
  exists b, _validateAadhaar v = Normal b /\ (truthy b = true <-> aadhaar_ok v).
Proof.
  unfold _validateAadhaar, aadhaar_ok. intros [[s ->]|Hf].
  - destruct (truthy (JStr s)) eqn:Ht.
    + exists (JBool (test aadhaarRegex (remove_ws s))). split; [reflexivity|].
      cbn [truthy]. rewrite aadhaarRegex_spec. split; [by exists s|].
      by intros (s' & [= <-] & H).
    + exists (JStr s). split; [reflexivity|]. rewrite Ht.
      split; [discriminate|]. intros (s' & [= <-] & H).
      apply twelve_digits_nonempty in H. congruence.
  - rewrite Hf. exists v. split; [reflexivity|]. rewrite Hf.
    split; [discriminate|]. intros (s & -> & H).
    apply twelve_digits_nonempty in H. congruence.
Qed.

Lemma validatePAN_spec v :
  form_field v ->
  exists b, _validatePAN v = Normal b /\ (truthy b = true <-> pan_ok v).
Proof.
  unfold _validatePAN, pan_ok. intros [[s ->]|Hf].
  - destruct (truthy (JStr s)) eqn:Ht.
    + exists (JBool (test panRegex (toUpperCase s))). split; [reflexivity|].
      cbn [truthy]. rewrite panRegex_spec. split; [by exists s|].
      by intros (s' & [= <-] & H).
    + exists (JStr s). split; [reflexivity|]. rewrite Ht.
      split; [discriminate|]. intros (s' & [= <-] & H).
      apply pan_shape_nonempty in H. congruence.
  - rewrite Hf. exists v. split; [reflexivity|]. rewrite Hf.
    split; [discriminate|]. intros (s & -> & H).
    apply pan_shape_nonempty in H. congruence.
Qed.

Lemma maskAadhaar_valid s :
  twelve_digits (remove_ws s) ->
  _maskAadhaar (JStr s) = Normal ("********" ++ slice_last 4 (remove_ws s))%string /\
  all_chars is_digit (slice_last 4 (remove_ws s)) = true /\
  String.length (slice_last 4 (remove_ws s)) = 4.
Proof.
  intros H. pose proof (twelve_digits_nonempty s H) as Ht. destruct H as [Hlen Hall].
  unfold _maskAadhaar. rewrite Ht. simpl. rewrite (digits_after_remove_ws s Hall).
  split; [done|]. unfold slice_last. split; [by apply all_chars_drop|].
  rewrite length_drop, Hlen. reflexivity.
Qed.

Lemma maskPAN_valid s :
  pan_shape (toUpperCase s) ->
  _maskPAN (JStr s) = Normal (slice_to 5 (toUpperCase s) ++ "****" ++
                              slice_last 1 (toUpperCase s))%string.
Proof.
  intros H. unfold _maskPAN. by rewrite (pan_shape_nonempty s H).
Qed.

(** C7 (amended). When the session holds the record of step 1 and the
    submitted Aadhaar and PAN are strings or missing, step 2 answers with the
    validation error (HTTP 400, the form rendered again) iff the Aadhaar value
    with white space removed does not match ^\d{12}$ or the PAN value
    uppercased does not match ^[A-Z]{5}[0-9]{4}[A-Z]{1}$; when both match it
    stores the masked Aadhaar (8 asterisks and the last 4 digits) and the
    masked PAN in the session and redirects to step 3. *)
Theorem step2_validates_in_session req u :
  tempUser (session req) = Some u ->
  form_field (body_aadhaar req) ->
  form_field (body_pan req) ->
  Spec.step2_validates req.
Proof.
  intros Hu HfA HfP. unfold step2_validates, postStep2, validation_error. rewrite Hu.
  destruct (validateAadhaar_spec _ HfA) as (okA & -> & HA).
  destruct (validatePAN_spec _ HfP) as (okP & -> & HP). simpl.
  destruct (truthy okA) eqn:HtA; simpl.
  - destruct (truthy okP) eqn:HtP; simpl.
    + destruct HA as [HA _]. destruct (HA eq_refl) as (a & Ea & Ha).
      destruct HP as [HP _]. destruct (HP eq_refl) as (p & Ep & Hp).
      rewrite Ea, Ep.
      destruct (maskAadhaar_valid a Ha) as (-> & Hdig & Hlen).
      rewrite (maskPAN_valid p Hp). simpl. split.
      * split; [by intros (msg & [=]) |].
        intros [Hn|Hn]; exfalso; apply Hn; [by exists a | by exists p].
      * intros _. split; [done|]. eexists _, a, p. simpl. rewrite Ea, Ep.
        repeat split; try reflexivity; assumption.
    + split.
      * split; [intros _; right; intros Hp; apply HP in Hp; congruence | by eexists].
      * intros [_ Hp]. apply HP in Hp. congruence.
  - split.
    + split; [intros _; left; intros Ha; apply HA in Ha; congruence | by eexists].
    + intros [Ha _]. apply HA in Ha. congruence.
Qed.

Lemma step2_validates_in_session_witness :
  Spec.step2_validates
    {| session := {| tempUser := Some step1_record |};
       body_aadhaar := JStr "1234 5678 9012"; body_pan := JStr "abcde1234f" |}.
Proof.
  apply (step2_validates_in_session _ step1_record).
  - reflexivity.
  - left. by exists "1234 5678 9012".
  - left. by exists "abcde1234f".
Defined.

(** C7 (counterexample). Without the record of step 1 in the session a
    submission whose Aadhaar does not match is not answered with the
    validation error: the handler redirects to step 1. *)
Lemma step2_without_session_redirects :
  ~ Spec.step2_validates
      {| session := {| tempUser := None |};
         body_aadhaar := JStr "12"; body_pan := JStr "ABCDE1234F" |}.
Proof.
  intros [[_ H] _].
  destruct H as (msg & Hmsg).
  - left. intros (s & [= <-] & Hlen & _). discriminate Hlen.
  - discriminate Hmsg.
Qed.

Example step2_examples :
  postStep2 {| session := {| tempUser := Some step1_record |};
               body_aadhaar := JStr "1234 5678 9012"; body_pan := JStr "abcde1234f" |}
  = ({| tempUser := Some (set_pan (set_aadhaar step1_record "********9012"
                                     (JStr "1234 5678 9012"))
                                  "ABCDE****F" (JStr "abcde1234f")) |},
     Redirect "/register/step3") /\
  snd (postStep2 {| session := {| tempUser := Some step1_record |};
                    body_aadhaar := JStr "1234-5678-9012"; body_pan := JStr "abcde1234f" |})
  = Render 400 "register-step2" (Some "Please enter a valid 12-digit Aadhaar number") /\
  snd (postStep2 {| session := {| tempUser := Some step1_record |};
                    body_aadhaar := JStr "123456789012"; body_pan := JStr "abcd1234ef" |})
  = Render 400 "register-step2" (Some "Please enter a valid 10-character PAN number") /\
  snd (postStep2 {| session := {| tempUser := Some step1_record |};
                    body_aadhaar := JNum 123456789012; body_pan := JStr "abcde1234f" |})
  = Render 500 "register-step2" (Some "An error occurred. Please try again.") /\
  snd (postStep2 {| session := {| tempUser := None |};
                    body_aadhaar := JStr "123456789012"; body_pan := JStr "ABCDE1234F" |})
  = Redirect "/register/step1".
Proof. repeat split; reflexivity. Qed.

(* white space of the Aadhaar rule includes the no-break space, and the upper
   case of the sharp s is SS: both values are accepted *)
Example step2_white_space_and_case :
  postStep2 {| session := {| tempUser := Some step1_record |};
               body_aadhaar :=
                 JStr ("1234" ++ String NBSP "5678" ++ String NBSP "9012");
               body_pan := JStr ("ABC" ++ String SHARP_S "1234F") |}
  = ({| tempUser := Some (set_pan (set_aadhaar step1_record "********9012"
                                     (JStr ("1234" ++ String NBSP "5678" ++
                                            String NBSP "9012")))
                                  "ABCSS****F"
                                  (JStr ("ABC" ++ String SHARP_S "1234F"))) |},
     Redirect "/register/step3").
Proof. vm_compute. reflexivity. Qed.

(* ===================================================================== *)
(* The remaining handlers                                                 *)
(* ===================================================================== *)

Import Notions Sample2.

(* ---------------- the ITR filing action ---------------- *)

Section AssessProofs.
Context {W : Type} (sdk : Sdk W).

(* the gate functions when the fetch throws *)
Lemma gate_on_throw auth p req (e e1 : Env W) err :
  getUserConsents sdk auth None e = (e1, Throw err) ->
  hasRequiredConsents sdk auth p req e = (e1, Normal false) /\
  getMissingRequiredConsents sdk auth p req e = (e1, Normal (default [] req)).
Proof.
  intros Hthrow.
  unfold hasRequiredConsents, getMissingRequiredConsents, getConsentForPurpose.
  unfold try_catch at 1 3, bind at 1 3. unfold try_catch at 1 2, bind at 1 2.
  rewrite Hthrow. split; reflexivity.
Qed.

Lemma hasRequiredConsents_true_inv auth p req (e e1 : Env W) :
  hasRequiredConsents sdk auth p (Some req) e = (e1, Normal true) ->
  exists cs, fetched sdk auth e cs e1 /\
    Exists (fun c => c_purposeId c = Some p) cs /\ Forall (Granted p cs) req.
Proof.
  intros H. destruct (getUserConsents sdk auth None e) as [e' [cs|err]] eqn:E.
  - destruct (gate_on_fetched sdk auth p req e cs e' E)
      as (b & missing & Hb & _ & Hiff & _).
    rewrite Hb in H. inversion H; subst. exists cs. split; [exact E|]. by apply Hiff.
  - destruct (gate_on_throw auth p (Some req) e e' err E) as [Hb _].
    rewrite Hb in H. discriminate H.
Qed.

(* assessAndFile of a logged-in request, by the outcome of the two gate calls *)
Lemma assess_run (tok : AuthToken) (e : Env W) :
  ITRController.assessAndFile sdk {| ITRController.itr_authToken := Some tok |} e =
    match hasRequiredConsents sdk (itr_auth tok) "ITR_FILING" (Some itr_required) e with
    | (e1, Normal true) => (e1, Normal (ITRController.ItrRedirect "/itr/success"))
    | (e1, Normal false) =>
        match getMissingRequiredConsents sdk (itr_auth tok) "ITR_FILING"
                (Some itr_required) e1 with
        | (e2, Normal missing) =>
            (e2, Normal (ITRController.ItrBlocked403 (id_token_payload tok) missing
                           (List.map itr_label missing)))
        | (e2, Throw _) => (e2, Normal ITRController.ItrError500)
        end
    | (e1, Throw _) => (e1, Normal ITRController.ItrError500)
    end.
Proof.
  unfold ITRController.assessAndFile. cbn [ITRController.itr_authToken].
  unfold try_catch at 1. unfold bind at 1. fold (itr_auth tok). fold itr_required.
  destruct (hasRequiredConsents sdk (itr_auth tok) "ITR_FILING" (Some itr_required) e)
    as [e1 [[|]|err]]; try reflexivity.
  unfold bind.
  destruct (getMissingRequiredConsents sdk (itr_auth tok) "ITR_FILING"
              (Some itr_required) e1) as [e2 [m|err]]; reflexivity.
Qed.

(** X1. assessAndFile redirects to /itr/success only when the request is
    logged in, the fetch of the consents succeeded and every one of the five
    required attributes resolves to a granted consent of ITR_FILING in the
    fetched list. *)
Theorem assess_success_only_when_granted (req : ITRController.ItrRequest) (e e1 : Env W) :
  ITRController.assessAndFile sdk req e
    = (e1, Normal (ITRController.ItrRedirect "/itr/success")) ->
  exists tok cs,
    ITRController.itr_authToken req = Some tok /\
    fetched sdk (itr_auth tok) e cs e1 /\
    Forall (Granted "ITR_FILING" cs) itr_required.
Proof.
  unfold ITRController.assessAndFile. unfold try_catch at 1.
  destruct (ITRController.itr_authToken req) as [tok|]; [|discriminate].
  unfold bind at 1. fold (itr_auth tok).
  destruct (hasRequiredConsents sdk (itr_auth tok) "ITR_FILING" _ e)
    as [e' [[|]|err]] eqn:Hhas; simpl.
  - intros [= <-]. destruct (hasRequiredConsents_true_inv _ _ _ _ _ Hhas)
      as (cs & Hf & _ & HF). by exists tok, cs.
  - unfold bind. destruct (getMissingRequiredConsents _ _ _ _ e') as [e2 [m|err]];
      simpl; discriminate.
  - discriminate.
Qed.

Lemma itr_label_known r :
  In r itr_required ->
  exists a, In a (attributes ITR_FILING_meta) /\ id a = r /\ label a = itr_label r.
Proof.
  intros Hr. unfold itr_label, ITRController.attrLabel.
  destruct (List.find (fun a => String.eqb (id a) r) (attributes ITR_FILING_meta))
    as [a|] eqn:E.
  - apply find_some in E as [Hin Heq]. apply String.eqb_eq in Heq. by exists a.
  - exfalso. unfold itr_required in Hr. simpl in Hr.
    destruct Hr as [<-|[<-|[<-|[<-|[<-|[]]]]]]; vm_compute in E; discriminate E.
Qed.

(** X2. For a logged-in request whose first fetch returns the list cs:
    assessAndFile redirects to /itr/success when all five required
    attributes are granted in cs; otherwise it fetches again and answers 403
    with exactly the required attributes not granted in the second list,
    each shown under its metadata label. *)
Theorem assess_outcome (tok : AuthToken) (e e1 : Env W) cs :
  fetched sdk (itr_auth tok) e cs e1 ->
  (Forall (Granted "ITR_FILING" cs) itr_required ->
     ITRController.assessAndFile sdk {| ITRController.itr_authToken := Some tok |} e
       = (e1, Normal (ITRController.ItrRedirect "/itr/success"))) /\
  (~ Forall (Granted "ITR_FILING" cs) itr_required ->
     forall cs2 e2, fetched sdk (itr_auth tok) e1 cs2 e2 ->
       ITRController.assessAndFile sdk {| ITRController.itr_authToken := Some tok |} e
         = (e2, Normal (ITRController.ItrBlocked403 (id_token_payload tok)
                          (missing_subset "ITR_FILING" cs2 itr_required)
                          (List.map itr_label
                             (missing_subset "ITR_FILING" cs2 itr_required)))) /\
       Forall (fun r => exists a, In a (attributes ITR_FILING_meta) /\
                                  id a = r /\ label a = itr_label r)
              (missing_subset "ITR_FILING" cs2 itr_required)).
Proof.
  intros Hf.
  destruct (gate_on_fetched sdk (itr_auth tok) "ITR_FILING" itr_required e cs e1 Hf)
    as (b & missing & Hb & _ & Hiff & _).
  rewrite assess_run, Hb. split.
  - intros HF. assert (b = true) as ->; [|reflexivity].
    apply Hiff. split; [|done]. inversion HF; subst. eapply Granted_has_entry; eauto.
  - intros HnF cs2 e2 Hf2. assert (b = false) as ->.
    { destruct b; [|done]. exfalso. apply HnF. by apply Hiff. }
    destruct (gate_on_fetched sdk (itr_auth tok) "ITR_FILING" itr_required e1 cs2 e2 Hf2)
      as (b2 & missing2 & _ & Hm2 & _ & ->).
    rewrite Hm2. split; [reflexivity|].
    apply List.Forall_forall. intros r Hr. apply itr_label_known.
    unfold missing_subset in Hr. by apply filter_In in Hr as [? _].
Qed.

(** X3. When both fetches of assessAndFile throw, the logged-in request is
    answered 403 with all five required attributes listed as missing under
    their labels; nothing is thrown to the caller and the SDK has been called
    exactly twice. *)
Theorem assess_fails_closed (tok : AuthToken) (e e1 e2 : Env W) err1 err2 :
  getUserConsents sdk (itr_auth tok) None e = (e1, Throw err1) ->
  getUserConsents sdk (itr_auth tok) None e1 = (e2, Throw err2) ->
  ITRController.assessAndFile sdk {| ITRController.itr_authToken := Some tok |} e
    = (e2, Normal (ITRController.ItrBlocked403 (id_token_payload tok) itr_required
                     ["Full Name"; "Email Address"; "Mobile Number";
                      "Aadhaar Number"; "PAN Number"])) /\
  calls e2 = calls e ++ [GetUserConsents (_getPrivacyClient (itr_auth tok) None);
                         GetUserConsents (_getPrivacyClient (itr_auth tok) None)].
Proof.
  intros H1 H2.
  destruct (gate_on_throw (itr_auth tok) "ITR_FILING" (Some itr_required) e e1 err1 H1)
    as [Hb _].
  destruct (gate_on_throw (itr_auth tok) "ITR_FILING" (Some itr_required) e1 e2 err2 H2)
    as [_ Hm].
  split.
  - rewrite assess_run, Hb, Hm. reflexivity.
  - revert H1 H2. unfold getUserConsents. run_async.
    destruct (sdk_getUserConsents sdk _ (ext e)) as [w [r|x]]; intros [= <- _].
    simpl. destruct (sdk_getUserConsents sdk _ w) as [w' [r'|x']]; intros [= <- _].
    simpl. by rewrite <- app_assoc.
Qed.
End AssessProofs.

Lemma assess_success_only_when_granted_witness :
  exists tok cs,
    ITRController.itr_authToken {| ITRController.itr_authToken := Some demo_token |}
      = Some tok /\
    fetched Backend.canned (itr_auth tok) (Backend.holding all_granted) cs
      (fst (getUserConsents Backend.canned (itr_auth demo_token) None
              (Backend.holding all_granted))) /\
    Forall (Granted "ITR_FILING" cs) itr_required.
Proof.
  apply (assess_success_only_when_granted Backend.canned
           {| ITRController.itr_authToken := Some demo_token |}
           (Backend.holding all_granted)).
  vm_compute. reflexivity.
Defined.

Lemma assess_outcome_witness :
  (Forall (Granted "ITR_FILING" pan_denied) itr_required ->
     ITRController.assessAndFile Backend.canned
       {| ITRController.itr_authToken := Some demo_token |} (Backend.holding pan_denied)
       = (after_fetch (itr_auth demo_token) pan_denied,
          Normal (ITRController.ItrRedirect "/itr/success"))) /\
  (~ Forall (Granted "ITR_FILING" pan_denied) itr_required ->
     forall cs2 e2,
       fetched Backend.canned (itr_auth demo_token)
         (after_fetch (itr_auth demo_token) pan_denied) cs2 e2 ->
       ITRController.assessAndFile Backend.canned
         {| ITRController.itr_authToken := Some demo_token |} (Backend.holding pan_denied)
         = (e2, Normal (ITRController.ItrBlocked403 (id_token_payload demo_token)
                          (missing_subset "ITR_FILING" cs2 itr_required)
                          (List.map itr_label
                             (missing_subset "ITR_FILING" cs2 itr_required)))) /\
       Forall (fun r => exists a, In a (attributes ITR_FILING_meta) /\
                                  id a = r /\ label a = itr_label r)
              (missing_subset "ITR_FILING" cs2 itr_required)).
Proof.
  apply (assess_outcome Backend.canned demo_token (Backend.holding pan_denied)
           (after_fetch (itr_auth demo_token) pan_denied) pan_denied).
  reflexivity.
Defined.

Lemma assess_fails_closed_witness :
  ITRController.assessAndFile Backend.sdk
    {| ITRController.itr_authToken := Some demo_token |}
    (offline_after (itr_auth demo_token) 0)
    = (offline_after (itr_auth demo_token) 2,
       Normal (ITRController.ItrBlocked403 (id_token_payload demo_token) itr_required
                 ["Full Name"; "Email Address"; "Mobile Number";
                  "Aadhaar Number"; "PAN Number"])) /\
  calls (offline_after (itr_auth demo_token) 2)
    = calls (offline_after (itr_auth demo_token) 0)
      ++ [GetUserConsents (_getPrivacyClient (itr_auth demo_token) None);
          GetUserConsents (_getPrivacyClient (itr_auth demo_token) None)].
Proof.
  apply (assess_fails_closed Backend.sdk demo_token
           (offline_after (itr_auth demo_token) 0)
           (offline_after (itr_auth demo_token) 1)
           (offline_after (itr_auth demo_token) 2)
           Backend.unreachable_error Backend.unreachable_error);
    reflexivity.
Defined.

Example assess_examples :
  snd (ITRController.assessAndFile Backend.canned
         {| ITRController.itr_authToken := Some demo_token |} (Backend.holding all_granted))
    = Normal (ITRController.ItrRedirect "/itr/success") /\
  snd (ITRController.assessAndFile Backend.canned
         {| ITRController.itr_authToken := Some demo_token |} (Backend.holding pan_denied))
    = Normal (ITRController.ItrBlocked403 (id_token_payload demo_token)
                ["pan_id"] ["PAN Number"]) /\
  snd (ITRController.assessAndFile Backend.canned
         {| ITRController.itr_authToken := None |} (Backend.holding all_granted))
    = Normal (ITRController.ItrRedirect "/login").
Proof. repeat split; vm_compute; exact eq_refl. Qed.

(* ---------------- the routers ---------------- *)

Import Routes.

Section RouterProofs.
Context {W : Type} (sdk : Sdk W).

Lemma updateConsentToggle_logged_in (req : UpdateRequest) tok (e : Env W) :
  session_authToken req = Some tok ->
  snd (updateConsentToggle sdk req e) <> Normal Json401_NotAuthenticated.
Proof.
  intros Htok. unfold updateConsentToggle. rewrite Htok. unfold try_catch at 1.
  destruct (negb (truthy (body_purposeId req)) || negb (truthy (body_attributeId req)));
    [discriminate|].
  unfold try_catch, bind, ret.
  destruct (PrivacyService.updateConsent sdk _ _ _ _ e) as [e1 [[r|]|err]]; simpl;
    [destruct (String.eqb (status r) "success")| |]; discriminate.
Qed.

Lemma getConsentState_logged_in tok (e : Env W) :
  exists st w,
    snd (getConsentState sdk {| page_authToken := Some tok |} e) = Normal (State200 st w).
Proof.
  unfold getConsentState. cbn [page_authToken]. unfold try_catch, bind, ret, lift.
  destruct (PrivacyService.getUserConsents sdk _ _ e) as [e1 [cs|err]]; cbv beta iota;
    [destruct (_buildConsentState (Some cs))|]; simpl; eauto.
Qed.

Lemma getConsentPage_logged_in tok (e : Env W) :
  exists u st m1 m2 w,
    snd (getConsentPage sdk {| page_authToken := Some tok |} e)
    = Normal (PageRender u st m1 m2 w).
Proof.
  unfold getConsentPage. cbn [page_authToken]. unfold try_catch, bind, ret, throw, lift.
  destruct (id_token_payload tok) as [p|]; cbv beta iota; [|simpl; by eauto 10].
  destruct (PrivacyService.getUserConsents sdk _ _ e) as [e1 [cs|err]]; cbv beta iota;
    [destruct (_buildConsentState (Some cs))|]; simpl; by eauto 10.
Qed.

(** X4. Through the routers of /itr and /consent a request without a
    session token is redirected to /login before any handler runs, so the
    SDK is not called; and the handlers' own answers for a missing login
    (the 401 JSON, the redirect to /login) are never produced through a
    router. *)
Theorem routes_require_login (e : Env W) p a st :
  post_itr_assess sdk {| ITRController.itr_authToken := None |} e
    = (e, Normal RedirectToLogin) /\
  get_consent_state sdk {| page_authToken := None |} e = (e, Normal RedirectToLogin) /\
  get_consent_management sdk {| page_authToken := None |} e
    = (e, Normal RedirectToLogin) /\
  post_consent_update sdk {| session_authToken := None; body_purposeId := p;
                             body_attributeId := a; body_state := st |} e
    = (e, Normal RedirectToLogin) /\
  (forall req, snd (post_itr_assess sdk req e)
               <> Normal (Handled (ITRController.ItrRedirect "/login"))) /\
  (forall req, snd (get_consent_state sdk req e)
               <> Normal (Handled State401_NotAuthenticated)) /\
  (forall req, snd (get_consent_management sdk req e)
               <> Normal (Handled (PageRedirect "/login"))) /\
  (forall req, snd (post_consent_update sdk req e)
               <> Normal (Handled Json401_NotAuthenticated)).
Proof.
  repeat split; try reflexivity.
  - intros [[tok|]]; unfold post_itr_assess, guarded; simpl; [|discriminate].
    unfold bind. rewrite assess_run.
    destruct (hasRequiredConsents sdk _ _ _ e) as [e1 [[|]|err]]; simpl;
      try discriminate.
    destruct (getMissingRequiredConsents sdk _ _ _ e1) as [e2 [m|err]]; discriminate.
  - intros [[tok|]]; unfold get_consent_state, guarded; simpl; [|discriminate].
    unfold bind. destruct (getConsentState_logged_in tok e) as (s & w & H).
    destruct (getConsentState sdk _ e) as [e1 [r|err]]; simpl in *; [|discriminate].
    inversion H; subst. discriminate.
  - intros [[tok|]]; unfold get_consent_management, guarded; simpl; [|discriminate].
    unfold bind. destruct (getConsentPage_logged_in tok e) as (u & s & m1 & m2 & w & H).
    destruct (getConsentPage sdk _ e) as [e1 [r|err]]; simpl in *; [|discriminate].
    inversion H; subst. discriminate.
  - intros req. unfold post_consent_update, guarded.
    destruct (session_authToken req) as [tok|] eqn:Htok; simpl; [|discriminate].
    unfold bind. pose proof (updateConsentToggle_logged_in req tok e Htok) as H.
    destruct (updateConsentToggle sdk req e) as [e1 [r|err]]; simpl in *; [|discriminate].
    intros [= ->]. by apply H.
Qed.
End RouterProofs.

(* ---------------- the consent page ---------------- *)

(* nothing is granted in the state of a null or empty consent list *)
Lemma lookup2_default_state p k : lookup2 default_state p k <> Some true.
Proof.
  unfold lookup2, default_state.
  destruct (decide (p = "MARKETING_COMMUNICATIONS")) as [->|H1].
  - rewrite lookup_insert_eq. simpl.
    repeat (match goal with
            | |- <[?j := _]> _ !! k <> _ =>
                destruct (decide (j = k)) as [<-|?];
                [rewrite lookup_insert_eq; discriminate | rewrite lookup_insert_ne by done]
            end).
    by rewrite lookup_empty.
  - rewrite lookup_insert_ne by done.
    destruct (decide (p = "ITR_FILING")) as [->|H2].
    + rewrite lookup_insert_eq. simpl.
      repeat (match goal with
              | |- <[?j := _]> _ !! k <> _ =>
                  destruct (decide (j = k)) as [<-|?];
                  [rewrite lookup_insert_eq; discriminate | rewrite lookup_insert_ne by done]
              end).
      by rewrite lookup_empty.
    + rewrite lookup_insert_ne by done. by rewrite lookup_empty.
Qed.

(* what the built state grants is what the last assignments grant *)
Lemma build_granted cs st p k :
  Forall ordinary cs ->
  k <> "__proto__" ->
  _buildConsentState (Some cs) = Normal st ->
  lookup2 st p k = Some true <->
  last_assigned p k (flat_map assignments cs) = Some true.
Proof.
  intros Hord Hk Hst. destruct cs as [|c cs].
  - change (_buildConsentState (Some [])) with (_buildConsentState None) in Hst.
    rewrite build_default in Hst. injection Hst as <-.
    split; [intros H; by apply lookup2_default_state in H | discriminate].
  - destruct (builds_last (c :: cs) p k) as (st' & Hst' & <-); [done..|].
    rewrite Hst in Hst'. by injection Hst' as ->.
Qed.


Section ConsentPage.
Context {W : Type} (sdk : Sdk W).

Lemma getConsentState_run tok (e : Env W) :
  getConsentState sdk {| page_authToken := Some tok |} e =
    match getUserConsents sdk (session_auth tok) (subjectId (session_auth tok)) e with
    | (e1, Normal cs) =>
        match _buildConsentState (Some cs) with
        | Normal st => (e1, Normal (State200 st None))
        | Throw _ =>
            (e1, Normal (State200 ∅ (Some "Could not fetch latest consent state")))
        end
    | (e1, Throw _) =>
        (e1, Normal (State200 ∅ (Some "Could not fetch latest consent state")))
    end.
Proof.
  unfold getConsentState. cbn [page_authToken]. fold (session_auth tok).
  unfold try_catch at 1 2, bind, ret, lift.
  destruct (getUserConsents sdk _ _ e) as [e1 [cs|err]]; [|reflexivity].
  by destruct (_buildConsentState (Some cs)).
Qed.


Lemma updateConsentToggle_200_inv (req : UpdateRequest) tok (e e1 : Env W) msg p a s :
  session_authToken req = Some tok ->
  updateConsentToggle sdk req e = (e1, Normal (Json200_Updated msg p a s)) ->
  exists r,
    PrivacyService.updateConsent sdk (session_auth tok) (body_purposeId req)
      (body_attributeId req) (consentState_of (body_state req)) e
      = (e1, Normal (Some r)) /\
    status r = "success" /\
    truthy (body_purposeId req) = true /\ truthy (body_attributeId req) = true.
Proof.
  intros Htok. unfold updateConsentToggle. rewrite Htok. unfold try_catch at 1.
  destruct (truthy (body_purposeId req)) eqn:Hp; simpl; [|discriminate].
  destruct (truthy (body_attributeId req)) eqn:Ha; simpl; [|discriminate].
  fold (session_auth tok). unfold try_catch, bind, ret.
  destruct (PrivacyService.updateConsent sdk _ _ _ _ e) as [e' [[r|]|err]]; simpl;
    [|discriminate..].
  destruct (String.eqb (status r) "success") eqn:Hs; [|discriminate].
  intros [= <- _ _ _ _]. exists r. apply String.eqb_eq in Hs. done.
Qed.

(** X6. Over a store that faithfully records what was written: when a
    toggle of a named purpose and of a named attribute other than __proto__
    is switched and POST /consent/update answers 200, and no record that the
    store then returns is filed under a member name of Object.prototype, the
    state that GET /consent/state returns next leaves the toggle as the user
    set it. *)
Theorem toggle_survives_refresh tok tok' (t : Client.Toggle) p a (e e1 : Env W) msg pv av sv :
  faithful sdk ->
  Client.data_purpose t = Some p ->
  Client.data_attribute t = Some a ->
  a <> "__proto__" ->
  updateConsentToggle sdk (Client.update_request (Some tok) t) e
    = (e1, Normal (Json200_Updated msg pv av sv)) ->
  (forall e2 cs,
     getUserConsents sdk (session_auth tok') (subjectId (session_auth tok')) e1
       = (e2, Normal cs) ->
     Forall ordinary cs) ->
  exists e2 st,
    getConsentState sdk {| page_authToken := Some tok' |} e1
      = (e2, Normal (State200 st None)) /\
    Client.applyStateToToggles (Some st) [t] = [t].
Proof.
  intros Hfaith Hp Ha Hproto Hupd Hord.
  destruct t as [tp ta ck]. cbn [Client.data_purpose Client.data_attribute] in Hp, Ha.
  subst tp ta.
  destruct (updateConsentToggle_200_inv
              (Client.update_request (Some tok)
                 {| Client.data_purpose := Some p; Client.data_attribute := Some a;
                    Client.checked := ck |})
              tok _ _ _ _ _ _ eq_refl Hupd)
    as (r & Hstore & Hok & _ & Hta).
  cbn [Client.update_request body_purposeId body_attributeId body_state
       Client.data_purpose Client.data_attribute Client.checked of_prop]
    in Hstore, Hta.
  assert (a <> "") as Hne by (intros ->; discriminate Hta).
  destruct (updateConsent_returns sdk _ _ _ _ _ _ _ Hstore) as (w & Hsdk).
  set (v := {| v_purposeId := JStr p; v_attributeId := JStr a;
               v_accessTypeId := "default";
               v_state := default_param (consentState_of (JNum (if ck then 1 else 2)))
                            (JNum 1) |}) in *.
  destruct (Hfaith _ v w (ext e1) r p a eq_refl eq_refl Hsdk Hok
              (_getPrivacyClient (session_auth tok') (subjectId (session_auth tok'))))
    as (w2 & cs & Hfetch & Hw & Hnd & Hin).
  pose proof (getUserConsents_returns sdk _ _ _ _ _ Hfetch) as Hget.
  destruct (build_as_written cs p a _ Hw Hnd Hin Hne Hproto (Hord _ _ Hget))
    as (st & Hst & Hlook).
  eexists _, st. split.
  - rewrite getConsentState_run, Hget, Hst. reflexivity.
  - unfold Client.applyStateToToggles.
    cbn [List.map Client.data_purpose Client.data_attribute Client.checked of_prop to_key].
    rewrite Hlook. by destruct ck.
Qed.
End ConsentPage.

Lemma toggle_survives_refresh_witness :
  exists e2 st,
    getConsentState Backend.sdk {| page_authToken := Some demo_token |}
      (fst (updateConsentToggle Backend.sdk (Client.update_request (Some demo_token) pan_toggle)
              (Backend.start Backend.empty_world)))
      = (e2, Normal (State200 st None)) /\
    Client.applyStateToToggles (Some st) [pan_toggle] = [pan_toggle].
Proof.
  apply (toggle_survives_refresh Backend.sdk demo_token demo_token pan_toggle
           "ITR_FILING" "pan_id" (Backend.start Backend.empty_world) _
           "Consent updated for pan_id" (JStr "ITR_FILING") (JStr "pan_id") (JNum 1)).
  - exact backend_faithful.
  - reflexivity.
  - reflexivity.
  - discriminate.
  - vm_compute. reflexivity.
  - intros e2 cs H. vm_compute in H. injection H as _ <-. repeat constructor.
Defined.

(* a record filed under constructor makes the builder throw: the page falls
   back to the empty state, and every toggle is shown unchecked *)
Example consent_state_when_builder_throws :
  getConsentState Backend.canned {| page_authToken := Some demo_token |}
    (Backend.holding [grant_name; top "constructor" "name" None (JNum 1)])
  = ({| ext := [grant_name; top "constructor" "name" None (JNum 1)];
        calls := [GetUserConsents (user_client demo_token)] |},
     Normal (State200 ∅ (Some "Could not fetch latest consent state"))).
Proof. vm_compute. reflexivity. Qed.

(* ---------------- updateConsent and createConsents ---------------- *)

Section UpdateProofs.
Context {W : Type} (sdk : Sdk W).

(** X7. When the metadata of the tenant defines the purpose and the
    attribute is not one of its attributes, updateConsent throws the error
    of code ATTRIBUTE_NOT_IN_PURPOSE after the metadata query alone: nothing
    is stored. *)
Theorem updateConsent_rejects_foreign_attribute auth purposeId attributeId st
    (e : Env W) w1 metaResp def :
  sdk_getConsentMetadata sdk (update_client auth) [purposeId] (ext e)
    = (w1, Normal metaResp) ->
  purpose_def metaResp purposeId = Some def ->
  Forall (fun i => strict_eq i attributeId = false) (default [] (def_attributes def)) ->
  exists msg,
    updateConsent sdk auth purposeId attributeId st e
    = ({| ext := w1;
          calls := calls e ++ [GetConsentMetadata (update_client auth) [purposeId]] |},
       Throw {| err_code := Some ATTRIBUTE_NOT_IN_PURPOSE; err_message := msg |}).
Proof.
  intros Hmeta Hdef Hnot. unfold updateConsent. run_async. cbv zeta.
  fold (update_client auth). rewrite Hmeta. simpl.
  unfold purpose_def in Hdef.
  destruct metaResp as [r|]; [|discriminate]. simpl.
  destruct (purposes r) as [ps|]; [|discriminate]. simpl. simpl in Hdef. rewrite Hdef.
  cbv beta iota.
  assert ((indexOf strict_eq (default [] (def_attributes def)) attributeId =? -1)%Z = true)
    as -> by (apply Z.eqb_eq, indexOf_from_absent_by; [lia | done]).
  simpl. eexists. reflexivity.
Qed.

(* updateConsent when the metadata query gives no reason to stop *)
Lemma updateConsent_run_silent auth purposeId attributeId st (e : Env W) w1 :
  metadata_silent sdk auth purposeId (ext e) w1 ->
  updateConsent sdk auth purposeId attributeId st e =
    (let (w2, r) := sdk_storeConsents sdk (update_client auth)
                      [update_value purposeId attributeId st] w1 in
     ({| ext := w2; calls := calls e ++ update_calls auth purposeId attributeId st |}, r)).
Proof. intros H. apply updateConsent_run_allowed. by left. Qed.

(** X8. A metadata query that throws (an error of another code), or whose
    answer holds nothing under the purpose (no purposes, or a purposes object
    that neither defines the purpose nor inherits a member under its key, as
    it does under constructor), does not stop updateConsent: the consent is
    handed to storeConsents all the same and updateConsent ends as that call
    does. *)
Theorem updateConsent_survives_metadata_failure auth purposeId attributeId st
    (e : Env W) w1 :
  metadata_silent sdk auth purposeId (ext e) w1 ->
  updateConsent sdk auth purposeId attributeId st e =
    ({| ext := fst (sdk_storeConsents sdk (update_client auth)
                      [update_value purposeId attributeId st] w1);
        calls := calls e ++ update_calls auth purposeId attributeId st |},
     snd (sdk_storeConsents sdk (update_client auth)
            [update_value purposeId attributeId st] w1)).
Proof.
  intros H. rewrite (updateConsent_run_silent _ _ _ _ _ _ H).
  by destruct (sdk_storeConsents sdk _ _ w1).
Qed.

(* a normal return of updateConsent has made the metadata query and one store *)
Lemma updateConsent_normal_calls auth purposeId attributeId st (e e1 : Env W) res :
  updateConsent sdk auth purposeId attributeId st e = (e1, Normal res) ->
  calls e1 = calls e ++ update_calls auth purposeId attributeId st.
Proof.
  destruct (updateConsent_cases sdk auth purposeId attributeId st e)
    as [(w1 & err & ->)|(w1 & ->)]; [discriminate|].
  destruct (sdk_storeConsents sdk _ _ w1) as [w2 r]. by intros [= <- _].
Qed.

Lemma createConsents_loop_app auth l1 l2 acc (e : Env W) :
  createConsents_loop sdk auth (l1 ++ l2) acc e =
    match createConsents_loop sdk auth l1 acc e with
    | (e1, Normal rs) => createConsents_loop sdk auth l2 rs e1
    | (e1, Throw x) => (e1, Throw x)
    end.
Proof.
  revert acc e. induction l1 as [|c l1 IH]; intros acc e; [reflexivity|].
  simpl. unfold bind.
  destruct (updateConsent sdk auth _ _ _ e) as [e' [r|x]]; [apply IH | reflexivity].
Qed.

Lemma createConsents_unfold auth cs (e : Env W) :
  createConsents sdk auth cs e = createConsents_loop sdk auth cs [] e.
Proof.
  unfold createConsents, try_catch, throw.
  by destruct (createConsents_loop sdk auth cs [] e) as [e1 [rs|x]].
Qed.

(** X9. createConsents stops at the first consent whose updateConsent
    throws: the error is thrown on, in the environment that call left, and
    the consents after it are not attempted. *)
Theorem createConsents_stops_at_first_failure auth l1 c l2 (e e1 e2 : Env W) rs x :
  createConsents sdk auth l1 e = (e1, Normal rs) ->
  updateConsent sdk auth (in_purposeId c) (in_attributeId c) (in_state c) e1
    = (e2, Throw x) ->
  createConsents sdk auth (l1 ++ c :: l2) e = (e2, Throw x).
Proof.
  rewrite !createConsents_unfold. intros H1 Hc.
  rewrite createConsents_loop_app, H1. simpl. unfold bind. by rewrite Hc.
Qed.

Lemma createConsents_loop_normal auth cs acc (e e1 : Env W) rs :
  createConsents_loop sdk auth cs acc e = (e1, Normal rs) ->
  exists new,
    rs = acc ++ new /\ List.length new = List.length cs /\
    calls e1 = calls e ++
      flat_map (fun c => update_calls auth (in_purposeId c) (in_attributeId c)
                           (in_state c)) cs.
Proof.
  revert acc e. induction cs as [|c cs IH]; intros acc e; simpl.
  - intros [= <- <-]. exists []. by rewrite !app_nil_r.
  - unfold bind.
    destruct (updateConsent sdk auth _ _ _ e) as [e' [r|x]] eqn:Hc; [|discriminate].
    intros H. destruct (IH _ _ H) as (new & -> & Hlen & Hcalls).
    exists (r :: new). split; [by rewrite <- app_assoc|]. split; [simpl; lia|].
    rewrite Hcalls, (updateConsent_normal_calls _ _ _ _ _ _ _ Hc).
    by rewrite <- app_assoc.
Qed.

(** X10. When createConsents returns, it returns one result per consent and
    has made, for each consent in the order given, one metadata query and
    one storeConsents call of that consent's value, and no other SDK call. *)
Theorem createConsents_one_store_per_consent auth cs (e e1 : Env W) rs :
  createConsents sdk auth cs e = (e1, Normal rs) ->
  List.length rs = List.length cs /\
  calls e1 = calls e ++
    flat_map (fun c => update_calls auth (in_purposeId c) (in_attributeId c) (in_state c))
             cs.
Proof.
  rewrite createConsents_unfold. intros H.
  destruct (createConsents_loop_normal _ _ _ _ _ _ H) as (new & -> & Hlen & Hcalls).
  by split.
Qed.
End UpdateProofs.

Lemma updateConsent_rejects_foreign_attribute_witness :
  exists msg,
    updateConsent Backend.sdk demo_auth (JStr "MARKETING_COMMUNICATIONS")
      (JStr "pan_id") (JNum 1) (Backend.start Backend.empty_world)
    = ({| ext := Backend.empty_world;
          calls := [] ++ [GetConsentMetadata (update_client demo_auth)
                            [JStr "MARKETING_COMMUNICATIONS"]] |},
       Throw {| err_code := Some ATTRIBUTE_NOT_IN_PURPOSE; err_message := msg |}).
Proof.
  apply (updateConsent_rejects_foreign_attribute Backend.sdk demo_auth
           (JStr "MARKETING_COMMUNICATIONS") (JStr "pan_id") (JNum 1)
           (Backend.start Backend.empty_world) Backend.empty_world
           (Some {| purposes := Some Backend.purpose_defs |})
           {| def_attributes := Some [JStr "name"; JStr "email"; JStr "mobile_number"] |}).
  - reflexivity.
  - vm_compute. exact eq_refl.
  - repeat constructor.
Defined.

Lemma updateConsent_survives_metadata_failure_witness :
  updateConsent Backend.sdk demo_auth (JStr "ITR_FILING") (JStr "pan_id") (JNum 1)
    (Backend.start Backend.offline_world)
  = ({| ext := Backend.offline_world;
        calls := [] ++ update_calls demo_auth (JStr "ITR_FILING") (JStr "pan_id") (JNum 1) |},
     Throw Backend.unreachable_error).
Proof.
  apply (updateConsent_survives_metadata_failure Backend.sdk demo_auth
           (JStr "ITR_FILING") (JStr "pan_id") (JNum 1)
           (Backend.start Backend.offline_world) Backend.offline_world).
  left. exists Backend.unreachable_error. split; [reflexivity | discriminate].
Defined.

Lemma createConsents_stops_at_first_failure_witness :
  exists e2 x,
    createConsents Backend.sdk demo_auth ([marketing_email] ++ marketing_pan :: [itr_pan])
      (Backend.start Backend.empty_world) = (e2, Throw x) /\
    List.length (calls e2) = 3.
Proof.
  eexists _, _. split.
  - eapply (createConsents_stops_at_first_failure Backend.sdk demo_auth
             [marketing_email] marketing_pan [itr_pan]
             (Backend.start Backend.empty_world)).
    + vm_compute. reflexivity.
    + vm_compute. reflexivity.
  - reflexivity.
Defined.

Lemma createConsents_one_store_per_consent_witness :
  exists e1 rs,
    createConsents Backend.sdk demo_auth [marketing_email; itr_pan]
      (Backend.start Backend.empty_world) = (e1, Normal rs) /\
    List.length rs = 2 /\
    calls e1 =
      [ GetConsentMetadata (update_client demo_auth) [JStr "MARKETING_COMMUNICATIONS"];
        StoreConsents (update_client demo_auth)
          [update_value (JStr "MARKETING_COMMUNICATIONS") (JStr "email") (JNum 2)];
        GetConsentMetadata (update_client demo_auth) [JStr "ITR_FILING"];
        StoreConsents (update_client demo_auth)
          [update_value (JStr "ITR_FILING") (JStr "pan_id") JUndefined] ].
Proof.
  eexists _, _. split; [vm_compute; reflexivity|].
  eapply (createConsents_one_store_per_consent Backend.sdk demo_auth
            [marketing_email; itr_pan] (Backend.start Backend.empty_world)).
  vm_compute. reflexivity.
Defined.

(* ---------------- POST /consent/update ---------------- *)

Section ToggleUpdate.
Context {W : Type} (sdk : Sdk W).

(** X11. POST /consent/update of a logged-in user with a missing (falsy)
    purposeId or attributeId is answered 400 "Missing required fields"
    without any SDK call. *)
Theorem toggle_update_missing_fields (req : UpdateRequest) tok (e : Env W) :
  session_authToken req = Some tok ->
  truthy (body_purposeId req) && truthy (body_attributeId req) = false ->
  updateConsentToggle sdk req e = (e, Normal Json400_MissingFields).
Proof.
  intros Htok Hf. unfold updateConsentToggle. rewrite Htok.
  rewrite <- negb_andb, Hf. reflexivity.
Qed.

(** X12. For a purposeId and an attributeId that are primitive values
    (strings, numbers, booleans, null or missing; an object can make the
    handler's log line throw), updateConsentToggle never throws and never
    gives the generic 500 "Server error" answer: an error thrown by
    updateConsent is answered 500 "Failed to update consent" with the error's
    message, and the answer is 200 only when storeConsents returned status
    "success" for the state 1 or 2 that the request's state was turned
    into. *)
Theorem toggle_update_answers (req : UpdateRequest) (e : Env W) :
  body_purposeId req <> JObject ->
  body_attributeId req <> JObject ->
  exists e1 r,
    updateConsentToggle sdk req e = (e1, Normal r) /\
    r <> Json500_ServerError /\
    (forall tok err e',
       session_authToken req = Some tok ->
       truthy (body_purposeId req) && truthy (body_attributeId req) = true ->
       PrivacyService.updateConsent sdk (session_auth tok) (body_purposeId req)
         (body_attributeId req) (consentState_of (body_state req)) e = (e', Throw err) ->
       e1 = e' /\ r = Json500_UpdateFailed (err_message err)) /\
    (forall msg p a s,
       r = Json200_Updated msg p a s ->
       exists tok res,
         session_authToken req = Some tok /\
         PrivacyService.updateConsent sdk (session_auth tok) p a s e
           = (e1, Normal (Some res)) /\
         status res = "success" /\
         p = body_purposeId req /\ a = body_attributeId req /\
         s = consentState_of (body_state req) /\ (s = JNum 1 \/ s = JNum 2)).
Proof.
  intros _ _. unfold updateConsentToggle.
  destruct (session_authToken req) as [tok|].
  - unfold try_catch at 1.
    destruct (truthy (body_purposeId req)) eqn:Hp; simpl;
      [|do 2 eexists; split; [reflexivity|]; split; [discriminate|];
        split; [discriminate | intros ? ? ? ? [=]]].
    destruct (truthy (body_attributeId req)) eqn:Ha; simpl;
      [|do 2 eexists; split; [reflexivity|]; split; [discriminate|];
        split; [discriminate | intros ? ? ? ? [=]]].
    fold (session_auth tok). unfold try_catch, bind, ret.
    destruct (PrivacyService.updateConsent sdk _ _ _ _ e) as [e' [[res|]|err]] eqn:Hu;
      simpl.
    + destruct (String.eqb (status res) "success") eqn:Hs.
      * do 2 eexists. split; [reflexivity|]. split; [discriminate|].
        split; [intros ? ? ? [= <-] _ Hu'; rewrite Hu in Hu'; discriminate Hu'|].
        intros msg p a s [= _ <- <- <-]. exists tok, res.
        apply String.eqb_eq in Hs. repeat split; try done.
        unfold consentState_of. destruct (_ || _); [by left | by right].
      * do 2 eexists. split; [reflexivity|]. split; [discriminate|].
        split; [intros ? ? ? [= <-] _ Hu'; rewrite Hu in Hu'; discriminate Hu' | intros ? ? ? ? [=]].
    + do 2 eexists. split; [reflexivity|]. split; [discriminate|].
      split; [intros ? ? ? [= <-] _ Hu'; rewrite Hu in Hu'; discriminate Hu' | intros ? ? ? ? [=]].
    + do 2 eexists. split; [reflexivity|]. split; [discriminate|].
      split; [|intros ? ? ? ? [=]].
      intros tok' err' e'' [= <-] _. rewrite Hu. by intros [= <- <-].
  - do 2 eexists. split; [reflexivity|]. split; [discriminate|].
    split; [discriminate | intros ? ? ? ? [=]].
Qed.
End ToggleUpdate.

Lemma toggle_update_answers_witness :
  exists e1 r,
    updateConsentToggle Backend.sdk
      {| session_authToken := Some demo_token; body_purposeId := JStr "ITR_FILING";
         body_attributeId := JStr "pan_id"; body_state := JBool true |}
      (Backend.start Backend.offline_world) = (e1, Normal r) /\
    r = Json500_UpdateFailed "connect ECONNREFUSED".
Proof.
  destruct (toggle_update_answers Backend.sdk
              {| session_authToken := Some demo_token; body_purposeId := JStr "ITR_FILING";
                 body_attributeId := JStr "pan_id"; body_state := JBool true |}
              (Backend.start Backend.offline_world))
    as (e1 & r & Hrun & _ & Hthrow & _); [discriminate | discriminate |].
  exists e1, r. split; [exact Hrun|].
  cbn [session_authToken body_purposeId body_attributeId body_state] in Hthrow.
  exact (proj2 (Hthrow demo_token Backend.unreachable_error _ eq_refl eq_refl eq_refl)).
Defined.

Lemma toggle_update_missing_fields_witness :
  updateConsentToggle Backend.sdk
    {| session_authToken := Some demo_token; body_purposeId := JStr "";
       body_attributeId := JStr "pan_id"; body_state := JBool true |}
    (Backend.start Backend.empty_world)
  = (Backend.start Backend.empty_world, Normal Json400_MissingFields).
Proof.
  apply (toggle_update_missing_fields Backend.sdk _ demo_token); reflexivity.
Defined.

(* ---------------- the range of findLogicalId ---------------- *)

Lemma or_prop_cases a b :
  or_prop a b = b \/ (exists s, a = Some s /\ or_prop a b = Some s).
Proof.
  unfold or_prop. destruct (truthy_str a) eqn:E; [|by left].
  destruct a as [s|]; [right; by exists s | discriminate].
Qed.

Lemma metaIds_logical p m :
  getConsentMetadata p = Some m ->
  incl (metaIds_of (Some m)) logical_attributes.
Proof.
  intros H. destruct (metadata_cases _ _ H) as [[_ ->]|[_ ->]];
    intros x Hx; simpl in Hx; unfold logical_attributes; simpl; intuition.
Qed.

Lemma find_or_logical p m f fallback :
  getConsentMetadata p = Some m ->
  In fallback logical_attributes ->
  exists r, find_or f (metaIds_of (Some m)) fallback = Some r /\ In r logical_attributes.
Proof.
  intros Hm Hfb. unfold find_or.
  destruct (or_prop_cases (List.find f (metaIds_of (Some m))) (Some fallback))
    as [->|(s & Hs & ->)]; [by exists fallback|].
  exists s. split; [done|]. apply find_some in Hs as [Hs _].
  by apply (metaIds_logical _ _ Hm).
Qed.

(** X13. For a purpose with metadata, findLogicalId returns the record's
    attributeId unchanged or one of the five logical attributes name, email,
    mobile_number, aadhar_id, pan_id: the label rules never produce another
    identifier. *)
Theorem findLogicalId_range p m attrId attrName :
  getConsentMetadata p = Some m ->
  PrivacyService.findLogicalId (Some m) attrId attrName = attrId \/
  exists r, PrivacyService.findLogicalId (Some m) attrId attrName = Some r /\
            In r logical_attributes.
Proof.
  intros Hm. pose proof (metaIds_logical _ _ Hm) as Hincl.
  unfold PrivacyService.findLogicalId. cbv zeta.
  destruct (truthy_str attrId && _); [by left|].
  destruct (truthy_str attrName); [|by left].
  match goal with
  | |- context [List.find ?f (attributes m)] =>
      destruct (List.find f (attributes m)) as [a|] eqn:E1
  end.
  { right. exists (id a). split; [done|]. apply find_some in E1 as [Hin _].
    apply Hincl. simpl. by apply in_map. }
  clear E1.
  match goal with
  | |- context [List.find ?f (attributes m)] =>
      destruct (List.find f (attributes m)) as [a|] eqn:E2
  end.
  { right. exists (id a). split; [done|]. apply find_some in E2 as [Hin _].
    apply Hincl. simpl. by apply in_map. }
  clear E2.
  assert (forall x, In x ["name"; "email"; "mobile_number"; "aadhar_id"; "pan_id"] ->
                    In x logical_attributes) as Hl by (intros x Hx; exact Hx).
  repeat match goal with
         | |- context [if ?c then _ else _] => destruct c
         end; try (by left);
    try (right; apply (find_or_logical _ _ _ _ Hm); apply Hl; simpl; tauto).
  right.
  destruct (or_prop_cases
              (or_prop (List.find (fun i => String.eqb i "name") (metaIds_of (Some m)))
                       (List.find (fun i => includes i "name") (metaIds_of (Some m))))
              (Some "name")) as [->|(s & Hs & ->)].
  - exists "name". split; [done|]. apply Hl. simpl. tauto.
  - exists s. split; [done|]. apply Hincl.
    destruct (or_prop_cases
                (List.find (fun i => String.eqb i "name") (metaIds_of (Some m)))
                (List.find (fun i => includes i "name") (metaIds_of (Some m))))
      as [Hb|(s' & Hs' & Hb)]; rewrite Hb in Hs.
    + by apply find_some in Hs as [Hs _].
    + injection Hs as <-. by apply find_some in Hs' as [Hs' _].
Qed.

Lemma findLogicalId_range_witness :
  PrivacyService.findLogicalId (Some MARKETING_COMMUNICATIONS_meta) (Some "42")
    (Some "Company") = Some "42" \/
  exists r, PrivacyService.findLogicalId (Some MARKETING_COMMUNICATIONS_meta) (Some "42")
              (Some "Company") = Some r /\
            In r logical_attributes.
Proof.
  apply (findLogicalId_range "MARKETING_COMMUNICATIONS"). vm_compute. exact eq_refl.
Defined.

(* ---------------- the consent page and the gate ---------------- *)

Lemma last_assigned_in p k ws b : last_assigned p k ws = Some b -> In (p, k, b) ws.
Proof.
  unfold last_assigned.
  destruct (List.find _ (rev ws)) as [[[p' k'] b']|] eqn:E; [|discriminate].
  apply find_some in E as [Hin Heq]. apply bool_decide_eq_true in Heq. simpl in Heq.
  intros [= <-]. inversion Heq; subst. by apply in_rev.
Qed.

Lemma metaIds_defined p m r :
  getConsentMetadata p = Some m -> In r (metaIds_of (Some m)) ->
  p <> "undefined" /\ r <> "undefined".
Proof.
  intros Hm Hr. split.
  - intros ->. vm_compute in Hm. discriminate Hm.
  - intros ->. destruct (metadata_cases _ _ Hm) as [[_ ->]|[_ ->]];
      simpl in Hr; intuition discriminate.
Qed.

Lemma to_key_of_prop o r : r <> "undefined" -> to_key (of_prop o) = r -> o = Some r.
Proof. destruct o as [s|]; simpl; [congruence | intros H E; by destruct H]. Qed.

(* a granting assignment to a known attribute comes from a record that the
   gate resolves to that attribute and that carries state 1 *)
Lemma granting_assignment p m r c :
  getConsentMetadata p = Some m ->
  In r (metaIds_of (Some m)) ->
  array_shaped c ->
  In (p, r, true) (assignments c) ->
  c_purposeId c = Some p /\
  Exists (fun ca =>
            PrivacyService.findLogicalId (getConsentMetadata p)
              (ca_attributeId ca) (ca_attributeName ca) = Some r /\
            ca_state ca = JNum 1)
         (flatten_entry c).
Proof.
  intros Hm Hr Hshape Hin.
  destruct (metaIds_defined _ _ _ Hm Hr) as [Hp Hru].
  assert (forall x, In (p, r, true) x ->
            Forall (fun w => fst (fst w) = to_key (of_prop (c_purposeId c))) x ->
            c_purposeId c = Some p) as Hpurpose.
  { intros x Hx HF. rewrite List.Forall_forall in HF. specialize (HF _ Hx). simpl in HF.
    symmetry in HF. by apply to_key_of_prop in HF. }
  unfold assignments in Hin. cbv zeta in Hin. unfold flatten_entry.
  destruct (truthy_str (c_attributeId c)) eqn:Ha.
  - assert (c_purposeId c = Some p) as Hcp
        by (apply (Hpurpose _ Hin); by repeat constructor).
    split; [done|]. destruct Hin as [Hin|[]]. injection Hin as _ Hk Hs.
    apply List.Exists_cons_hd. simpl. rewrite Hcp in Hk.
    rewrite (controller_findLogicalId_meta _ _ _ _ Hm) in Hk.
    apply to_key_of_prop in Hk; [|done]. rewrite Hm.
    split; [done | by apply strict_eq_granted].
  - assert (c_purposeId c = Some p) as Hcp.
    { apply (Hpurpose _ Hin). apply List.Forall_forall. intros w Hw.
      apply in_map_iff in Hw as (attr & <- & _). reflexivity. }
    split; [done|].
    apply in_map_iff in Hin as (attr & Heq & Hattr). injection Heq as _ Hk Hs.
    unfold array_shaped in Hshape.
    destruct (c_attributes c) as [|items|values]; simpl in Hattr; [done| |done].
    assert ((0 <? Z.of_nat (List.length items))%Z = true) as ->
      by (destruct items; [done | reflexivity]).
    apply List.Exists_exists. eexists. split; [apply in_map; exact Hattr|]. simpl.
    rewrite Hcp in Hk. rewrite (controller_findLogicalId_meta _ _ _ _ Hm) in Hk.
    apply to_key_of_prop in Hk; [|done]. rewrite Hm.
    split; [done | by apply strict_eq_granted].
Qed.

Lemma checked_is_granted p m r cs st :
  getConsentMetadata p = Some m ->
  In r (metaIds_of (Some m)) ->
  Forall array_shaped cs ->
  Forall ordinary cs ->
  _buildConsentState (Some cs) = Normal st ->
  lookup2 st p r = Some true ->
  Granted p cs r.
Proof.
  intros Hm Hr Hshape Hord Hst Hl.
  assert (r <> "__proto__") as Hproto
    by (apply (known_id_own p r); by rewrite Hm).
  assert (last_assigned p r (flat_map assignments cs) = Some true) as Hlast
    by (by apply (build_granted cs st)).
  apply last_assigned_in in Hlast. apply in_flat_map in Hlast as (c & Hc & Hin).
  rewrite List.Forall_forall in Hshape.
  destruct (granting_assignment _ _ _ _ Hm Hr (Hshape _ Hc) Hin) as [Hcp Hex].
  unfold Granted. apply List.Exists_exists. by exists c.
Qed.

Lemma hasAllRequired_lookup2 st p req :
  req <> [] ->
  _hasAllRequired st p req = Normal true ->
  Forall (fun r => lookup2 st p r = Some true) req.
Proof.
  intros Hne. unfold _hasAllRequired, lookup2. destruct (st !! p) as [o|].
  - intros [= H]. rewrite forallb_forall in H. apply List.Forall_forall.
    intros r Hr. specialize (H r Hr). by apply bool_decide_eq_true in H.
  - destruct req as [|r req]; [done|]. by destruct (_ && _).
Qed.

Section PageAndGate.
Context {W : Type} (sdk : Sdk W).

(** X14. What the consent page shows as granted, the gate grants: when
    _buildConsentState returns a state for the fetched consents and
    _hasAllRequired returns true of it, for a purpose with metadata and a
    non-empty list of its attributes, hasRequiredConsents returns true and
    getMissingRequiredConsents returns the empty list on the same consents.
    Excepted are entries whose attributes property is an object (only the
    page reads those) and entries filed under a member name of
    Object.prototype (through which the page's builder writes to built-in
    objects). *)
Theorem page_granted_implies_gate auth p m req (e e' : Env W) cs st :
  getConsentMetadata p = Some m ->
  req <> [] ->
  incl req (metaIds_of (Some m)) ->
  Forall array_shaped cs ->
  Forall ordinary cs ->
  fetched sdk auth e cs e' ->
  _buildConsentState (Some cs) = Normal st ->
  _hasAllRequired st p req = Normal true ->
  hasRequiredConsents sdk auth p (Some req) e = (e', Normal true) /\
  getMissingRequiredConsents sdk auth p (Some req) e = (e', Normal []).
Proof.
  intros Hm Hne Hincl Hshape Hord Hf Hst Hall.
  apply hasAllRequired_lookup2 in Hall; [|done].
  assert (Forall (Granted p cs) req) as HG.
  { rewrite List.Forall_forall in Hall. apply List.Forall_forall. intros r Hr.
    apply (checked_is_granted p m r cs st); try done; [by apply Hincl | by apply Hall]. }
  destruct (gate_on_fetched sdk auth p req e cs e' Hf)
    as (b & missing & Hb & Hmiss & Hiff & ->).
  split.
  - rewrite Hb. f_equal. f_equal. apply Hiff. split; [|done].
    destruct req as [|r req]; [done|]. inversion HG; subst.
    by eapply Granted_has_entry.
  - rewrite Hmiss. f_equal. f_equal. by apply missing_subset_nil.
Qed.
End PageAndGate.

Lemma page_granted_implies_gate_witness :
  hasRequiredConsents Backend.canned demo_auth "ITR_FILING" (Some itr_required)
    (Backend.holding all_granted) = (after_fetch demo_auth all_granted, Normal true) /\
  getMissingRequiredConsents Backend.canned demo_auth "ITR_FILING" (Some itr_required)
    (Backend.holding all_granted) = (after_fetch demo_auth all_granted, Normal []).
Proof.
  eapply (page_granted_implies_gate Backend.canned demo_auth "ITR_FILING"
            ITR_FILING_meta itr_required (Backend.holding all_granted)
            (after_fetch demo_auth all_granted) all_granted).
  - vm_compute. exact eq_refl.
  - discriminate.
  - intros r Hr. exact Hr.
  - repeat constructor.
  - repeat constructor.
  - reflexivity.
  - vm_compute. exact eq_refl.
  - vm_compute. exact eq_refl.
Defined.

(* ---------------- formatConsentState ---------------- *)

Lemma pretty_Z_one n : pretty n = "1" -> n = 1%Z.
Proof. intros H. apply (inj pretty). exact H. Qed.

Lemma stateMap_granted k : stateMap !! k = Some "Granted" <-> k = "1".
Proof.
  unfold stateMap. split.
  - intros H.
    repeat (rewrite lookup_insert in H; case_decide; [first [by subst | discriminate H]|]).
    by rewrite lookup_empty in H.
  - intros ->. by rewrite lookup_insert_eq.
Qed.

(** X15. For a state that is a primitive value (a number, a string, a
    boolean, null or undefined; an array such as [1] is looked up under the
    key of its contents), formatConsentState names the state "Granted"
    exactly when it is the number 1 or the string "1".  Every state that the
    gate counts as granted (state === 1) is therefore displayed as Granted,
    and the string "1" is displayed as Granted although the gate does not
    count it. *)
Theorem formatConsentState_granted v :
  v <> JObject ->
  formatConsentState v = JStr "Granted" <-> v = JNum 1 \/ v = JStr "1".
Proof.
  intros Hobj. unfold formatConsentState. split.
  - destruct (stateMap !! to_key v) as [s|] eqn:E.
    + intros H. destruct s as [|c s]; [discriminate H|].
      change (JStr (String c s) = JStr "Granted") in H.
      assert (String c s = "Granted") as H' by congruence.
      rewrite H' in E. apply stateMap_granted in E. clear H H'.
      destruct v as [| |[]|n|k|]; simpl in E; try discriminate E.
      * left. f_equal. by apply pretty_Z_one.
      * right. by subst.
    + by destruct (inherited (to_key v)).
  - intros [->| ->]; vm_compute; exact eq_refl.
Qed.

Lemma formatConsentState_granted_witness :
  formatConsentState (JStr "1") = JStr "Granted".
Proof.
  apply (formatConsentState_granted (JStr "1")); [discriminate | by right].
Defined.

(* a state that names a member of Object.prototype is displayed as that
   member, not as Unknown *)
Example formatConsentState_inherited :
  formatConsentState (JStr "constructor") = JObject /\
  formatConsentState (JStr "9") = JStr "Unknown".
Proof. split; vm_compute; exact eq_refl. Qed.

(* ---------------- registration, step 1 ---------------- *)

Lemma test_pattern_one k rest s :
  test_pattern (One k :: rest) s = true <->
  exists c r, s = String c r /\ in_set k c = true /\ test_pattern rest r = true.
Proof.
  destruct s as [|c r]; simpl.
  - split; [discriminate | by intros (? & ? & ? & _)].
  - rewrite andb_true_iff. split.
    + intros [? ?]. by exists c, r.
    + by intros (? & ? & [= <- <-] & ? & ?).
Qed.

Lemma test_pattern_more_cons k rest c r :
  test_pattern (OneOrMore k :: rest) (String c r)
  = in_set k c && (test_pattern (OneOrMore k :: rest) r || test_pattern rest r).
Proof. reflexivity. Qed.

Lemma test_pattern_more k rest s :
  test_pattern (OneOrMore k :: rest) s = true <->
  exists a r, s = (a ++ r)%string /\ a <> "" /\ all_chars (in_set k) a = true /\
              test_pattern rest r = true.
Proof.
  induction s as [|c s IH].
  - split; [discriminate|]. intros ([|? ?] & r & Hs & Ha & _); [done | discriminate Hs].
  - rewrite test_pattern_more_cons, andb_true_iff, orb_true_iff, IH. split.
    + intros [Hc [(a & r & -> & _ & Hall & Hr)|Hr]].
      * exists (String c a), r. simpl. by rewrite Hc, Hall.
      * exists (String c ""), s. simpl. by rewrite Hc.
    + intros ([|c' a] & r & Hs & Ha & Hall & Hr); [done|].
      rewrite append_cons in Hs. injection Hs as <- ->.
      simpl in Hall. apply andb_true_iff in Hall as [Hc Hall]. split; [done|].
      destruct a as [|c'' a]; [by right|]. left. by exists (String c'' a), r.
Qed.

Lemma emailRegex_spec s : test_pattern emailRegex s = true <-> email_shape s.
Proof.
  unfold emailRegex, email_shape, email_part. rewrite test_pattern_more. split.
  - intros (a & r1 & -> & Ha & Halla & H1).
    apply test_pattern_one in H1 as (c1 & r2 & -> & Hc1 & H2).
    apply test_pattern_more in H2 as (b & r3 & -> & Hb & Hallb & H3).
    apply test_pattern_one in H3 as (c2 & r4 & -> & Hc2 & H4).
    apply test_pattern_more in H4 as (c & r5 & -> & Hc & Hallc & H5).
    simpl in H5. apply String.eqb_eq in H5 as ->.
    simpl in Hc1, Hc2. apply Ascii.eqb_eq in Hc1 as ->. apply Ascii.eqb_eq in Hc2 as ->.
    exists a, b, c. by rewrite append_empty_r.
  - intros (a & b & c & -> & [Ha Halla] & [Hb Hallb] & [Hc Hallc]).
    exists a, ("@" ++ b ++ "." ++ c)%string. repeat split; try done.
    apply test_pattern_one. exists "@"%char, (b ++ "." ++ c)%string.
    repeat split; try done.
    apply test_pattern_more. exists b, ("." ++ c)%string. repeat split; try done.
    apply test_pattern_one. exists "."%char, c. repeat split; try done.
    apply test_pattern_more. exists c, "". rewrite append_empty_r. by repeat split.
Qed.

Lemma email_shape_nonempty s : email_shape s -> s <> "".
Proof.
  intros (a & b & c & Hs & [Ha _] & _) ->.
  destruct a; [done|]. rewrite append_cons in Hs. discriminate Hs.
Qed.

Lemma validateEmail_spec (email : jsval) :
  form_field email ->
  truthy (_validateEmail email) = true <-> exists s, email = JStr s /\ email_shape s.
Proof.
  unfold _validateEmail. intros [[s ->]|Hf].
  - destruct s as [|c s].
    + split; [discriminate|]. intros (s' & [= <-] & H).
      by apply email_shape_nonempty in H.
    + change (truthy (JStr (String c s))) with true. cbn [truthy to_key].
      rewrite emailRegex_spec. split; [by eexists|]. by intros (s' & [= <-] & H).
  - rewrite Hf. split; [congruence|]. intros (s & -> & H).
    apply email_shape_nonempty in H. destruct s; [done | discriminate Hf].
Qed.

(** X16. The e-mail rule.  For a form field (a string, or a missing or
    otherwise falsy value) _validateEmail accepts the value exactly when it
    is a string a@b.c where each of a, b and c is one or more characters
    other than white space and '@' (so b and c may themselves contain
    dots); a missing or empty field is not accepted.  The browser's
    validateEmail accepts a value exactly when the value without the white
    space around it has that shape. *)
Theorem validateEmail_shape (email : jsval) (value : string) :
  form_field email ->
  (truthy (_validateEmail email) = true <-> exists s, email = JStr s /\ email_shape s) /\
  (Client.validateEmail value = true <-> email_shape (trim value)).
Proof.
  intros Hf. split; [by apply validateEmail_spec|].
  unfold Client.validateEmail. apply emailRegex_spec.
Qed.

Lemma validateEmail_shape_witness :
  (truthy (_validateEmail (JStr "a@b.c")) = true <->
     exists s, JStr "a@b.c" = JStr s /\ email_shape s) /\
  (Client.validateEmail " a@b.c " = true <-> email_shape (trim " a@b.c ")).
Proof.
  apply (validateEmail_shape (JStr "a@b.c") " a@b.c "). left. by eexists.
Defined.

(* white space of the e-mail rule includes the no-break space *)
Example validateEmail_no_break_space :
  _validateEmail (JStr (String "a" (String NBSP "b@c.d"))) = JBool false /\
  _validateEmail (JStr "a@b.c") = JBool true /\
  _validateEmail (JNum 5) = JBool false.
Proof. repeat split; vm_compute; reflexivity. Qed.

Lemma mobileRegex_spec s :
  test mobileRegex (filter_chars is_digit s) = true <->
  String.length (filter_chars is_digit s) = 10.
Proof.
  unfold mobileRegex. cbn [test].
  assert (all_chars is_digit (filter_chars is_digit s) = true) as Hall.
  { induction s as [|c s IH]; simpl; [done|].
    destruct (is_digit c) eqn:E; simpl; [by rewrite E|done]. }
  destruct (eat Digit 10 (filter_chars is_digit s)) as [r|] eqn:E.
  - apply eat_spec in E as (pre & Hs & Hlen & _). rewrite Hs, length_append, Hlen. split.
    + intros Hr. apply String.eqb_eq in Hr as ->. simpl. lia.
    + intros Hr. apply String.eqb_eq. destruct r; [done | simpl in Hr; lia].
  - split; [discriminate|]. intros Hlen. exfalso.
    assert (eat Digit 10 (filter_chars is_digit s) = Some "") as E'.
    { apply eat_spec. exists (filter_chars is_digit s).
      by rewrite append_empty_r. }
    congruence.
Qed.

Lemma validateMobile_spec (mobile : jsval) :
  form_field mobile ->
  exists v, _validateMobile mobile = Normal v /\
    (truthy v = true <->
     exists s, mobile = JStr s /\ String.length (filter_chars is_digit s) = 10).
Proof.
  unfold _validateMobile. intros [[s ->]|Hf].
  - destruct s as [|c s].
    + eexists. split; [reflexivity|]. split; [discriminate|].
      intros (s' & [= <-] & Hlen). discriminate Hlen.
    + change (truthy (JStr (String c s))) with true. cbv iota.
      eexists. split; [reflexivity|]. cbn [truthy]. rewrite mobileRegex_spec.
      split; [by eexists|]. by intros (s' & [= <-] & H).
  - rewrite Hf. eexists. split; [reflexivity|]. split; [congruence|].
    intros (s & -> & Hlen). destruct s; [discriminate Hlen | discriminate Hf].
Qed.

Lemma form_field_string_or_falsy v :
  form_field v -> (exists c s, v = JStr (String c s)) \/ truthy v = false.
Proof.
  intros [[[|c s] ->]|Hf]; [by right | left; by eexists _, _ | by right].
Qed.

Lemma postStep1_redirects sess body :
  form_body body ->
  snd (postStep1 sess body) = Redirect "/register/step2" <-> step1_valid body.
Proof.
  intros (Hname & Hemail & Hmobile & Hpw & Hconfirm).
  unfold postStep1, step1_valid, step1_fields, step1_error. cbv zeta.
  destruct (form_field_string_or_falsy _ Hname) as [(c & name & En)|Hn].
  2:{ rewrite Hn. cbn [negb bindc]. split; [discriminate|].
      intros (n & ? & ? & ? & En & _ & _ & _ & _ & Hl & _). rewrite En in Hn.
      destruct n; [simpl in Hl; lia | discriminate Hn]. }
  rewrite En. change (truthy (JStr (String c name))) with true. cbn [negb bindc].
  destruct (String.length (trim (String c name)) <? 2)%nat eqn:Hl;
    [split; [discriminate|]; intros (? & ? & ? & ? & [= <-] & _ & _ & _ & _ & Hl' & _);
      apply Nat.ltb_lt in Hl; lia|].
  apply Nat.ltb_ge in Hl.
  destruct (truthy (_validateEmail (s1_email body))) eqn:He; cbn [negb];
    [|split; [discriminate|];
      intros (? & email & ? & ? & _ & Hem & _ & _ & _ & _ & Hs & _);
      assert (truthy (_validateEmail (s1_email body)) = true) as He'
        by (apply validateEmail_spec; [done | by exists email]);
      congruence].
  apply validateEmail_spec in He as (email & Hem & Hshape); [|done].
  destruct (validateMobile_spec _ Hmobile) as (okMobile & -> & Hok). cbn [bindc].
  destruct (truthy okMobile) eqn:Hm; cbn [negb];
    [|split; [discriminate|];
      intros (? & ? & mobile & ? & _ & _ & Hmo & _ & _ & _ & _ & Hd & _);
      assert (false = true) by (apply Hok; by exists mobile);
      discriminate].
  destruct (proj1 Hok eq_refl) as (mobile & Hmo & Hd).
  destruct (form_field_string_or_falsy _ Hpw) as [(c' & pw & Ep)|Hp].
  2:{ rewrite Hp. cbn [negb orb]. split; [discriminate|].
      intros (? & ? & ? & p & _ & _ & _ & Ep & _ & _ & _ & _ & Hl'). rewrite Ep in Hp.
      destruct p; [simpl in Hl'; lia | discriminate Hp]. }
  rewrite Ep. change (truthy (JStr (String c' pw))) with true. cbn [negb orb].
  unfold length_lt. cbn [js_length].
  destruct (String.length (String c' pw) <? 8)%nat eqn:Hp;
    [split; [discriminate|];
      intros (? & ? & ? & ? & _ & _ & _ & [= <-] & _ & _ & _ & _ & Hp');
      apply Nat.ltb_lt in Hp; lia|].
  apply Nat.ltb_ge in Hp.
  destruct (strict_eq (JStr (String c' pw)) (s1_confirmPassword body)) eqn:Hc; cbn [negb].
  - split; [|intros _; reflexivity]. intros _.
    exists (String c name), email, mobile, (String c' pw).
    repeat (split; [done|]). split; [|done].
    unfold strict_eq in Hc. destruct (s1_confirmPassword body); try discriminate Hc.
    apply bool_decide_eq_true in Hc. by symmetry.
  - split; [discriminate|]. intros (? & ? & ? & ? & _ & _ & _ & [= <-] & Hc' & _).
    rewrite Hc' in Hc. unfold strict_eq in Hc.
    by rewrite bool_decide_eq_true_2 in Hc.
Qed.

Lemma postStep1_cases sess body :
  form_body body ->
  (step1_valid body /\
   exists u,
     postStep1 sess body = ({| tempUser := Some u |}, Redirect "/register/step2") /\
     tu_fullName u = s1_fullName body /\
     tu_email u = s1_email body /\
     tu_mobile u = s1_mobile body /\
     tu_password u = s1_password body /\
     identity_absent u) \/
  (~ step1_valid body /\
   exists msg, postStep1 sess body = (sess, Render 400 "register-step1" (Some msg))).
Proof.
  intros Hform. rewrite <- (postStep1_redirects sess body Hform).
  destruct Hform as (Hname & _ & Hmobile & _).
  unfold postStep1, step1_error. cbv zeta.
  destruct (validateMobile_spec _ Hmobile) as (okMobile & -> & _).
  destruct (form_field_string_or_falsy _ Hname) as [(c & name & ->)|Hn].
  - change (truthy (JStr (String c name))) with true. cbn [negb bindc].
    repeat (match goal with |- context [if ?c then _ else _] => destruct c end;
            [right; split; [discriminate | by eexists]|]).
    left. split; [reflexivity|]. eexists. split; [reflexivity|]. by repeat split.
  - rewrite Hn. cbn [negb bindc]. right. split; [discriminate | by eexists].
Qed.

(** X17. For a body whose five fields are form fields (strings, or missing
    or otherwise falsy values), POST /register/step1 redirects to step 2
    exactly when the full name has at least 2 characters after trimming, the
    e-mail has the shape a@b.c, the mobile number contains exactly ten
    digits (other characters are ignored), the password has at least 8
    characters and the confirmation equals it.  It then stores the fields as
    submitted, with no Aadhaar or PAN, replacing any earlier record;
    otherwise it answers 400 and leaves the session as it was. *)
Theorem postStep1_outcome sess body :
  form_body body ->
  (step1_valid body ->
   exists u,
     postStep1 sess body = ({| tempUser := Some u |}, Redirect "/register/step2") /\
     tu_fullName u = s1_fullName body /\
     tu_email u = s1_email body /\
     tu_mobile u = s1_mobile body /\
     tu_password u = s1_password body /\
     identity_absent u) /\
  (~ step1_valid body ->
   exists msg, postStep1 sess body = (sess, Render 400 "register-step1" (Some msg))).
Proof.
  intros Hform.
  destruct (postStep1_cases sess body Hform) as [[Hv H]|[Hv H]]; split; intros Hv'.
  - exact H.
  - contradiction.
  - contradiction.
  - exact H.
Qed.

Lemma postStep1_outcome_witness :
  exists u,
    postStep1 {| tempUser := None |} valid_step1
      = ({| tempUser := Some u |}, Redirect "/register/step2") /\
    tu_fullName u = s1_fullName valid_step1.
Proof.
  destruct (postStep1_outcome {| tempUser := None |} valid_step1) as [H _].
  - repeat split; left; by eexists.
  - destruct H as (u & Hrun & Hname & _).
    + exists "Asha Rao", "asha@example.org", "98765-43210", "correct horse".
      repeat (split; [reflexivity|]). split; [vm_compute; lia|].
      split; [|split; [vm_compute; reflexivity | vm_compute; lia]].
      exists "asha", "example", "org". repeat split; done.
    + by exists u.
Defined.

(* fields that are not form fields: a password and a confirmation that are
   the same number pass the length check; a full name that is a number makes
   the handler throw, which it answers with 500 *)
Example postStep1_other_values :
  snd (postStep1 {| tempUser := None |}
         {| s1_fullName := JStr "Asha Rao"; s1_email := JStr "asha@example.org";
            s1_mobile := JStr "9876543210"; s1_password := JNum 1;
            s1_confirmPassword := JNum 1; s1_marketing_name := JUndefined;
            s1_marketing_email := JUndefined; s1_marketing_mobile := JUndefined |})
    = Redirect "/register/step2" /\
  snd (postStep1 {| tempUser := None |}
         {| s1_fullName := JNum 12; s1_email := JStr "asha@example.org";
            s1_mobile := JStr "9876543210"; s1_password := JStr "correct horse";
            s1_confirmPassword := JStr "correct horse";
            s1_marketing_name := JUndefined;
            s1_marketing_email := JUndefined; s1_marketing_mobile := JUndefined |})
    = Render 500 "register-step1" (Some "An error occurred. Please try again.").
Proof. split; vm_compute; reflexivity. Qed.
(* ---------------- the browser's validators and the server's ---------------- *)

Lemma all_chars_app f a b :
  all_chars f (a ++ b)%string = all_chars f a && all_chars f b.
Proof.
  induction a as [|c a IH]; [done|]. rewrite append_cons. simpl.
  by rewrite IH, andb_assoc.
Qed.

Lemma trimEnd_no_ws s :
  all_chars (fun c => negb (is_ws c)) s = true -> trimEnd s = s.
Proof.
  induction s as [|c s IH]; simpl; [done|].
  intros H. apply andb_true_iff in H as [Hc Hs]. rewrite (IH Hs).
  apply negb_true_iff in Hc. by rewrite Hc.
Qed.

Lemma trim_no_ws s :
  all_chars (fun c => negb (is_ws c)) s = true -> trim s = s.
Proof.
  intros H. unfold trim.
  assert (trimStart s = s) as ->.
  { destruct s as [|c s]; [done|]. simpl. simpl in H.
    apply andb_true_iff in H as [Hc _]. apply negb_true_iff in Hc. by rewrite Hc. }
  by apply trimEnd_no_ws.
Qed.

Lemma email_part_no_ws s :
  all_chars (in_set NotSpaceNorAt) s = true ->
  all_chars (fun c => negb (is_ws c)) s = true.
Proof.
  induction s as [|c s IH]; simpl; [done|].
  intros H. apply andb_true_iff in H as [Hc Hs].
  apply andb_true_iff in Hc as [Hc _]. by rewrite Hc, IH.
Qed.

Lemma email_shape_no_ws s :
  email_shape s -> all_chars (fun c => negb (is_ws c)) s = true.
Proof.
  intros (a & b & c & -> & [_ Ha] & [_ Hb] & [_ Hc]).
  rewrite !all_chars_app.
  rewrite (email_part_no_ws _ Ha), (email_part_no_ws _ Hb), (email_part_no_ws _ Hc).
  reflexivity.
Qed.

Lemma isStep1Valid_and fullName email mobile password confirmPassword :
  Client.isStep1Valid fullName email mobile password confirmPassword =
    Client.validateName fullName && Client.validateEmail email &&
    Client.validateMobile mobile && Client.validatePassword password &&
    Client.validatePasswordMatch password confirmPassword.
Proof.
  unfold Client.isStep1Valid. cbv zeta.
  by destruct (Client.validateName _), (Client.validateEmail _),
    (Client.validateMobile _), (Client.validatePassword _),
    (Client.validatePasswordMatch _ _).
Qed.

Lemma isStep1Valid_spec fullName email mobile password confirmPassword :
  Client.isStep1Valid fullName email mobile password confirmPassword = true <->
  step1_fields fullName (trim email) mobile password /\ confirmPassword = password.
Proof.
  rewrite isStep1Valid_and, !andb_true_iff.
  unfold step1_fields, Client.validateName, Client.validateEmail,
    Client.validateMobile, Client.validatePassword, Client.validatePasswordMatch.
  rewrite !negb_true_iff, !Nat.ltb_ge, Nat.eqb_eq, String.eqb_eq, emailRegex_spec.
  intuition.
Qed.

(** X18. Step 1 in the browser and on the server: for the same five field
    values, strings as the form sends them, the server accepts the form
    exactly when the browser's
    isStep1Valid does and the e-mail has no white space around it.  The
    browser trims the e-mail before testing it, the server does not. *)
Theorem step1_client_server sess fullName email mobile password confirmPassword m1 m2 m3 :
  snd (postStep1 sess
         {| s1_fullName := JStr fullName; s1_email := JStr email;
            s1_mobile := JStr mobile; s1_password := JStr password;
            s1_confirmPassword := JStr confirmPassword;
            s1_marketing_name := m1; s1_marketing_email := m2;
            s1_marketing_mobile := m3 |})
    = Redirect "/register/step2"
  <-> Client.isStep1Valid fullName email mobile password confirmPassword = true /\
      trim email = email.
Proof.
  rewrite postStep1_redirects by (repeat split; left; by eexists).
  rewrite isStep1Valid_spec. unfold step1_valid. simpl. split.
  - intros (n & e & m & p & [= <-] & [= <-] & [= <-] & [= <-] & [= ->] & Hf).
    assert (trim email = email) as Ht
      by (apply trim_no_ws, email_shape_no_ws; by destruct Hf as (_ & ? & _)).
    rewrite Ht. done.
  - intros [[Hf ->] Ht]. rewrite Ht in Hf. by exists fullName, email, mobile, password.
Qed.

(** X19. Step 2 in the browser and on the server: with a step-1 record in
    the session, the server accepts the Aadhaar and PAN strings exactly when
    the browser's isStep2Valid does. *)
Theorem step2_client_server u aadhaar pan :
  snd (postStep2 {| session := {| tempUser := Some u |};
                    body_aadhaar := JStr aadhaar; body_pan := JStr pan |})
    = Redirect "/register/step3"
  <-> Client.isStep2Valid aadhaar pan = true.
Proof.
  assert (Client.isStep2Valid aadhaar pan =
          Client.validateAadhaar aadhaar && Client.validatePAN pan) as ->
    by (unfold Client.isStep2Valid; cbv zeta;
        by destruct (Client.validateAadhaar _), (Client.validatePAN _)).
  unfold postStep2, Client.validateAadhaar, Client.validatePAN.
  cbv zeta. cbn [tempUser session body_aadhaar body_pan].
  destruct aadhaar as [|a0 aadhaar]; [split; discriminate|].
  change (_validateAadhaar (JStr (String a0 aadhaar)))
    with (Normal (JBool (test aadhaarRegex
                           (filter_chars (fun c => negb (is_ws c)) (String a0 aadhaar))))).
  cbn [bindc truthy].
  destruct (test aadhaarRegex _) eqn:Ha; cbn [negb]; [|split; discriminate].
  destruct pan as [|p0 pan]; [split; discriminate|].
  change (_validatePAN (JStr (String p0 pan)))
    with (Normal (JBool (test panRegex (toUpperCase (String p0 pan))))).
  cbn [bindc truthy].
  destruct (test panRegex _) eqn:Hp; cbn [negb]; [|split; discriminate].
  split; reflexivity.
Qed.

(* ---------------- formatAadhaar ---------------- *)

Lemma filter_trimStart f s :
  (forall c, is_ws c = true -> f c = false) ->
  filter_chars f (trimStart s) = filter_chars f s.
Proof.
  intros Hf. induction s as [|c s IH]; simpl; [done|].
  destruct (is_ws c) eqn:Hw; [by rewrite (Hf c Hw) | done].
Qed.

Lemma filter_trimEnd f s :
  (forall c, is_ws c = true -> f c = false) ->
  filter_chars f (trimEnd s) = filter_chars f s.
Proof.
  intros Hf. induction s as [|c s IH]; simpl; [done|].
  destruct (is_ws c) eqn:Hw; simpl.
  - destruct (String.eqb (trimEnd s) "") eqn:He; simpl.
    + apply String.eqb_eq in He. rewrite He in IH. simpl in IH.
      by rewrite (Hf c Hw).
    + by rewrite (Hf c Hw).
  - by rewrite IH.
Qed.

Lemma filter_trim f s :
  (forall c, is_ws c = true -> f c = false) ->
  filter_chars f (trim s) = filter_chars f s.
Proof.
  intros Hf. unfold trim. by rewrite filter_trimEnd, filter_trimStart.
Qed.

Lemma space_after_4_digits_cons a t :
  exists u,
    Client.space_after_4_digits (String a t) = String a u /\
    (u = Client.space_after_4_digits t \/
     exists b c d r, t = String b (String c (String d r)) /\
       u = String b (String c (String d (String " " (Client.space_after_4_digits r))))).
Proof.
  destruct t as [|b [|c [|d r]]]; simpl; try (eexists; split; [reflexivity|by left]).
  destruct (is_digit a && is_digit b && is_digit c && is_digit d).
  - eexists. split; [reflexivity|]. right. by exists b, c, d, r.
  - eexists. split; [reflexivity|]. by left.
Qed.

Lemma filter_space_after_4_digits f s :
  f " "%char = false ->
  filter_chars f (Client.space_after_4_digits s) = filter_chars f s.
Proof.
  intros Hf.
  assert (forall n s, String.length s <= n ->
            filter_chars f (Client.space_after_4_digits s) = filter_chars f s) as H.
  { clear s. induction n as [|n IH]; intros [|a t] Hlen; try done; simpl in Hlen; [lia|].
    destruct (space_after_4_digits_cons a t) as (u & -> & [->|(b & c & d & r & -> & ->)]).
    - cbn [filter_chars]. rewrite IH by lia. done.
    - cbn [filter_chars]. rewrite Hf. rewrite IH by (simpl in Hlen; lia). done. }
  by apply (H (String.length s)).
Qed.

Lemma all_digits_filter s : all_chars is_digit (filter_chars is_digit s) = true.
Proof.
  induction s as [|c s IH]; simpl; [done|].
  destruct (is_digit c) eqn:E; simpl; [by rewrite E | done].
Qed.

Lemma all_chars_slice_to f n s :
  all_chars f s = true -> all_chars f (slice_to n s) = true.
Proof.
  revert s. induction n as [|n IH]; intros [|c s]; simpl; try done.
  intros H. apply andb_true_iff in H as [-> H]. by apply IH.
Qed.

Lemma length_slice_to n s : String.length (slice_to n s) = Nat.min n (String.length s).
Proof.
  revert s. induction n as [|n IH]; intros [|c s]; simpl; try done. by rewrite IH.
Qed.

Lemma slice_to_all n s : String.length s <= n -> slice_to n s = s.
Proof.
  revert s. induction n as [|n IH]; intros [|c s]; simpl; try done; try lia.
  intros H. rewrite IH; [done | lia].
Qed.

Lemma filter_all f s : all_chars f s = true -> filter_chars f s = s.
Proof.
  induction s as [|c s IH]; simpl; [done|].
  intros H. apply andb_true_iff in H as [-> H]. by rewrite IH.
Qed.

Lemma all_chars_impl (f g : ascii -> bool) s :
  (forall c, f c = true -> g c = true) -> all_chars f s = true -> all_chars g s = true.
Proof.
  intros Hfg. induction s as [|c s IH]; simpl; [done|].
  intros H. apply andb_true_iff in H as [Hc H]. by rewrite (Hfg c Hc), IH.
Qed.

Lemma digit_not_ws c : is_digit c = true -> negb (is_ws c) = true.
Proof.
  intros Hd. destruct (is_ws c) eqn:Hw; [|done].
  apply ws_not_digit in Hw. congruence.
Qed.

(* the digits that formatAadhaar keeps *)
Lemma formatAadhaar_digits f value :
  (forall c, is_ws c = true -> f c = false) ->
  (forall c, is_digit c = true -> f c = true) ->
  filter_chars f (Client.formatAadhaar value)
  = slice_to 12 (filter_chars is_digit value).
Proof.
  intros Hws Hd. unfold Client.formatAadhaar. cbv zeta.
  rewrite filter_trim by done.
  rewrite filter_space_after_4_digits by (by apply Hws).
  apply filter_all. apply (all_chars_impl is_digit); [done|].
  apply all_chars_slice_to, all_digits_filter.
Qed.

(** X20. formatAadhaar keeps the first twelve digits of the input and adds
    only white space: formatting again changes nothing, and the formatted
    value passes the browser's validateAadhaar, and the server's
    _validateAadhaar, exactly when the input contains at least twelve
    digits. *)
Theorem formatAadhaar_validates value :
  filter_chars is_digit (Client.formatAadhaar value)
    = slice_to 12 (filter_chars is_digit value) /\
  Client.formatAadhaar (Client.formatAadhaar value) = Client.formatAadhaar value /\
  (Client.validateAadhaar (Client.formatAadhaar value) = true <->
     12 <= String.length (filter_chars is_digit value)) /\
  (_validateAadhaar (JStr (Client.formatAadhaar value)) = Normal (JBool true) <->
     12 <= String.length (filter_chars is_digit value)).
Proof.
  assert (filter_chars is_digit (Client.formatAadhaar value)
          = slice_to 12 (filter_chars is_digit value)) as Hd
    by (apply formatAadhaar_digits; [apply ws_not_digit | done]).
  assert (Client.validateAadhaar (Client.formatAadhaar value) = true <->
          12 <= String.length (filter_chars is_digit value)) as Hv.
  { unfold Client.validateAadhaar.
    rewrite formatAadhaar_digits
      by (intros c Hc; first [by rewrite Hc | by apply digit_not_ws]).
    rewrite aadhaarRegex_spec. unfold twelve_digits.
    rewrite length_slice_to, (all_chars_slice_to _ _ _ (all_digits_filter value)).
    split; [intros [? _]; lia | intros ?; split; [lia | done]]. }
  split; [exact Hd|]. split; [|split; [exact Hv|]].
  - unfold Client.formatAadhaar at 1. cbv zeta. rewrite Hd.
    rewrite (slice_to_all 12 (slice_to 12 _)) by (rewrite length_slice_to; lia).
    reflexivity.
  - rewrite <- Hv. unfold Client.validateAadhaar, _validateAadhaar.
    destruct (Client.formatAadhaar value) as [|c s] eqn:E.
    + split; discriminate.
    + change (truthy (JStr (String c s))) with true. cbv iota.
      destruct (test aadhaarRegex _); split; (done || discriminate).
Qed.

(* ---------------- the registration session ---------------- *)

Lemma postStep1_session_ok sess body :
  form_body body ->
  session_ok sess -> session_ok (fst (postStep1 sess body)).
Proof.
  intros Hform Hok.
  destruct (postStep1_cases sess body Hform)
    as [[Hvalid (u & -> & Hn' & He & Hm & Hp & Habs)]|[_ (msg & ->)]]; [|exact Hok].
  destruct Hvalid as (n & e & m & p & En & Ee & Em & Ep & _ & Hf).
  unfold session_ok. simpl. split; [|by left].
  exists n, e, m, p. rewrite Hn', He, Hm, Hp, En, Ee, Em, Ep. by repeat (split; [reflexivity|]).
Qed.

Lemma postStep2_session_ok sess aadhaar pan :
  session_ok sess ->
  session_ok (fst (postStep2 {| session := sess; body_aadhaar := aadhaar;
                               body_pan := pan |})).
Proof.
  intros Hok. unfold postStep2. cbv zeta. cbn [session body_aadhaar body_pan].
  destruct (tempUser sess) as [u|] eqn:Eu; [|exact Hok].
  assert (step1_kept u) as Hkept
    by (unfold session_ok in Hok; rewrite Eu in Hok; tauto).
  unfold _validateAadhaar.
  destruct (truthy aadhaar) eqn:Hta; [|simpl; by rewrite Hta].
  destruct aadhaar as [| | | |a|]; try exact Hok.
  cbn [bindc truthy].
  destruct (test aadhaarRegex _) eqn:Ha; cbn [negb]; [|exact Hok].
  apply aadhaarRegex_spec in Ha.
  unfold _validatePAN.
  destruct (truthy pan) eqn:Htp; [|simpl; by rewrite Htp].
  destruct pan as [| | | |p|]; try exact Hok.
  cbn [bindc truthy].
  destruct (test panRegex _) eqn:Hp; cbn [negb]; [|exact Hok].
  apply panRegex_spec in Hp.
  destruct (maskAadhaar_valid a Ha) as (-> & _ & _).
  rewrite (maskPAN_valid p Hp). cbn [bindc fst].
  unfold session_ok. cbn [tempUser]. split.
  - destruct Hkept as (n & e & m & pw & ? & ? & ? & ? & ?). by exists n, e, m, pw.
  - right. by exists a, p.
Qed.

Lemma postStep3_session_ok sess body :
  session_ok sess -> session_ok (fst (postStep3 sess body)).
Proof.
  intros Hok. unfold postStep3. destruct (tempUser sess); [|exact Hok].
  destruct (_ || _); [exact Hok | exact I].
Qed.

Lemma reg_step_ok sess r :
  form_request r -> session_ok sess -> session_ok (reg_step sess r).
Proof.
  destruct r; simpl; intros Hform;
    [by apply postStep1_session_ok | apply postStep2_session_ok
     | apply postStep3_session_ok].
Qed.

Lemma fold_reg_step_ok rs sess :
  Forall form_request rs ->
  session_ok sess -> session_ok (fold_left reg_step rs sess).
Proof.
  revert sess. induction rs as [|r rs IH]; intros sess Hform Hok; [exact Hok|].
  inversion Hform; subst. simpl. apply IH; [done|]. by apply reg_step_ok.
Qed.

Lemma step1_valid_form body : step1_valid body -> form_body body.
Proof.
  intros (n & e & m & p & Hn & He & Hm & Hp & Hc & _).
  repeat split; left; by eexists.
Qed.

(** X21. After any sequence of POST /register/step1, step2 and step3
    requests on a fresh session, the fields of every step-1 body being form
    fields (strings, or missing or otherwise falsy values) and the values of
    steps 2 and 3 arbitrary, a tempUser record in the session holds the
    fields of a valid step 1 and either no identity numbers at all or a
    12-digit Aadhaar and a well-formed PAN together with their masks
    (eight stars and the last four digits; five characters, four stars and
    the last character).  GET /register/step3 shows the review page only in
    the second case. *)
Theorem registration_session_invariant (rs : list RegRequest) :
  Forall form_request rs ->
  session_ok (reg_run rs) /\
  (getStep3 false (reg_run rs) = Render 200 "register-step3" None <->
   exists u, tempUser (reg_run rs) = Some u /\ identity_held u).
Proof.
  intros Hform.
  assert (session_ok (reg_run rs)) as Hok by (by apply fold_reg_step_ok).
  split; [exact Hok|]. unfold getStep3. unfold session_ok in Hok.
  destruct (tempUser (reg_run rs)) as [u|].
  - destruct Hok as [_ [(Ha & _)|Hheld]].
    + rewrite Ha. simpl. split; [discriminate|].
      intros (u' & [= <-] & (a & p & _ & _ & Hm & _)). congruence.
    + pose proof Hheld as (a & p & _ & _ & -> & _).
      split; [intros _; by exists u | reflexivity].
  - simpl. split; [discriminate | by intros (u & ? & _)].
Qed.

Lemma registration_session_invariant_witness :
  session_ok (reg_run [PostStep1 valid_step1;
                       PostStep2 (JStr "1234 5678 9012") (JStr "abcde1234f")]) /\
  (getStep3 false (reg_run [PostStep1 valid_step1;
                            PostStep2 (JStr "1234 5678 9012") (JStr "abcde1234f")])
     = Render 200 "register-step3" None <->
   exists u, tempUser (reg_run [PostStep1 valid_step1;
                                PostStep2 (JStr "1234 5678 9012") (JStr "abcde1234f")])
             = Some u /\ identity_held u).
Proof.
  apply (registration_session_invariant
           [PostStep1 valid_step1;
            PostStep2 (JStr "1234 5678 9012") (JStr "abcde1234f")]).
  constructor; [|constructor; [exact I | constructor]].
  repeat split; left; by eexists.
Defined.

(** X22. POST /register/step3 does not ask for step 2: right after a valid
    step 1, where GET /register/step3 still redirects to step 2, a POST with
    both consent boxes on clears the record and redirects to
    /login?registered=true. *)
Theorem step3_completes_without_step2 sess body1 body3 :
  step1_valid body1 ->
  s3_aadhaarConsent body3 = JStr "on" -> s3_panConsent body3 = JStr "on" ->
  getStep3 false (fst (postStep1 sess body1)) = Redirect "/register/step2" /\
  postStep3 (fst (postStep1 sess body1)) body3
    = ({| tempUser := None |}, Redirect "/login?registered=true").
Proof.
  intros Hv Ha Hp.
  destruct (postStep1_cases sess body1 (step1_valid_form _ Hv))
    as [[_ (u & -> & _ & _ & _ & _ & Habs & _)]|[Hn _]];
    [|by destruct Hn].
  unfold getStep3, postStep3. cbn [fst tempUser]. rewrite Habs, Ha, Hp. by split.
Qed.

Lemma step3_completes_without_step2_witness :
  getStep3 false (fst (postStep1 {| tempUser := None |} valid_step1))
    = Redirect "/register/step2" /\
  postStep3 (fst (postStep1 {| tempUser := None |} valid_step1)) both_consents
    = ({| tempUser := None |}, Redirect "/login?registered=true").
Proof.
  apply (step3_completes_without_step2 {| tempUser := None |} valid_step1 both_consents).
  - exists "Asha Rao", "asha@example.org", "98765-43210", "correct horse".
    do 5 (split; [reflexivity|]).
    split; [vm_compute; lia|]. split; [|split; [reflexivity | vm_compute; lia]].
    exists "asha", "example", "org".
    split; [reflexivity|]. by repeat split.
  - reflexivity.
  - reflexivity.
Defined.

(* ---------------- the subject of the SDK calls ---------------- *)

Section Subjects.
Context {W : Type} (sdk : Sdk W).

Lemma getUserConsents_calls auth userId (e : Env W) :
  calls (fst (getUserConsents sdk auth userId e))
  = calls e ++ [GetUserConsents (_getPrivacyClient auth userId)].
Proof.
  unfold getUserConsents. run_async. cbv zeta.
  by destruct (sdk_getUserConsents sdk _ (ext e)) as [w [r|err]].
Qed.

Lemma hasRequiredConsents_calls auth p req (e : Env W) :
  calls (fst (hasRequiredConsents sdk auth p req e))
  = calls e ++ [GetUserConsents (_getPrivacyClient auth None)].
Proof.
  rewrite <- getUserConsents_calls.
  unfold hasRequiredConsents, getConsentForPurpose. cbv zeta.
  unfold try_catch at 1 2, bind at 1 2, ret, throw.
  destruct (getUserConsents sdk auth None e) as [e1 [cs|err]]; [|reflexivity].
  by repeat match goal with |- context [if ?c then _ else _] => destruct c end.
Qed.

Lemma getMissingRequiredConsents_calls auth p req (e : Env W) :
  calls (fst (getMissingRequiredConsents sdk auth p req e))
  = calls e ++ [GetUserConsents (_getPrivacyClient auth None)].
Proof.
  rewrite <- getUserConsents_calls.
  unfold getMissingRequiredConsents, getConsentForPurpose. cbv zeta.
  unfold try_catch at 1 2, bind at 1 2, ret, throw.
  destruct (getUserConsents sdk auth None e) as [e1 [cs|err]]; [|reflexivity].
  by repeat match goal with |- context [if ?c then _ else _] => destruct c end.
Qed.

Lemma session_client tok :
  _getPrivacyClient (session_auth tok) (subjectId (session_auth tok)) = user_client tok.
Proof.
  unfold _getPrivacyClient, user_client, session_auth. simpl.
  destruct (id_token_payload tok) as [p|]; [|reflexivity].
  by destruct (truthy_str (sub p)) eqn:E; simpl; rewrite ?E.
Qed.

(** X23. Whom the SDK is asked about.  The fetches of POST /itr/assess
    (one when the gate passes, two when it blocks) are made through a
    client whose context names no subject, although the request is logged
    in; the fetch of GET /consent/state and the calls of POST
    /consent/update are made through a client whose context names the sub
    of the session's id token. *)
Theorem subject_of_sdk_calls tok (e : Env W) (req : UpdateRequest) :
  (exists n,
     (n = 1 \/ n = 2) /\
     calls (fst (ITRController.assessAndFile sdk
                   {| ITRController.itr_authToken := Some tok |} e))
     = calls e ++ List.repeat (GetUserConsents (gate_client tok)) n) /\
  calls (fst (getConsentState sdk {| page_authToken := Some tok |} e))
    = calls e ++ [GetUserConsents (user_client tok)] /\
  (session_authToken req = Some tok ->
   exists new,
     calls (fst (updateConsentToggle sdk req e)) = calls e ++ new /\
     Forall (fun c => client_of c = user_client tok) new).
Proof.
  split; [|split].
  - rewrite assess_run.
    pose proof (hasRequiredConsents_calls (itr_auth tok) "ITR_FILING"
                  (Some itr_required) e) as H1.
    destruct (hasRequiredConsents sdk (itr_auth tok) "ITR_FILING" (Some itr_required) e)
      as [e1 [[|]|err]]; simpl in H1; try (exists 1; split; [by left | exact H1]).
    pose proof (getMissingRequiredConsents_calls (itr_auth tok) "ITR_FILING"
                  (Some itr_required) e1) as H2.
    destruct (getMissingRequiredConsents sdk (itr_auth tok) "ITR_FILING"
                (Some itr_required) e1) as [e2 [m|err]]; simpl in H2;
      exists 2; (split; [by right|]); simpl; rewrite H2, H1, <- app_assoc; reflexivity.
  - rewrite getConsentState_run, <- session_client, <- getUserConsents_calls.
    destruct (getUserConsents sdk _ _ e) as [e1 [cs|err]]; [|done].
    by destruct (_buildConsentState (Some cs)).
  - intros Htok. unfold updateConsentToggle. rewrite Htok. unfold try_catch at 1.
    destruct (negb (truthy (body_purposeId req)) || negb (truthy (body_attributeId req))).
    { exists []. split; [by rewrite app_nil_r | constructor]. }
    fold (session_auth tok).
    assert (exists new,
              calls (fst (PrivacyService.updateConsent sdk (session_auth tok)
                            (body_purposeId req) (body_attributeId req)
                            (consentState_of (body_state req)) e)) = calls e ++ new /\
              Forall (fun c => client_of c = user_client tok) new) as (new & Hc & Hall).
    { destruct (updateConsent_cases sdk (session_auth tok) (body_purposeId req)
                  (body_attributeId req) (consentState_of (body_state req)) e)
        as [(w1 & err & ->)|(w1 & ->)]; unfold update_calls, update_client;
        rewrite session_client.
      - eexists. split; [reflexivity|]. by repeat constructor.
      - destruct (sdk_storeConsents sdk _ _ w1) as [w2 r].
        eexists. split; [reflexivity|]. by repeat constructor. }
    exists new. split; [|exact Hall]. rewrite <- Hc.
    unfold try_catch, bind, ret.
    destruct (PrivacyService.updateConsent sdk _ _ _ _ e) as [e1 [[r|]|err]]; simpl;
      [by destruct (String.eqb (status r) "success") | done | done].
Qed.
End Subjects.
